(** * Port-proxy manager: registry editor and frpc supervisor

    A shallow embedding of [main.go] (the Go program of the repository) and the
    properties of its proxy-registry editor ([getFrpProxies], [appendToFrpc],
    [deleteFrpProxy], [registerWebUIToFrpc]), of its process supervisor
    ([getFrpcProcess], [stopFrpc], [startFrpc], [restartFrpc]), of the
    request handlers ([handleAddRule], [handleDeleteFrpProxy],
    [handleGetDefaultName], the handlers of the control of frpc), of the
    reader of the port-proxy rules ([getNetshRules], [parseNetshOutput]) and
    of the start of the program ([main]).

    Go strings are byte sequences: they are modelled as [list ascii]. *)

From Stdlib Require Import String Ascii List Bool Arith NArith ZArith Lia FunInd.
From Stdlib Require DecimalPos.
Import ListNotations.

Set Implicit Arguments.

(** ** The Go library functions the program calls *)

Module GoLib.

Definition gostring := list ascii.

(** A Go string literal. *)
Definition lit (s : string) : gostring := list_ascii_of_string s.

Definition LF : ascii := "010"%char.
Definition CR : ascii := "013"%char.
Definition QUOTE : ascii := "034"%char.

Fixpoint eqs (a b : gostring) : bool :=
  match a, b with
  | [], [] => true
  | x :: a', y :: b' => Ascii.eqb x y && eqs a' b'
  | _, _ => false
  end.

(** The bytes in reverse order. *)
Definition reverse (s : gostring) : gostring := rev_append s [].

(** [strings.HasPrefix] *)
Fixpoint HasPrefix (s prefix : gostring) : bool :=
  match prefix, s with
  | [], _ => true
  | p :: prefix', c :: s' => Ascii.eqb c p && HasPrefix s' prefix'
  | _ :: _, [] => false
  end.

(** [strings.HasSuffix] *)
Definition HasSuffix (s suffix : gostring) : bool :=
  HasPrefix (reverse s) (reverse suffix).

(** [strings.Contains] *)
Fixpoint Contains (s substr : gostring) : bool :=
  HasPrefix s substr ||
  match s with
  | [] => false
  | _ :: s' => Contains s' substr
  end.

(** [strings.Split(s, sep)] for a separator of one byte: the pieces between
    the separators, one piece more than there are separators. *)
Fixpoint Split (s : gostring) (sep : ascii) : list gostring :=
  match s with
  | [] => [[]]
  | c :: s' =>
      if Ascii.eqb c sep then [] :: Split s' sep
      else match Split s' sep with
           | piece :: pieces => (c :: piece) :: pieces
           | [] => [[c]]
           end
  end.

(** [strings.Join(elems, sep)] for a separator of one byte. *)
Fixpoint Join (elems : list gostring) (sep : ascii) : gostring :=
  match elems with
  | [] => []
  | [e] => e
  | e :: elems' => e ++ sep :: Join elems' sep
  end.

(** *** [strings.TrimSpace]

    [TrimSpace] removes the leading and the trailing runes for which
    [unicode.IsSpace] holds.  Those are the six ASCII bytes below and the
    runes U+0085, U+00A0, U+1680, U+2000..U+200A, U+2028, U+2029, U+202F,
    U+205F and U+3000, which the UTF-8 decoder recognises by their two- and
    three-byte encodings; any other byte sequence decodes to a rune that is
    not a space (an invalid one to U+FFFD). *)

Definition asciiSpace (c : ascii) : bool :=
  match nat_of_ascii c with
  | 9 | 10 | 11 | 12 | 13 | 32 => true
  | _ => false
  end.

(** C2 85 (U+0085) and C2 A0 (U+00A0). *)
Definition space2 (c1 c2 : ascii) : bool :=
  Ascii.eqb c1 "194" && (Ascii.eqb c2 "133" || Ascii.eqb c2 "160").

(** E1 9A 80 (U+1680); E2 80 80..8A, E2 80 A8, E2 80 A9, E2 80 AF,
    E2 81 9F (U+2000..U+200A, U+2028, U+2029, U+202F, U+205F);
    E3 80 80 (U+3000). *)
Definition space3 (c1 c2 c3 : ascii) : bool :=
  (Ascii.eqb c1 "225" && Ascii.eqb c2 "154" && Ascii.eqb c3 "128")
  || (Ascii.eqb c1 "226" && Ascii.eqb c2 "128"
      && ((128 <=? nat_of_ascii c3) && (nat_of_ascii c3 <=? 138)
          || Ascii.eqb c3 "168" || Ascii.eqb c3 "169" || Ascii.eqb c3 "175"))
  || (Ascii.eqb c1 "226" && Ascii.eqb c2 "129" && Ascii.eqb c3 "159")
  || (Ascii.eqb c1 "227" && Ascii.eqb c2 "128" && Ascii.eqb c3 "128").

(** Leading spaces: decode the rune at the front, drop it when it is a space. *)
Fixpoint trimLeftSpace (s : gostring) : gostring :=
  match s with
  | [] => []
  | c1 :: s1 =>
      if asciiSpace c1 then trimLeftSpace s1
      else match s1 with
           | [] => s
           | c2 :: s2 =>
               if space2 c1 c2 then trimLeftSpace s2
               else match s2 with
                    | [] => s
                    | c3 :: s3 =>
                        if space3 c1 c2 c3 then trimLeftSpace s3 else s
                    end
           end
  end.

(** Trailing spaces, on the reversed string: decode the last rune, drop it
    when it is a space. *)
Fixpoint trimLastSpace (r : gostring) : gostring :=
  match r with
  | [] => []
  | c1 :: r1 =>
      if asciiSpace c1 then trimLastSpace r1
      else match r1 with
           | [] => r
           | c2 :: r2 =>
               if space2 c2 c1 then trimLastSpace r2
               else match r2 with
                    | [] => r
                    | c3 :: r3 =>
                        if space3 c3 c2 c1 then trimLastSpace r3 else r
                    end
           end
  end.

Definition trimRightSpace (s : gostring) : gostring :=
  reverse (trimLastSpace (reverse s)).

Definition TrimSpace (s : gostring) : gostring :=
  trimRightSpace (trimLeftSpace s).

(** *** [regexp]: the patterns of the program

    All the program's patterns are anchored at the start of the text and
    have one of two shapes: spaces, a key, spaces, an equals sign, spaces,
    and then either a double quote, a greedy group of any characters and a
    double quote, or a group of one or more digits.  Go's space class is
    tab, line feed, form feed, carriage return and space; the dot is any
    character but a line feed; a digit is an ASCII digit; star and plus are
    greedy.  The functions return the text of the capture group, [None]
    when [FindStringSubmatch] returns no match. *)

Definition reSpace (c : ascii) : bool :=
  match nat_of_ascii c with
  | 9 | 10 | 12 | 13 | 32 => true
  | _ => false
  end.

Definition reDigit (c : ascii) : bool :=
  (48 <=? nat_of_ascii c) && (nat_of_ascii c <=? 57).

(** Zero or more of the space class. *)
Fixpoint skipSpaces (s : gostring) : gostring :=
  match s with
  | [] => []
  | c :: s' => if reSpace c then skipSpaces s' else s
  end.

(** A literal: what follows it, when [s] starts with it. *)
Fixpoint skipLit (p s : gostring) : option gostring :=
  match p, s with
  | [], _ => Some s
  | x :: p', c :: s' => if Ascii.eqb c x then skipLit p' s' else None
  | _ :: _, [] => None
  end.

(** The greedy group of any characters and the double quote after it: the
    group ends at the last double quote that only characters other than
    line feeds separate from the start. *)
Fixpoint greedyToQuote (s : gostring) : option gostring :=
  match s with
  | [] => None
  | c :: s' =>
      if Ascii.eqb c LF then None
      else match greedyToQuote s' with
           | Some capture => Some (c :: capture)
           | None => if Ascii.eqb c QUOTE then Some [] else None
           end
  end.

(** The longest run of digits. *)
Fixpoint takeDigits (s : gostring) : gostring :=
  match s with
  | [] => []
  | c :: s' => if reDigit c then c :: takeDigits s' else []
  end.

(** Spaces, the key, spaces, the equals sign, spaces: what follows them. *)
Definition matchKeyEq (key s : gostring) : option gostring :=
  match skipLit key (skipSpaces s) with
  | Some s1 =>
      match skipLit (lit "=") (skipSpaces s1) with
      | Some s2 => Some (skipSpaces s2)
      | None => None
      end
  | None => None
  end.

Definition matchQuoted (key s : gostring) : option gostring :=
  match matchKeyEq key s with
  | Some v =>
      match skipLit [QUOTE] v with
      | Some v' => greedyToQuote v'
      | None => None
      end
  | None => None
  end.

Definition matchDigits (key s : gostring) : option gostring :=
  match matchKeyEq key s with
  | Some v =>
      match takeDigits v with
      | [] => None
      | ds => Some ds
      end
  | None => None
  end.

(** *** [bufio.Scanner] with the default split function [ScanLines]

    The tokens are the lines of the input without their line feed and
    without one trailing carriage return; a final empty line is no token.
    The scanner's buffer holds at most [MaxScanTokenSize] bytes: when a line
    (with its carriage return) does not leave room for one more byte, [Scan]
    returns false for good, as it does at the end of the input. *)

Definition MaxScanTokenSize : N := 65536.

Definition lenN (s : gostring) : N :=
  fold_left (fun n _ => N.succ n) s 0%N.

Definition dropCR (data : gostring) : gostring :=
  match reverse data with
  | c :: r => if Ascii.eqb c CR then reverse r else data
  | [] => data
  end.

Fixpoint rawTokens (pieces : list gostring) : list gostring :=
  match pieces with
  | [] => []
  | [p] => match p with [] => [] | _ :: _ => [p] end
  | p :: ps => p :: rawTokens ps
  end.

Fixpoint scanTokens (raw : list gostring) : list gostring :=
  match raw with
  | [] => []
  | t :: raw' =>
      if (lenN t <? MaxScanTokenSize)%N then dropCR t :: scanTokens raw'
      else []
  end.

(** The successive values of [scanner.Text()] in [for scanner.Scan()]. *)
Definition ScanLines (data : gostring) : list gostring :=
  scanTokens (rawTokens (Split data LF)).

(** *** [fmt] *)

Fixpoint fmtUint (d : Decimal.uint) : gostring :=
  match d with
  | Decimal.Nil => []
  | Decimal.D0 d' => "0"%char :: fmtUint d'
  | Decimal.D1 d' => "1"%char :: fmtUint d'
  | Decimal.D2 d' => "2"%char :: fmtUint d'
  | Decimal.D3 d' => "3"%char :: fmtUint d'
  | Decimal.D4 d' => "4"%char :: fmtUint d'
  | Decimal.D5 d' => "5"%char :: fmtUint d'
  | Decimal.D6 d' => "6"%char :: fmtUint d'
  | Decimal.D7 d' => "7"%char :: fmtUint d'
  | Decimal.D8 d' => "8"%char :: fmtUint d'
  | Decimal.D9 d' => "9"%char :: fmtUint d'
  end.

(** The verb [%d] of [fmt.Sprintf] on an [int]. *)
Definition fmtInt (z : Z) : gostring :=
  match Z.to_int z with
  | Decimal.Pos d => fmtUint d
  | Decimal.Neg d => "-"%char :: fmtUint d
  end.

(** [fmt.Sscanf] with the verb [%d] on a string that does not start with a space
    (the program passes a result of [TrimSpace]): an optional sign, then the
    longest run of the characters [0123456789], which must not be empty and
    which [strconv.ParseInt] reads in base 10 and 64 bits; it refuses a
    value out of range.  What follows the run is left unread.  [None] is a
    scan error, which leaves the variable as it was. *)

(** The digits of the verb [%d]: [decimalDigits]. *)
Definition scanDigit (c : ascii) : bool :=
  reDigit c.

Fixpoint takeNumber (s : gostring) : gostring :=
  match s with
  | [] => []
  | c :: s' => if scanDigit c then c :: takeNumber s' else []
  end.

Fixpoint parseDecimal (acc : Z) (s : gostring) : option Z :=
  match s with
  | [] => Some acc
  | c :: s' =>
      if reDigit c
      then parseDecimal (10 * acc + Z.of_nat (nat_of_ascii c - 48)) s'
      else None
  end.

Definition inInt64 (z : Z) : bool :=
  ((- 2 ^ 63 <=? z) && (z <=? 2 ^ 63 - 1))%Z.

Definition Sscanf_d (s : gostring) : option Z :=
  let (negative, body) :=
    match s with
    | c :: s' =>
        if Ascii.eqb c "-" then (true, s')
        else if Ascii.eqb c "+" then (false, s')
        else (false, s)
    | [] => (false, s)
    end in
  match takeNumber body with
  | [] => None
  | tok =>
      match parseDecimal 0 tok with
      | Some n =>
          let v := if negative then (- n)%Z else n in
          if inInt64 v then Some v else None
      | None => None
      end
  end.

(** *** [strings.Fields]

    [Fields] cuts the string around each run of runes for which
    [unicode.IsSpace] holds and returns the pieces between the runs, none of
    them empty.  A lead byte of a space rune is never inside another rune, so
    the loop below finds the same space runes as the decoder of [range]. *)

(** The width in bytes of the space rune at the front, 0 when there is
    none. *)
Definition spaceWidth (s : gostring) : nat :=
  match s with
  | [] => 0
  | c1 :: s1 =>
      if asciiSpace c1 then 1
      else match s1 with
           | [] => 0
           | c2 :: s2 =>
               if space2 c1 c2 then 2
               else match s2 with
                    | [] => 0
                    | c3 :: _ => if space3 c1 c2 c3 then 3 else 0
                    end
           end
  end.

(** The span from [start] to [end], when a field is open. *)
Definition closeField (field : gostring) : list gostring :=
  match field with
  | [] => []
  | _ => [field]
  end.

(** The loop over the string: [skip] bytes of a space rune are still to be
    passed, [field] is the open field, empty when none is open. *)
Fixpoint fieldsLoop (skip : nat) (field s : gostring) : list gostring :=
  match s with
  | [] => closeField field
  | c :: s' =>
      match skip with
      | S k => fieldsLoop k field s'
      | 0 =>
          match spaceWidth s with
          | 0 => fieldsLoop 0 (field ++ [c]) s'
          | S k => closeField field ++ fieldsLoop k [] s'
          end
      end
  end.

Definition Fields (s : gostring) : list gostring :=
  fieldsLoop 0 [] s.

End GoLib.

Import GoLib.

(** ** The data of the program *)

(** Go's [error], by its message. *)
Definition error := gostring.

(** A Go result [(T, error)]. *)
Inductive result (A : Type) : Type :=
| Ok (a : A)
| Err (e : error).
Arguments Ok {A} a.
Arguments Err {A} e.

Module Config.
Record t := {
  Port : Z;
  FrpcTomlPath : gostring;
  FrpcExePath : gostring;
  AutoRegisterToFrp : bool;
  WebUIProxyName : gostring;
  WebUIRemotePort : Z;
  Name : gostring
}.
End Config.

Module FrpProxy.
Record t := {
  Name : gostring;
  Type_ : gostring;
  LocalIP : gostring;
  LocalPort : gostring;
  RemotePort : gostring
}.
(** [FrpProxy{}] *)
Definition zero : t := Build_t [] [] [] [] [].
End FrpProxy.

Module AddRuleRequest.
Record t := {
  ListenPort : gostring;
  ConnectAddr : gostring;
  ConnectPort : gostring;
  RemotePort : gostring;
  Type_ : gostring;
  Name : gostring
}.
End AddRuleRequest.

Module Rule.
Record t := {
  ListenAddress : gostring;
  ListenPort : gostring;
  ConnectAddress : gostring;
  ConnectPort : gostring
}.
End Rule.

(** ** The machine the program runs on

    The state the program acts on: the file at [config.FrpcTomlPath], the
    rest of the operating system, and the sequence of the calls made so far.
    The file is either its content or the error that opening it gives; a
    write to the opened file succeeds.  The operating system is a state of
    any type [W] with the answers of the calls the program makes.  Beside
    the calls of the operating system, the trace records the entry of each
    function of the program ([EvEnter]), to count the calls of one function
    by another. *)

Inductive Event : Type :=
| EvLog (msg : gostring)
| EvOpen
| EvOpenAppend
| EvWriteString (data : gostring)
| EvReadFile
| EvWriteFile (data : gostring)
| EvOutput (argv : list gostring)
| EvRun (argv : list gostring)
| EvStart (argv : list gostring)
| EvFindProcess (pid : Z)
| EvOpenLogFile
| EvCloseLogFile
| EvEnter (fn : string).

Section Machine.

Variable W : Type.

Record Host := {
  (** [runtime.GOOS] *)
  GOOS : gostring;
  (** [exec.Command(argv...).Output()] *)
  cmdOutput : list gostring -> W -> result gostring * W;
  (** [exec.Command(argv...).Run()] *)
  cmdRun : list gostring -> W -> option error * W;
  (** [exec.Command(argv...).Start()], with [cmd.Process.Pid] *)
  cmdStart : list gostring -> W -> result Z * W;
  (** [os.FindProcess(pid)]: the process of that pid, or an error *)
  osFindProcess : Z -> W -> option error * W;
  (** [os.OpenFile] of the log file of frpc *)
  osOpenLogFile : W -> option error * W
}.

Record State := {
  toml : result gostring;
  world : W;
  trace : list Event
}.

Definition M (A : Type) : Type := State -> A * State.

Definition ret {A} (a : A) : M A := fun st => (a, st).

Definition bind {A B} (m : M A) (k : A -> M B) : M B :=
  fun st => let (a, st') := m st in k a st'.

Definition emit (e : Event) : M unit :=
  fun st => (tt, {| toml := toml st; world := world st;
                    trace := trace st ++ [e] |}).

Definition getToml : M (result gostring) :=
  fun st => (toml st, st).

Definition putToml (content : gostring) : M unit :=
  fun st => (tt, {| toml := Ok content; world := world st;
                    trace := trace st |}).

Definition syscall {A} (call : W -> A * W) : M A :=
  fun st => let (a, w) := call (world st) in
            (a, {| toml := toml st; world := w; trace := trace st |}).

End Machine.

Arguments ret {W A} a.
Arguments bind {W A B} m k.
Arguments emit {W} e.
Arguments getToml {W}.
Arguments putToml {W} content.
Arguments syscall {W A} call.

Notation "x <- m ;; k" := (bind m (fun x => k))
  (at level 61, m at next level, right associativity).
Notation "m ;;; k" := (bind m (fun _ => k))
  (at level 61, right associativity).

(** ** The registry: [frpc.toml] *)

Definition proxiesMarker : gostring := lit "[[proxies]]".

Definition reName : gostring -> option gostring := matchQuoted (lit "name").
Definition reType : gostring -> option gostring := matchQuoted (lit "type").
Definition reLocalIP : gostring -> option gostring :=
  matchQuoted (lit "localIP").
Definition reLocalPort : gostring -> option gostring :=
  matchDigits (lit "localPort").
Definition reRemotePort : gostring -> option gostring :=
  matchDigits (lit "remotePort").

(** *** [getFrpProxies] *)

(** The chain of [if matches := ...; len(matches) > 1] on the open record. *)
Definition setField (current : FrpProxy.t) (line : gostring) : FrpProxy.t :=
  let (n, t, ip, lp, rp) := current in
  match reName line with
  | Some v => FrpProxy.Build_t v t ip lp rp
  | None =>
  match reType line with
  | Some v => FrpProxy.Build_t n v ip lp rp
  | None =>
  match reLocalIP line with
  | Some v => FrpProxy.Build_t n t v lp rp
  | None =>
  match reLocalPort line with
  | Some v => FrpProxy.Build_t n t ip v rp
  | None =>
  match reRemotePort line with
  | Some v => FrpProxy.Build_t n t ip lp v
  | None => current
  end end end end end.

(** The variables [proxies] and [current] of the loop. *)
Record ParseState := {
  proxies : list FrpProxy.t;
  current : option FrpProxy.t
}.

Definition flush (ps : ParseState) : list FrpProxy.t :=
  match current ps with
  | Some c => proxies ps ++ [c]
  | None => proxies ps
  end.

(** One turn of [for scanner.Scan()]. *)
Definition parseLine (ps : ParseState) (text : gostring) : ParseState :=
  let line := TrimSpace text in
  if eqs line proxiesMarker
  then {| proxies := flush ps; current := Some FrpProxy.zero |}
  else match current ps with
       | Some c => {| proxies := proxies ps; current := Some (setField c line) |}
       | None => ps
       end.

Definition parseProxies (content : gostring) : list FrpProxy.t :=
  flush (fold_left parseLine (ScanLines content)
                   {| proxies := []; current := None |}).

Definition getFrpProxies {W} : M W (result (list FrpProxy.t)) :=
  emit (EvEnter "getFrpProxies") ;;;
  emit EvOpen ;;;
  file <- getToml ;;
  match file with
  | Err e => ret (Err e)
  | Ok content => ret (Ok (parseProxies content))
  end.

(** *** [appendToFrpc] and [registerWebUIToFrpc] *)

(** The text both writers build in their [strings.Builder], from the name
    and the printed ports. *)
Definition proxyBlock (name localPort remotePort : gostring) : gostring :=
  LF :: proxiesMarker ++ [LF]
  ++ (lit "name = " ++ QUOTE :: name ++ [QUOTE; LF])
  ++ (lit "type = " ++ QUOTE :: lit "tcp" ++ [QUOTE; LF])
  ++ (lit "localIP = " ++ QUOTE :: lit "127.0.0.1" ++ [QUOTE; LF])
  ++ (lit "localPort = " ++ localPort ++ [LF])
  ++ (lit "remotePort = " ++ remotePort ++ [LF]).

(** [os.OpenFile(config.FrpcTomlPath, os.O_APPEND|os.O_WRONLY, 0644)] and
    [io.WriteString]: the file is not created, and the text goes to its
    end. *)
Definition appendString {W} (text : gostring) : M W (option error) :=
  emit EvOpenAppend ;;;
  file <- getToml ;;
  match file with
  | Err e => ret (Some e)
  | Ok content =>
      emit (EvWriteString text) ;;;
      putToml (content ++ text) ;;;
      ret None
  end.

(** [fmt.Sprintf] of the naming convention of the rules. *)
Definition ruleProxyName (req : AddRuleRequest.t) : gostring :=
  AddRuleRequest.Name req ++ lit "-manager-"
  ++ AddRuleRequest.ConnectAddr req ++ lit "-"
  ++ AddRuleRequest.ConnectPort req.

Definition appendToFrpc {W} (req : AddRuleRequest.t) : M W (option error) :=
  emit (EvEnter "appendToFrpc") ;;;
  appendString (proxyBlock (ruleProxyName req)
                           (AddRuleRequest.ListenPort req)
                           (AddRuleRequest.RemotePort req)).

Definition webUIProxyFullName (config : Config.t) : gostring :=
  Config.Name config ++ lit "-" ++ Config.WebUIProxyName config.

Definition registerWebUIToFrpc {W} (config : Config.t) : M W (option error) :=
  emit (EvEnter "registerWebUIToFrpc") ;;;
  r <- getFrpProxies ;;
  match r with
  | Err e => ret (Some e)
  | Ok ps =>
      if existsb (fun p => eqs (FrpProxy.Name p) (webUIProxyFullName config)) ps
      then
        emit (EvLog (lit "Web UI 已经注册到 frpc.toml (名称: "
                     ++ webUIProxyFullName config ++ lit ")")) ;;;
        ret None
      else
        e <- appendString (proxyBlock (webUIProxyFullName config)
                                      (fmtInt (Config.Port config))
                                      (fmtInt (Config.WebUIRemotePort config))) ;;
        match e with
        | Some e => ret (Some e)
        | None =>
            emit (EvLog (lit "Web UI 已自动注册到 frpc.toml (名称: "
                         ++ webUIProxyFullName config
                         ++ lit ", 远程端口: "
                         ++ fmtInt (Config.WebUIRemotePort config)
                         ++ lit ")")) ;;;
            ret None
        end
  end.

(** *** [deleteFrpProxy] *)

(** The look-ahead of the loop at [lines[i+1]]. *)
Definition nextLineNames (proxyName : gostring) (rest : list gostring) : bool :=
  match rest with
  | nextLine :: _ =>
      match reName nextLine with
      | Some v => eqs v proxyName
      | None => false
      end
  | [] => false
  end.

Definition isSectionStart (trimmed : gostring) : bool :=
  eqs trimmed proxiesMarker
  || (HasPrefix trimmed (lit "[") && HasSuffix trimmed (lit "]")).

(** The loop over [lines], from index [i] on: [lines] here is [lines[i:]],
    the result is what the turns from [i] on append to [newLines]. *)
Fixpoint deleteLoop (proxyName : gostring) (skipProxy : bool)
         (lines : list gostring) : list gostring :=
  match lines with
  | [] => []
  | line :: rest =>
      let trimmed := TrimSpace line in
      if eqs trimmed proxiesMarker && nextLineNames proxyName rest
      then deleteLoop proxyName true rest
      else
        let skipProxy := if eqs trimmed proxiesMarker then false else skipProxy in
        if skipProxy
        then
          if isSectionStart trimmed
          then line :: deleteLoop proxyName false rest
          else deleteLoop proxyName true rest
        else line :: deleteLoop proxyName false rest
  end.

Definition deleteLines (proxyName content : gostring) : gostring :=
  Join (deleteLoop proxyName false (Split content LF)) LF.

Definition deleteFrpProxy {W} (proxyName : gostring) : M W (option error) :=
  emit (EvEnter "deleteFrpProxy") ;;;
  emit EvReadFile ;;;
  file <- getToml ;;
  match file with
  | Err e => ret (Some e)
  | Ok content =>
      let data := deleteLines proxyName content in
      emit (EvWriteFile data) ;;;
      putToml data ;;;
      ret None
  end.

(** ** The supervisor of the frpc process *)

Section Supervisor.

Variable W : Type.
Variable host : Host W.
Variable config : Config.t.

Definition onWindows : bool := eqs (GOOS host) (lit "windows").

Definition Output (argv : list gostring) : M W (result gostring) :=
  emit (EvOutput argv) ;;; syscall (cmdOutput host argv).

Definition Run (argv : list gostring) : M W (option error) :=
  emit (EvRun argv) ;;; syscall (cmdRun host argv).

Definition Start (argv : list gostring) : M W (result Z) :=
  emit (EvStart argv) ;;; syscall (cmdStart host argv).

Definition FindProcess (pid : Z) : M W (option error) :=
  emit (EvFindProcess pid) ;;; syscall (osFindProcess host pid).

Definition tasklistArgv : list gostring :=
  [lit "tasklist"; lit "/FI"; lit "IMAGENAME eq frpc.exe"; lit "/FO";
   lit "CSV"; lit "/NH"].

Definition wmicArgv : list gostring :=
  [lit "wmic"; lit "process"; lit "where"; lit "name='frpc.exe'"; lit "get";
   lit "ProcessId"].

Definition taskkillArgv : list gostring :=
  [lit "taskkill"; lit "/F"; lit "/IM"; lit "frpc.exe"].

Definition timeoutArgv : list gostring :=
  [lit "timeout"; lit "/t"; lit "1"; lit "/nobreak"].

Definition frpcArgv : list gostring :=
  [Config.FrpcExePath config; lit "-c"; Config.FrpcTomlPath config].

Definition netshAddArgv (listenPort connectAddr connectPort : gostring)
  : list gostring :=
  [lit "netsh"; lit "interface"; lit "portproxy"; lit "add"; lit "v4tov4";
   lit "listenaddress=0.0.0.0";
   lit "listenport=" ++ listenPort;
   lit "connectaddress=" ++ connectAddr;
   lit "connectport=" ++ connectPort].

(** [getFrpcProcess]: the process as its pid, [Ok None] for [nil, nil]. *)
Definition getFrpcProcess : M W (result (option Z)) :=
  emit (EvEnter "getFrpcProcess") ;;;
  if negb onWindows
  then emit (EvLog (lit "[模拟] 查找 frpc 进程")) ;;; ret (Ok None)
  else
    r <- Output tasklistArgv ;;
    match r with
    | Err e => ret (Err e)
    | Ok output =>
        if negb (Contains output (lit "frpc.exe"))
        then ret (Ok None)
        else
          r <- Output wmicArgv ;;
          match r with
          | Err e => ret (Err e)
          | Ok output =>
              let lines := Split output LF in
              if length lines <? 2
              then ret (Ok None)
              else
                let pidStr := TrimSpace (nth 1 lines []) in
                if eqs pidStr []
                then ret (Ok None)
                else
                  let pid := match Sscanf_d pidStr with
                             | Some v => v
                             | None => 0%Z
                             end in
                  e <- FindProcess pid ;;
                  match e with
                  | Some e => ret (Err e)
                  | None => ret (Ok (Some pid))
                  end
          end
    end.

Definition stopFrpc : M W (option error) :=
  emit (EvEnter "stopFrpc") ;;;
  if negb onWindows
  then emit (EvLog (lit "[模拟] 停止 frpc 进程")) ;;; ret None
  else
    r <- getFrpcProcess ;;
    match r with
    | Err e => ret (Some (lit "查找进程失败: " ++ e))
    | Ok None => ret None
    | Ok (Some _) =>
        e <- Run taskkillArgv ;;
        match e with
        | Some e => ret (Some (lit "停止进程失败: " ++ e))
        | None => emit (EvLog (lit "frpc 进程已停止")) ;;; ret None
        end
    end.

Definition errAlreadyRunning : error := lit "frpc 已经在运行".

(** The goroutine that waits for the child and closes the log file is left
    out: it has no effect on what the program reads. *)
Definition startFrpc : M W (option error) :=
  emit (EvEnter "startFrpc") ;;;
  if negb onWindows
  then emit (EvLog (lit "[模拟] 启动 frpc 进程")) ;;; ret None
  else
    r <- getFrpcProcess ;;
    match r with
    | Err e => ret (Some (lit "检查进程状态失败: " ++ e))
    | Ok (Some _) => ret (Some errAlreadyRunning)
    | Ok None =>
        emit EvOpenLogFile ;;;
        e <- syscall (osOpenLogFile host) ;;
        match e with
        | Some e => ret (Some (lit "创建日志文件失败: " ++ e))
        | None =>
            r <- Start frpcArgv ;;
            match r with
            | Err e =>
                emit EvCloseLogFile ;;;
                ret (Some (lit "启动 frpc 失败: " ++ e))
            | Ok pid =>
                emit (EvLog (lit "frpc 已启动 (PID: " ++ fmtInt pid
                             ++ lit ", 日志: frpc.log)")) ;;;
                ret None
            end
        end
    end.

Definition restartFrpc : M W (option error) :=
  emit (EvEnter "restartFrpc") ;;;
  emit (EvLog (lit "正在重启 frpc...")) ;;;
  e <- stopFrpc ;;
  match e with
  | Some e => emit (EvLog (lit "警告: 停止 frpc 时出错: " ++ e))
  | None => ret tt
  end ;;;
  (if onWindows then Run timeoutArgv ;;; ret tt else ret tt) ;;;
  startFrpc.

(** ** The request handler of [/api/add] *)

Definition addNetshRule (listenPort connectAddr connectPort : gostring)
  : M W (option error) :=
  emit (EvEnter "addNetshRule") ;;;
  if negb onWindows
  then
    emit (EvLog (lit "[模拟] netsh interface portproxy add v4tov4 listenaddress=0.0.0.0 listenport="
                 ++ listenPort ++ lit " connectaddress=" ++ connectAddr
                 ++ lit " connectport=" ++ connectPort)) ;;;
    ret None
  else Run (netshAddArgv listenPort connectAddr connectPort).

(** What the handler writes to its [http.ResponseWriter]. *)
Inductive Response : Type :=
| httpError (message : gostring) (code : nat)
| httpJSON (code : nat) (body : gostring).

Definition statusSuccess : gostring :=
  lit "{" ++ QUOTE :: lit "status" ++ QUOTE :: lit ":" ++ QUOTE
  :: lit "success" ++ QUOTE :: lit "}" ++ [LF].

(** [handleAddRule], from the result of decoding the body of the request. *)
Definition handleAddRule (decoded : result AddRuleRequest.t) : M W Response :=
  emit (EvEnter "handleAddRule") ;;;
  match decoded with
  | Err e => ret (httpError e 400)
  | Ok req =>
      e <- addNetshRule (AddRuleRequest.ListenPort req)
                        (AddRuleRequest.ConnectAddr req)
                        (AddRuleRequest.ConnectPort req) ;;
      match e with
      | Some e => ret (httpError (lit "添加 netsh 规则失败: " ++ e) 500)
      | None =>
          e <- appendToFrpc req ;;
          match e with
          | Some e => ret (httpError (lit "更新 frpc.toml 失败: " ++ e) 500)
          | None =>
              e <- restartFrpc ;;
              match e with
              | Some e => emit (EvLog (lit "警告: 重启 frpc 失败: " ++ e))
              | None => ret tt
              end ;;;
              ret (httpJSON 200 statusSuccess)
          end
      end
  end.

End Supervisor.

(** ** The rules of the port proxy *)

(** The first field of a heading of the table that netsh prints. *)
Definition isHeading (field : gostring) : bool :=
  eqs field (lit "Address")
  || eqs field (lit "---------------")
  || HasPrefix field (lit "Listen").

(** One turn of the loop of [parseNetshOutput] over the lines. *)
Definition parseNetshLine (rules : list Rule.t) (line : gostring)
  : list Rule.t :=
  match Fields line with
  | [f0; f1; f2; f3] =>
      if isHeading f0 then rules
      else rules ++ [{| Rule.ListenAddress := f0;
                        Rule.ListenPort := f1;
                        Rule.ConnectAddress := f2;
                        Rule.ConnectPort := f3 |}]
  | _ => rules
  end.

Definition parseNetshOutput (output : gostring) : list Rule.t :=
  fold_left parseNetshLine (Split output LF) [].

Definition mockRules : list Rule.t :=
  [ {| Rule.ListenAddress := lit "0.0.0.0";
       Rule.ListenPort := lit "8080";
       Rule.ConnectAddress := lit "192.168.1.10";
       Rule.ConnectPort := lit "80" |};
    {| Rule.ListenAddress := lit "0.0.0.0";
       Rule.ListenPort := lit "2222";
       Rule.ConnectAddress := lit "192.168.1.11";
       Rule.ConnectPort := lit "22" |} ].

Definition netshShowArgv : list gostring :=
  [lit "netsh"; lit "interface"; lit "portproxy"; lit "show"; lit "all"].

Definition getNetshRules {W} (host : Host W) : M W (result (list Rule.t)) :=
  emit (EvEnter "getNetshRules") ;;;
  if negb (onWindows host)
  then ret (Ok mockRules)
  else
    r <- Output host netshShowArgv ;;
    match r with
    | Err e => ret (Err e)
    | Ok output => ret (Ok (parseNetshOutput output))
    end.

(** ** The default name of the rules *)

(** [strings.Split(name, "-")] and the choice of [parts[0]]. *)
Definition firstPart (name : gostring) : gostring :=
  match Split name "-" with
  | part :: _ => part
  | [] => name
  end.

(** The loop of [getFirstProxyName] over the lines of the scanner. *)
Fixpoint firstNameLoop (inProxies : bool) (lines : list gostring) : gostring :=
  match lines with
  | [] => []
  | text :: rest =>
      let line := TrimSpace text in
      if eqs line proxiesMarker
      then firstNameLoop true rest
      else
        if inProxies
        then match reName line with
             | Some v => firstPart v
             | None => firstNameLoop inProxies rest
             end
        else firstNameLoop inProxies rest
  end.

Definition firstProxyName (content : gostring) : gostring :=
  firstNameLoop false (ScanLines content).

Definition getFirstProxyName {W} : M W gostring :=
  emit (EvEnter "getFirstProxyName") ;;;
  emit EvOpen ;;;
  file <- getToml ;;
  match file with
  | Err _ => ret []
  | Ok content => ret (firstProxyName content)
  end.

(** [handleGetDefaultName], by the name it puts under the key [name] of the
    object it encodes. *)
Definition handleGetDefaultName {W} (config : Config.t) : M W gostring :=
  emit (EvEnter "handleGetDefaultName") ;;;
  if eqs (Config.Name config) []
  then getFirstProxyName
  else ret (Config.Name config).

(** ** The other request handlers *)

Definition methodNotAllowed : Response :=
  httpError (lit "Method not allowed") 405.

(** [handleDeleteFrpProxy], from the method of the request and the result of
    decoding its body, the field [name] of it. *)
Definition handleDeleteFrpProxy {W} (host : Host W) (config : Config.t)
           (method : gostring) (decoded : result gostring) : M W Response :=
  emit (EvEnter "handleDeleteFrpProxy") ;;;
  if negb (eqs method (lit "POST"))
  then ret methodNotAllowed
  else
    match decoded with
    | Err e => ret (httpError e 400)
    | Ok name =>
        e <- deleteFrpProxy name ;;
        match e with
        | Some e => ret (httpError (lit "删除 FRP 代理失败: " ++ e) 500)
        | None =>
            e <- restartFrpc host config ;;
            match e with
            | Some e => emit (EvLog (lit "警告: 重启 frpc 失败: " ++ e))
            | None => ret tt
            end ;;;
            ret (httpJSON 200 statusSuccess)
        end
    end.

(** The map of [getFrpcStatus]: the keys [running] and [pid], and the keys
    [error] and [message] when they are set. *)
Module FrpcStatus.
Record t := {
  running : bool;
  pid : Z;
  error : option gostring;
  message : option gostring
}.
End FrpcStatus.

Definition getFrpcStatus {W} (host : Host W) : M W FrpcStatus.t :=
  emit (EvEnter "getFrpcStatus") ;;;
  if negb (onWindows host)
  then ret {| FrpcStatus.running := false; FrpcStatus.pid := 0;
              FrpcStatus.error := None;
              FrpcStatus.message := Some (lit "模拟模式") |}
  else
    r <- getFrpcProcess host ;;
    match r with
    | Err e => ret {| FrpcStatus.running := false; FrpcStatus.pid := 0;
                      FrpcStatus.error := Some e;
                      FrpcStatus.message := None |}
    | Ok (Some p) => ret {| FrpcStatus.running := true; FrpcStatus.pid := p;
                            FrpcStatus.error := None;
                            FrpcStatus.message := None |}
    | Ok None => ret {| FrpcStatus.running := false; FrpcStatus.pid := 0;
                        FrpcStatus.error := None;
                        FrpcStatus.message := None |}
    end.

(** The object with the keys [status] and [message] as the encoder prints
    it: the keys in order, a line feed at the end. *)
Definition statusMessage (message : gostring) : gostring :=
  lit "{" ++ QUOTE :: lit "message" ++ QUOTE :: lit ":" ++ QUOTE
  :: message ++ QUOTE :: lit "," ++ QUOTE :: lit "status" ++ QUOTE
  :: lit ":" ++ QUOTE :: lit "success" ++ QUOTE :: lit "}" ++ [LF].

(** The three handlers of the control of frpc differ by the function they
    call and the message they answer. *)
Definition control {W} (method : gostring) (action : M W (option error))
           (message : gostring) : M W Response :=
  if negb (eqs method (lit "POST"))
  then ret methodNotAllowed
  else
    e <- action ;;
    match e with
    | Some e => ret (httpError e 500)
    | None => ret (httpJSON 200 (statusMessage message))
    end.

Definition handleStartFrpc {W} (host : Host W) (config : Config.t)
           (method : gostring) : M W Response :=
  emit (EvEnter "handleStartFrpc") ;;;
  control method (startFrpc host config) (lit "frpc 已启动").

Definition handleStopFrpc {W} (host : Host W) (method : gostring)
  : M W Response :=
  emit (EvEnter "handleStopFrpc") ;;;
  control method (stopFrpc host) (lit "frpc 已停止").

Definition handleRestartFrpc {W} (host : Host W) (config : Config.t)
           (method : gostring) : M W Response :=
  emit (EvEnter "handleRestartFrpc") ;;;
  control method (restartFrpc host config) (lit "frpc 已重启").

(** ** The start of the program *)

Definition defaultConfig : Config.t :=
  {| Config.Port := 8080;
     Config.FrpcTomlPath := lit "frpc.toml";
     Config.FrpcExePath := lit "frpc.exe";
     Config.AutoRegisterToFrp := true;
     Config.WebUIProxyName := lit "portproxy-manager-web";
     Config.WebUIRemotePort := 18080;
     Config.Name := lit "default" |}.

(** [main] up to the start of the server, from the result of [loadConfig]:
    the configuration in use from then on. *)
Definition main {W} (loaded : result Config.t) : M W Config.t :=
  emit (EvEnter "main") ;;;
  config <- match loaded with
            | Err e =>
                emit (EvLog (lit "Warning: Failed to load config.json, using defaults: "
                             ++ e)) ;;;
                ret defaultConfig
            | Ok config => ret config
            end ;;
  (if Config.AutoRegisterToFrp config
   then
     e <- registerWebUIToFrpc config ;;
     match e with
     | Some e =>
         emit (EvLog (lit "Warning: Failed to register web UI to frpc.toml: "
                      ++ e))
     | None => ret tt
     end
   else ret tt) ;;;
  emit (EvLog (lit "服务器启动在 http://localhost:"
               ++ fmtInt (Config.Port config))) ;;;
  ret config.

(** ** The vocabulary of the properties *)

(** *** Blocks of the registry

    The lines of the file fall into blocks: the lines before the first
    section start, and then each section start with the lines that follow it
    up to the next section start.  A section start is a line that
    [deleteFrpProxy] takes for one: the proxies marker or a line in brackets,
    spaces around it apart. *)

Definition isMarkerLine (line : gostring) : bool :=
  eqs (TrimSpace line) proxiesMarker.

Definition isHeaderLine (line : gostring) : bool :=
  isSectionStart (TrimSpace line).

Fixpoint blocksOf (lines : list gostring) : list (list gostring) :=
  match lines with
  | [] => [[]]
  | line :: rest =>
      match blocksOf rest with
      | b :: bs =>
          if isHeaderLine line then [] :: (line :: b) :: bs
          else (line :: b) :: bs
      | [] => [[line]]
      end
  end.

(** Lines without a section start, and a section start with such lines. *)
Definition plainLines (lines : list gostring) : Prop :=
  Forall (fun line => isHeaderLine line = false) lines.

Definition isSection (block : list gostring) : Prop :=
  match block with
  | header :: body => isHeaderLine header = true /\ plainLines body
  | [] => False
  end.

(** The name of a block: that of the name line right after its marker. *)
Definition blockName (block : list gostring) : option gostring :=
  match block with
  | header :: nextLine :: _ =>
      if isMarkerLine header then reName nextLine else None
  | _ => None
  end.

Definition isNamed (proxyName : gostring) (block : list gostring) : bool :=
  match blockName block with
  | Some v => eqs v proxyName
  | None => false
  end.

Definition keep (proxyName : gostring) (block : list gostring) : bool :=
  negb (isNamed proxyName block).

Definition keptBlocks (proxyName : gostring) (lines : list gostring)
  : list (list gostring) :=
  filter (keep proxyName) (blocksOf lines).

(** *** Records of the registry

    The lines after a marker up to the next marker, and the record the
    fields among them make. *)

Fixpoint untilMarker (lines : list gostring) : list gostring :=
  match lines with
  | [] => []
  | line :: rest => if isMarkerLine line then [] else line :: untilMarker rest
  end.

Fixpoint markerBodies (lines : list gostring) : list (list gostring) :=
  match lines with
  | [] => []
  | line :: rest =>
      if isMarkerLine line then untilMarker rest :: markerBodies rest
      else markerBodies rest
  end.

Definition fieldsOf (body : list gostring) (start : FrpProxy.t) : FrpProxy.t :=
  fold_left (fun c line => setField c (TrimSpace line)) body start.

Definition recordOf (body : list gostring) : FrpProxy.t :=
  fieldsOf body FrpProxy.zero.

(** An ASCII character that is no space: it is no part of a space rune. *)
Definition isPlain (c : ascii) : bool :=
  negb (asciiSpace c) && (nat_of_ascii c <? 128).

Functional Scheme trimLeftSpace_ind := Induction for trimLeftSpace Sort Prop.

(** A line the scanner's buffer has room for. *)
Definition fits (line : gostring) : bool :=
  (lenN line <? MaxScanTokenSize)%N.

Definition linesFit (content : gostring) : Prop :=
  Forall (fun line => fits line = true) (Split content LF).

Definition noLF (s : gostring) : Prop := ~ In LF s.

Definition countNamed (proxyName : gostring) (ps : list FrpProxy.t) : nat :=
  length (filter (fun p => eqs (FrpProxy.Name p) proxyName) ps).

(** The lines of a block, as the writers print them. *)
Definition nameLine (name : gostring) : gostring :=
  lit "name = " ++ QUOTE :: name ++ [QUOTE].

Definition typeLine : gostring :=
  lit "type = " ++ QUOTE :: lit "tcp" ++ [QUOTE].

Definition localIPLine : gostring :=
  lit "localIP = " ++ QUOTE :: lit "127.0.0.1" ++ [QUOTE].

Definition localPortLine (localPort : gostring) : gostring :=
  lit "localPort = " ++ localPort.

Definition remotePortLine (remotePort : gostring) : gostring :=
  lit "remotePort = " ++ remotePort.

Definition fieldLines (localPort remotePort : gostring) : list gostring :=
  [typeLine; localIPLine; localPortLine localPort;
   remotePortLine remotePort].

(** A line that opens no record and sets no name. *)
Definition nameless (line : gostring) : Prop :=
  isMarkerLine line = false /\ reName (TrimSpace line) = None.

(** The check of [registerWebUIToFrpc] on the records of the file. *)
Definition isRegistered (config : Config.t) (content : gostring) : bool :=
  existsb (fun p => eqs (FrpProxy.Name p) (webUIProxyFullName config))
          (parseProxies content).

(** *** Requests and the records they stand for *)

Definition proxyOfRequest (req : AddRuleRequest.t) : FrpProxy.t :=
  {| FrpProxy.Name := ruleProxyName req;
     FrpProxy.Type_ := lit "tcp";
     FrpProxy.LocalIP := lit "127.0.0.1";
     FrpProxy.LocalPort := AddRuleRequest.ListenPort req;
     FrpProxy.RemotePort := AddRuleRequest.RemotePort req |}.

Definition isPort (s : gostring) : Prop :=
  s <> [] /\ Forall (fun c => reDigit c = true) s.

(** A request whose block reads back: a name on one line, ports of digits,
    lines the scanner has room for. *)
Definition wellFormed (req : AddRuleRequest.t) : Prop :=
  noLF (ruleProxyName req)
  /\ isPort (AddRuleRequest.ListenPort req)
  /\ isPort (AddRuleRequest.RemotePort req)
  /\ linesFit (proxyBlock (ruleProxyName req)
                          (AddRuleRequest.ListenPort req)
                          (AddRuleRequest.RemotePort req)).

(** Appending the blocks of the requests in order, from a given state. *)
Fixpoint appendAll {W} (reqs : list AddRuleRequest.t) (st : State W)
  : State W :=
  match reqs with
  | [] => st
  | req :: reqs' => appendAll reqs' (snd (appendToFrpc req st))
  end.

(** *** The PID the process-table query shows *)

(** The number on the second line of the output of the query, if one can
    be read there. *)
Definition parsablePid (output : gostring) : option Z :=
  match Split output LF with
  | _ :: second :: _ => Sscanf_d (TrimSpace second)
  | _ => None
  end.

(** The output of the query has no second line, or a blank one. *)
Definition noPidLine (output : gostring) : bool :=
  match Split output LF with
  | _ :: second :: _ => eqs (TrimSpace second) []
  | _ => true
  end.

(** *** The Locator, the Supervisor and their traces *)

(** What the Locator reports in a state of the operating system. *)
Definition locator {W} (host : Host W) (w : W) : result (option Z) :=
  fst (getFrpcProcess host {| toml := Err []; world := w; trace := [] |}).

(** The events of the Locator: its entry, a log line, the two queries and
    the look-up of the process. *)
Definition isLocatorEvent (e : Event) : bool :=
  match e with
  | EvEnter fn => String.eqb fn "getFrpcProcess"
  | EvLog _ | EvOutput _ | EvFindProcess _ => true
  | _ => false
  end.

(** The events of [stopFrpc]: its entry, those of the Locator, and the
    termination command. *)
Definition isStopEvent (e : Event) : bool :=
  isLocatorEvent e
  || match e with
     | EvEnter fn => String.eqb fn "stopFrpc"
     | EvRun argv => eqs (hd [] argv) (lit "taskkill")
     | _ => false
     end.

(** The events of [startFrpc] after its entry: those of the Locator, the
    log file and the launch. *)
Definition isStartEvent (e : Event) : bool :=
  isLocatorEvent e
  || match e with
     | EvOpenLogFile | EvStart _ | EvCloseLogFile => true
     | _ => false
     end.

(** The termination command, and the launch of a process. *)
Definition isTaskkill (e : Event) : bool :=
  match e with
  | EvRun argv => eqs (hd [] argv) (lit "taskkill")
  | _ => false
  end.

Definition isStart (e : Event) : bool :=
  match e with
  | EvStart _ => true
  | _ => false
  end.

Definition count (p : Event -> bool) (tr : list Event) : nat :=
  length (filter p tr).

(** *** Counting in traces *)

Definition isEnter (fn : string) (e : Event) : bool :=
  match e with
  | EvEnter g => String.eqb g fn
  | _ => false
  end.

Definition calls (fn : string) (tr : list Event) : nat :=
  count (isEnter fn) tr.

Definition isFileWrite (e : Event) : bool :=
  match e with
  | EvOpenAppend | EvWriteString _ | EvWriteFile _ => true
  | _ => false
  end.

(** *** The table of the port proxy

    What [netsh interface portproxy show all] prints: a blank line, two
    heading lines with a blank line between them, a line of dashes, one row
    for each rule in columns of 15, 10, 15 and 10 characters, and a blank
    line; every line ends with a carriage return and a line feed. *)

(** A field of a row: ASCII characters, none of them a space, at least one. *)
Definition isToken (s : gostring) : Prop :=
  s <> [] /\ Forall (fun c => isPlain c = true) s.

Definition padTo (width : nat) (s : gostring) : gostring :=
  s ++ repeat " "%char (width - length s).

Definition netshRow (r : Rule.t) : gostring :=
  padTo 15 (Rule.ListenAddress r) ++ lit " "
  ++ padTo 10 (Rule.ListenPort r) ++ lit "  "
  ++ padTo 15 (Rule.ConnectAddress r) ++ lit " "
  ++ Rule.ConnectPort r.

Definition netshHeading : list gostring :=
  [ [];
    lit "Listen on ipv4:             Connect to ipv4:";
    [];
    lit "Address         Port        Address         Port";
    lit "--------------- ----------  --------------- ----------" ].

Definition netshTable (rules : list Rule.t) : gostring :=
  Join (map (fun line => line ++ [CR])
            (netshHeading ++ map netshRow rules ++ [[]]) ++ [[]]) LF.

(** A rule that the table can show: four fields, the first of them not one
    that [parseNetshOutput] takes for a heading. *)
Definition listed (r : Rule.t) : Prop :=
  isToken (Rule.ListenAddress r) /\ isToken (Rule.ListenPort r)
  /\ isToken (Rule.ConnectAddress r) /\ isToken (Rule.ConnectPort r)
  /\ isHeading (Rule.ListenAddress r) = false.

(** A field without an ASCII space, and a rule of four such fields that is
    no heading. *)
Definition spaceFree (s : gostring) : Prop :=
  s <> [] /\ Forall (fun c => asciiSpace c = false) s.

Definition cleanRule (r : Rule.t) : Prop :=
  spaceFree (Rule.ListenAddress r) /\ spaceFree (Rule.ListenPort r)
  /\ spaceFree (Rule.ConnectAddress r) /\ spaceFree (Rule.ConnectPort r)
  /\ isHeading (Rule.ListenAddress r) = false.

(** *** The state that the Locator leaves *)

(** The state of the operating system after the queries of the Locator. *)
Definition worldAfterLocator {W} (host : Host W) (w : W) : W :=
  world (snd (getFrpcProcess host
                {| toml := Err []; world := w; trace := [] |})).

(** *** Names and their first part *)

Definition noHyphen (s : gostring) : Prop := ~ In "-"%char s.

(** *** The blocks of requests *)

Definition blockOfRequest (req : AddRuleRequest.t) : gostring :=
  proxyBlock (ruleProxyName req) (AddRuleRequest.ListenPort req)
             (AddRuleRequest.RemotePort req).

Definition linesOfRequest (req : AddRuleRequest.t) : list gostring :=
  proxiesMarker :: nameLine (ruleProxyName req)
  :: fieldLines (AddRuleRequest.ListenPort req) (AddRuleRequest.RemotePort req)
  ++ [[]].

(** A request whose name and ports hold no line feed. *)
Definition oneLine (req : AddRuleRequest.t) : Prop :=
  noLF (ruleProxyName req) /\ noLF (AddRuleRequest.ListenPort req)
  /\ noLF (AddRuleRequest.RemotePort req).

Definition otherName (proxyName : gostring) (req : AddRuleRequest.t) : bool :=
  negb (eqs (ruleProxyName req) proxyName).

(** Ports as [getFrpProxies] reads them: one or more digits, or unset. *)
Definition portsRead (p : FrpProxy.t) : Prop :=
  (FrpProxy.LocalPort p = [] \/ isPort (FrpProxy.LocalPort p))
  /\ (FrpProxy.RemotePort p = [] \/ isPort (FrpProxy.RemotePort p)).

(** *** The entry of the web UI *)

Definition webUIProxy (config : Config.t) : FrpProxy.t :=
  {| FrpProxy.Name := webUIProxyFullName config;
     FrpProxy.Type_ := lit "tcp";
     FrpProxy.LocalIP := lit "127.0.0.1";
     FrpProxy.LocalPort := fmtInt (Config.Port config);
     FrpProxy.RemotePort := fmtInt (Config.WebUIRemotePort config) |}.

Definition webUIBlock (config : Config.t) : gostring :=
  proxyBlock (webUIProxyFullName config) (fmtInt (Config.Port config))
             (fmtInt (Config.WebUIRemotePort config)).

(** *** Sample machines

    A Windows host whose state is the pid of the running frpc, if there is
    one.  The knobs are the error of the netsh command, if it is to fail,
    and the output of the process-table query while frpc runs. *)

(** The liveness probe prints a line for frpc when it runs and a notice
    when it does not; the process-table query prints what the knob says, and
    nothing when frpc does not run. *)
Definition simOutput (wmicOutput : Z -> gostring) (argv : list gostring)
           (w : option Z) : result gostring * option Z :=
  match w with
  | Some pid =>
      if eqs (hd [] argv) (lit "tasklist")
      then (Ok (QUOTE :: lit "frpc.exe" ++ QUOTE :: lit "," ++ QUOTE
                :: fmtInt pid ++ [QUOTE; CR; LF]), w)
      else (Ok (wmicOutput pid), w)
  | None =>
      if eqs (hd [] argv) (lit "tasklist")
      then (Ok (lit "INFO: No tasks are running which match the specified criteria."), w)
      else (Ok [], w)
  end.

(** The termination command ends frpc; the netsh command answers as the
    knob says; any other command succeeds. *)
Definition simRun (netshError : option error) (argv : list gostring)
           (w : option Z) : option error * option Z :=
  if eqs (hd [] argv) (lit "taskkill") then (None, None)
  else if eqs (hd [] argv) (lit "netsh") then (netshError, w)
  else (None, w).

(** Windows opens no process for the pid 0. *)
Definition simFindProcess (pid : Z) (w : option Z) : option error * option Z :=
  if (pid =? 0)%Z then (Some (lit "OpenProcess: The parameter is incorrect."), w)
  else (None, w).

Definition simHost (goos : gostring) (netshError : option error)
           (wmicOutput : Z -> gostring) : Host (option Z) :=
  {| GOOS := goos;
     cmdOutput := simOutput wmicOutput;
     cmdRun := simRun netshError;
     cmdStart := fun _ _ => (Ok 4321%Z, Some 4321%Z);
     osFindProcess := simFindProcess;
     osOpenLogFile := fun w => (None, w) |}.

(** The table of the process-table query: a heading and the pid. *)
Definition wmicTable (pid : Z) : gostring :=
  lit "ProcessId  " ++ [CR; LF] ++ fmtInt pid ++ lit "  " ++ [CR; LF; CR; LF].

Definition windows : Host (option Z) :=
  simHost (lit "windows") None wmicTable.

Definition initial (file : result gostring) (w : option Z)
  : State (option Z) :=
  {| toml := file; world := w; trace := [] |}.

Definition sampleConfig : Config.t :=
  {| Config.Port := 8080;
     Config.FrpcTomlPath := lit "frpc.toml";
     Config.FrpcExePath := lit "frpc.exe";
     Config.AutoRegisterToFrp := true;
     Config.WebUIProxyName := lit "portproxy-manager-web";
     Config.WebUIRemotePort := 18080;
     Config.Name := lit "default" |}.

(** A registry with a setting, three proxies (two of them of one name, one
    whose name extends it on both sides) and another section. *)
Definition sampleRegistry : gostring :=
  lit "serverAddr = " ++ QUOTE :: lit "relay.example" ++ [QUOTE; LF]
  ++ proxyBlock (lit "web") (lit "80") (lit "8080")
  ++ proxyBlock (lit "my-web-2") (lit "81") (lit "8081")
  ++ lit "[log]" ++ [LF]
  ++ lit "level = " ++ QUOTE :: lit "info" ++ [QUOTE; LF]
  ++ proxyBlock (lit "web") (lit "82") (lit "8082").

(** The sample registry without its two proxies of the name web. *)
Definition sampleWithoutWeb : gostring :=
  lit "serverAddr = " ++ QUOTE :: lit "relay.example" ++ [QUOTE; LF]
  ++ proxyBlock (lit "my-web-2") (lit "81") (lit "8081")
  ++ lit "[log]" ++ [LF]
  ++ lit "level = " ++ QUOTE :: lit "info" ++ [QUOTE; LF].

(** A registry whose first line fills the buffer of the scanner, before one
    proxy. *)
Definition longLineRegistry : gostring :=
  repeat "a"%char (N.to_nat MaxScanTokenSize)
  ++ proxyBlock (lit "web") (lit "80") (lit "8080").

(** A configuration whose name has a line feed in it. *)
Definition twoLineConfig : Config.t :=
  {| Config.Port := 8080;
     Config.FrpcTomlPath := lit "frpc.toml";
     Config.FrpcExePath := lit "frpc.exe";
     Config.AutoRegisterToFrp := true;
     Config.WebUIProxyName := lit "portproxy-manager-web";
     Config.WebUIRemotePort := 18080;
     Config.Name := lit "de" ++ LF :: lit "fault" |}.

Definition aliceRequest : AddRuleRequest.t :=
  {| AddRuleRequest.ListenPort := lit "8000";
     AddRuleRequest.ConnectAddr := lit "10.0.0.5";
     AddRuleRequest.ConnectPort := lit "80";
     AddRuleRequest.RemotePort := lit "18000";
     AddRuleRequest.Type_ := lit "tcp";
     AddRuleRequest.Name := lit "alice" |}.

Definition bobRequest : AddRuleRequest.t :=
  {| AddRuleRequest.ListenPort := lit "9000";
     AddRuleRequest.ConnectAddr := lit "10.0.0.9";
     AddRuleRequest.ConnectPort := lit "443";
     AddRuleRequest.RemotePort := lit "19000";
     AddRuleRequest.Type_ := lit "tcp";
     AddRuleRequest.Name := lit "bob" |}.

(** A Windows host whose netsh prints the table of the given rules. *)
Definition portproxyHost (rules : list Rule.t) : Host (option Z) :=
  {| GOOS := lit "windows";
     cmdOutput := fun argv w =>
                    if eqs (hd [] argv) (lit "netsh")
                    then (Ok (netshTable rules), w)
                    else simOutput wmicTable argv w;
     cmdRun := simRun None;
     cmdStart := fun _ _ => (Ok 4321%Z, Some 4321%Z);
     osFindProcess := simFindProcess;
     osOpenLogFile := fun w => (None, w) |}.

(** A configuration without a name. *)
Definition namelessConfig : Config.t :=
  {| Config.Port := 8080;
     Config.FrpcTomlPath := lit "frpc.toml";
     Config.FrpcExePath := lit "frpc.exe";
     Config.AutoRegisterToFrp := false;
     Config.WebUIProxyName := lit "portproxy-manager-web";
     Config.WebUIRemotePort := 18080;
     Config.Name := [] |}.

(** A setting of the relay, before any proxy. *)
Definition relaySetting : gostring :=
  lit "serverAddr = " ++ QUOTE :: lit "relay.example" ++ [QUOTE].

(** The error of opening a file that does not exist. *)
Definition noSuchFile : error :=
  lit "open frpc.toml: The system cannot find the file specified.".

(** A process-table query that shows no number. *)
Definition wmicNoNumber (pid : Z) : gostring :=
  lit "ProcessId" ++ LF :: lit "abc".

(** ** Proof automation *)

(** A character below 128 is none of the bytes of a space rune. *)
Ltac high_by lemma := apply lemma; [assumption | vm_compute; lia].

(** Running a function of the machine: the monad, then the state. *)
Ltac msimpl := cbn [negb fst snd trace toml world].

Ltac monad_unfold :=
  unfold Output, Run, Start, FindProcess in *;
  unfold bind, emit, syscall, ret in *;
  cbn [fst snd trace toml world] in *.

(** A case for each answer of the operating system. *)
Ltac break_match :=
  match goal with
  | |- context [match ?x with _ => _ end] =>
      lazymatch x with
      | context [match _ with _ => _ end] => fail
      | _ => destruct x eqn:?
      end
  | |- context [if ?x then _ else _] =>
      lazymatch x with
      | context [if _ then _ else _] => fail
      | context [match _ with _ => _ end] => fail
      | _ => destruct x eqn:?
      end
  end; cbn [fst snd trace toml world] in *.

(** The trace after a run is the trace before it and a list of events. *)
Ltac trace_done :=
  repeat rewrite <- app_assoc; cbn [app];
  eexists; split; [reflexivity | reflexivity].

Ltac trace_with Hl :=
  repeat rewrite <- app_assoc; cbn [app];
  eexists; split;
  [reflexivity
  | cbn [forallb]; rewrite ?forallb_app; cbn [forallb];
    rewrite ?Hl; reflexivity].

(** A call of the Locator inside another function: its result [r], the
    state [s1] it leaves, and the events [log] it has added, from the two
    facts about the call. *)
Ltac locate logFact resultFact call r s1 log :=
  let Ht := fresh "Ht" in
  let El := fresh "El" in
  let Hl := fresh "Hl" in
  let Er := fresh "Er" in
  pose proof logFact as (Ht & log & El & Hl);
  pose proof resultFact as Er;
  destruct call as [r s1];
  cbn [fst snd trace toml world] in *.

(** * Properties *)

Unset Implicit Arguments.

(** ** Strings *)

Lemma eqs_eq (a b : gostring) : eqs a b = true <-> a = b.
Proof.
  revert b; induction a as [|x a IH]; intros [|y b]; simpl; split;
    try congruence; try reflexivity.
  - intros H. apply andb_true_iff in H as [Hx Hab].
    apply Ascii.eqb_eq in Hx. apply IH in Hab. congruence.
  - intros H. inversion H; subst. rewrite Ascii.eqb_refl. simpl.
    now apply IH.
Qed.

Lemma reverse_rev (s : gostring) : reverse s = rev s.
Proof. unfold reverse. symmetry. apply rev_alt. Qed.

Lemma eqs_refl (a : gostring) : eqs a a = true.
Proof. now apply eqs_eq. Qed.

Lemma eqs_neq (a b : gostring) : eqs a b = false <-> a <> b.
Proof.
  split.
  - intros H E. apply eqs_eq in E. congruence.
  - intros H. destruct (eqs a b) eqn:E; [|reflexivity].
    apply eqs_eq in E. contradiction.
Qed.

Lemma Split_nonempty (s : gostring) (sep : ascii) : Split s sep <> [].
Proof.
  induction s as [|c s IH]; simpl; [discriminate|].
  destruct (Ascii.eqb c sep); [discriminate|].
  destruct (Split s sep); discriminate.
Qed.

Lemma Join_cons (e : gostring) (es : list gostring) (sep : ascii) :
  es <> [] -> Join (e :: es) sep = e ++ sep :: Join es sep.
Proof. destruct es; [congruence|reflexivity]. Qed.

Lemma Join_Split (s : gostring) (sep : ascii) : Join (Split s sep) sep = s.
Proof.
  induction s as [|c s IH]; [reflexivity|]. simpl.
  destruct (Ascii.eqb c sep) eqn:E.
  - apply Ascii.eqb_eq in E; subst c.
    rewrite Join_cons by apply Split_nonempty. simpl. now rewrite IH.
  - pose proof (Split_nonempty s sep) as Hne.
    destruct (Split s sep) as [|p ps]; [congruence|].
    destruct ps as [|p' ps]; simpl in *; now rewrite <- IH.
Qed.

Lemma Split_no_sep (s : gostring) (sep : ascii) :
  Forall (fun piece => ~ In sep piece) (Split s sep).
Proof.
  induction s as [|c s IH]; simpl.
  - constructor; [intros []|constructor].
  - destruct (Ascii.eqb c sep) eqn:E.
    + constructor; [intros []|assumption].
    + pose proof (Split_nonempty s sep) as Hne.
      destruct (Split s sep) as [|p ps]; [congruence|].
      inversion IH; subst. constructor; [|assumption].
      intros [H|H]; [|contradiction].
      subst c. now rewrite Ascii.eqb_refl in E.
Qed.

Lemma Split_piece (s : gostring) (sep : ascii) :
  ~ In sep s -> Split s sep = [s].
Proof.
  induction s as [|c s IH]; [reflexivity|]. intros H. simpl.
  destruct (Ascii.eqb c sep) eqn:E.
  - apply Ascii.eqb_eq in E. subst. exfalso. apply H. now left.
  - rewrite IH; [reflexivity|]. intros Hin. apply H. now right.
Qed.

Lemma Split_app (a b : gostring) (sep : ascii) :
  Split (a ++ sep :: b) sep = Split a sep ++ Split b sep.
Proof.
  induction a as [|c a IH]; simpl.
  - now rewrite Ascii.eqb_refl.
  - destruct (Ascii.eqb c sep); [now rewrite IH|].
    rewrite IH. pose proof (Split_nonempty a sep) as Hne.
    destruct (Split a sep); [congruence|reflexivity].
Qed.

Lemma Split_Join (es : list gostring) (sep : ascii) :
  es <> [] -> Forall (fun e => ~ In sep e) es -> Split (Join es sep) sep = es.
Proof.
  induction es as [|e es IH]; [congruence|]. intros _ H.
  inversion H as [|? ? He Hes]; subst.
  destruct es as [|e' es].
  - simpl. now apply Split_piece.
  - rewrite Join_cons by discriminate. rewrite Split_app.
    rewrite IH by (assumption || discriminate).
    now rewrite Split_piece.
Qed.

Lemma reSpace_asciiSpace (c : ascii) : reSpace c = true -> asciiSpace c = true.
Proof.
  unfold reSpace, asciiSpace.
  destruct c as [[] [] [] [] [] [] [] []]; simpl; congruence.
Qed.

Lemma plain_not_space (c : ascii) : isPlain c = true -> asciiSpace c = false.
Proof.
  unfold isPlain. intros H. apply andb_true_iff in H as [H _].
  now apply negb_true_iff in H.
Qed.

Lemma plain_low (c : ascii) : isPlain c = true -> nat_of_ascii c < 128.
Proof.
  unfold isPlain. intros H. apply andb_true_iff in H as [_ H].
  now apply Nat.ltb_lt in H.
Qed.

Lemma plain_eqb_high (c k : ascii) :
  isPlain c = true -> 128 <= nat_of_ascii k -> Ascii.eqb c k = false.
Proof.
  intros H Hk. apply Ascii.eqb_neq. intros ->.
  apply plain_low in H. lia.
Qed.

Lemma plain_space2 (c c2 : ascii) : isPlain c = true -> space2 c c2 = false.
Proof.
  intros H. unfold space2.
  replace (Ascii.eqb c "194") with false by (symmetry; high_by plain_eqb_high).
  reflexivity.
Qed.

Lemma plain_space3 (c c2 c3 : ascii) : isPlain c = true -> space3 c c2 c3 = false.
Proof.
  intros H. unfold space3.
  replace (Ascii.eqb c "225") with false by (symmetry; high_by plain_eqb_high).
  replace (Ascii.eqb c "226") with false by (symmetry; high_by plain_eqb_high).
  replace (Ascii.eqb c "227") with false by (symmetry; high_by plain_eqb_high).
  reflexivity.
Qed.

Lemma plain_last2 (c c2 : ascii) : isPlain c = true -> space2 c2 c = false.
Proof.
  intros H. unfold space2.
  replace (Ascii.eqb c "133") with false by (symmetry; high_by plain_eqb_high).
  replace (Ascii.eqb c "160") with false by (symmetry; high_by plain_eqb_high).
  apply andb_false_r.
Qed.

Lemma plain_last3 (c c2 c3 : ascii) : isPlain c = true -> space3 c3 c2 c = false.
Proof.
  intros H. unfold space3.
  replace (Ascii.eqb c "128") with false by (symmetry; high_by plain_eqb_high).
  replace (Ascii.eqb c "159") with false by (symmetry; high_by plain_eqb_high).
  replace (Ascii.eqb c "168") with false by (symmetry; high_by plain_eqb_high).
  replace (Ascii.eqb c "169") with false by (symmetry; high_by plain_eqb_high).
  replace (Ascii.eqb c "175") with false by (symmetry; high_by plain_eqb_high).
  replace (128 <=? nat_of_ascii c) with false
    by (symmetry; apply Nat.leb_gt; now apply plain_low).
  simpl. now rewrite !andb_false_r.
Qed.

Lemma trimLeftSpace_space (c : ascii) (s : gostring) :
  asciiSpace c = true -> trimLeftSpace (c :: s) = trimLeftSpace s.
Proof. intros H. simpl. now rewrite H. Qed.

Lemma trimLeftSpace_plain (c : ascii) (s : gostring) :
  isPlain c = true -> trimLeftSpace (c :: s) = c :: s.
Proof.
  intros H. simpl. rewrite (plain_not_space _ H).
  destruct s as [|c2 [|c3 s3]]; try reflexivity;
    rewrite (plain_space2 _ c2 H); try reflexivity.
  now rewrite (plain_space3 _ c2 c3 H).
Qed.

Lemma trimLastSpace_plain (c : ascii) (r : gostring) :
  isPlain c = true -> trimLastSpace (c :: r) = c :: r.
Proof.
  intros H. simpl. rewrite (plain_not_space _ H).
  destruct r as [|c2 [|c3 r3]]; try reflexivity;
    rewrite (plain_last2 _ c2 H); try reflexivity.
  now rewrite (plain_last3 _ c2 c3 H).
Qed.

Lemma trimLeftSpace_skipSpaces (s : gostring) :
  trimLeftSpace (skipSpaces s) = trimLeftSpace s.
Proof.
  induction s as [|c s IH]; [reflexivity|].
  cbn [skipSpaces]. destruct (reSpace c) eqn:E; [|reflexivity].
  rewrite trimLeftSpace_space by now apply reSpace_asciiSpace.
  exact IH.
Qed.

(** What [trimLastSpace] leaves is an end of its argument. *)
Lemma trimLastSpace_suffix (r : gostring) :
  exists dropped, r = dropped ++ trimLastSpace r.
Proof.
  remember (length r) as n eqn:Hn. revert r Hn.
  induction n as [n IH] using lt_wf_ind. intros r Hn.
  destruct r as [|c1 r1]; [now exists []|].
  cbn [trimLastSpace]. destruct (asciiSpace c1).
  { destruct (IH (length r1)) with (r := r1) as [d Hd];
      [subst; simpl; lia|reflexivity|].
    exists (c1 :: d). simpl. now rewrite <- Hd. }
  destruct r1 as [|c2 r2]; [now exists []|].
  destruct (space2 c2 c1).
  { destruct (IH (length r2)) with (r := r2) as [d Hd];
      [subst; simpl; lia|reflexivity|].
    exists (c1 :: c2 :: d). simpl. now rewrite <- Hd. }
  destruct r2 as [|c3 r3]; [now exists []|].
  destruct (space3 c3 c2 c1); [|now exists []].
  destruct (IH (length r3)) with (r := r3) as [d Hd];
    [subst; simpl; lia|reflexivity|].
  exists (c1 :: c2 :: c3 :: d). simpl. now rewrite <- Hd.
Qed.

Lemma trimRightSpace_prefix (s : gostring) :
  exists dropped, s = trimRightSpace s ++ dropped.
Proof.
  unfold trimRightSpace. rewrite !reverse_rev.
  destruct (trimLastSpace_suffix (rev s)) as [d Hd].
  exists (rev d). rewrite <- rev_app_distr, <- Hd. now rewrite rev_involutive.
Qed.

Lemma trimRightSpace_plain (s : gostring) (c : ascii) :
  isPlain c = true -> trimRightSpace (s ++ [c]) = s ++ [c].
Proof.
  intros H. unfold trimRightSpace. rewrite !reverse_rev.
  rewrite rev_app_distr. cbn [rev app].
  rewrite trimLastSpace_plain by assumption.
  cbn [rev]. now rewrite rev_involutive.
Qed.

(** A text between two plain characters has no space to trim. *)
Lemma TrimSpace_plain (c : ascii) (s : gostring) (d : ascii) :
  isPlain c = true -> isPlain d = true ->
  TrimSpace (c :: s ++ [d]) = c :: s ++ [d].
Proof.
  intros Hc Hd. unfold TrimSpace.
  rewrite trimLeftSpace_plain by assumption.
  change (c :: s ++ [d]) with ((c :: s) ++ [d]).
  now apply trimRightSpace_plain.
Qed.

(** A text that starts with a plain character keeps it, unless nothing is
    left. *)
Lemma TrimSpace_head (c : ascii) (s : gostring) :
  isPlain c = true ->
  TrimSpace (c :: s) = [] \/ exists s', TrimSpace (c :: s) = c :: s'.
Proof.
  intros Hc. unfold TrimSpace. rewrite trimLeftSpace_plain by assumption.
  destruct (trimRightSpace_prefix (c :: s)) as [d Hd].
  destruct (trimRightSpace (c :: s)) as [|x t]; [now left|].
  right. exists t. simpl in Hd. now inversion Hd.
Qed.

Lemma trimLeftSpace_CR (s : gostring) :
  trimLeftSpace (s ++ [CR]) =
  match trimLeftSpace s with [] => [] | t => t ++ [CR] end.
Proof.
  functional induction (trimLeftSpace s).
  - reflexivity.
  - simpl app. rewrite trimLeftSpace_space by assumption. assumption.
  - simpl. rewrite e0. unfold space2. simpl. now rewrite andb_false_r.
  - simpl app. simpl. rewrite e0, e2. assumption.
  - simpl. rewrite e0, e2. unfold space3. simpl. now rewrite !andb_false_r.
  - simpl app. simpl. rewrite e0, e2, e4. assumption.
  - simpl. now rewrite e0, e2, e4.
Qed.

Lemma TrimSpace_CR (s : gostring) : TrimSpace (s ++ [CR]) = TrimSpace s.
Proof.
  unfold TrimSpace. rewrite trimLeftSpace_CR.
  destruct (trimLeftSpace s) as [|c t] eqn:E; [reflexivity|].
  unfold trimRightSpace. rewrite !reverse_rev, rev_app_distr. reflexivity.
Qed.

Lemma dropCR_spec (s : gostring) :
  dropCR s = s \/ s = dropCR s ++ [CR].
Proof.
  unfold dropCR. rewrite reverse_rev.
  destruct (rev s) as [|c r] eqn:E; [now left|].
  destruct (Ascii.eqb c CR) eqn:Ec; [|now left].
  right. apply Ascii.eqb_eq in Ec. subst c.
  rewrite <- (rev_involutive s), E, reverse_rev. reflexivity.
Qed.

Lemma TrimSpace_dropCR (s : gostring) : TrimSpace (dropCR s) = TrimSpace s.
Proof.
  destruct (dropCR_spec s) as [H|H]; [now rewrite H|].
  rewrite H at 2. now rewrite TrimSpace_CR.
Qed.

(** ** Patterns *)

Lemma skipLit_head (c : ascii) (p s r : gostring) :
  skipLit (c :: p) s = Some r -> exists t, s = c :: t.
Proof.
  destruct s as [|x s]; simpl; [discriminate|].
  destruct (Ascii.eqb x c) eqn:E; [|discriminate].
  apply Ascii.eqb_eq in E. subst. now eexists.
Qed.

(** A line on which a pattern with a key finds a match is no section
    start: it starts with the key, after spaces. *)
Lemma matchKeyEq_not_header (k : ascii) (key line v : gostring) :
  isPlain k = true -> Ascii.eqb k "[" = false ->
  matchKeyEq (k :: key) line = Some v -> isHeaderLine line = false.
Proof.
  intros Hk Hb H. unfold matchKeyEq in H.
  destruct (skipLit (k :: key) (skipSpaces line)) as [s1|] eqn:E;
    [|discriminate].
  apply skipLit_head in E as [t Ht].
  unfold isHeaderLine, TrimSpace.
  rewrite <- trimLeftSpace_skipSpaces, Ht.
  destruct (TrimSpace_head k t Hk) as [E|[s' E]]; unfold TrimSpace in E;
    rewrite E; [reflexivity|].
  unfold isSectionStart. simpl. rewrite Hb. reflexivity.
Qed.

Lemma reName_not_header (line v : gostring) :
  reName line = Some v -> isHeaderLine line = false.
Proof.
  unfold reName, matchQuoted. intros H.
  destruct (matchKeyEq (lit "name") line) as [w|] eqn:E; [|discriminate].
  now apply (matchKeyEq_not_header "n" (lit "ame") line w).
Qed.

Lemma marker_is_header (line : gostring) :
  isMarkerLine line = true -> isHeaderLine line = true.
Proof.
  unfold isMarkerLine, isHeaderLine, isSectionStart. now intros ->.
Qed.

Lemma greedyToQuote_closing (v : gostring) :
  noLF v -> greedyToQuote (v ++ [QUOTE]) = Some v.
Proof.
  induction v as [|c v IH]; intros H; [reflexivity|].
  simpl. destruct (Ascii.eqb c LF) eqn:E.
  - apply Ascii.eqb_eq in E. subst. exfalso. apply H. now left.
  - rewrite IH; [reflexivity|]. intros Hin. apply H. now right.
Qed.

Lemma takeDigits_all (ds : gostring) :
  Forall (fun c => reDigit c = true) ds -> takeDigits ds = ds.
Proof.
  induction 1 as [|c ds Hc _ IH]; [reflexivity|].
  simpl. now rewrite Hc, IH.
Qed.

Lemma digit_plain (c : ascii) : reDigit c = true -> isPlain c = true.
Proof.
  destruct c as [[] [] [] [] [] [] [] []]; vm_compute; congruence.
Qed.



Lemma nameLine_trim (name : gostring) :
  TrimSpace (nameLine name) = nameLine name.
Proof.
  unfold nameLine. cbn [lit list_ascii_of_string app].
  change (QUOTE :: name ++ [QUOTE]) with ((QUOTE :: name) ++ [QUOTE]).
  rewrite !app_comm_cons. apply TrimSpace_plain; reflexivity.
Qed.

Lemma reName_nameLine (name : gostring) :
  noLF name -> reName (nameLine name) = Some name.
Proof.
  intros H. unfold reName, matchQuoted.
  replace (matchKeyEq (lit "name") (nameLine name))
    with (Some (QUOTE :: name ++ [QUOTE])) by reflexivity.
  cbn [skipLit]. rewrite Ascii.eqb_refl.
  now apply greedyToQuote_closing.
Qed.

Lemma nameLine_not_marker (name : gostring) :
  isMarkerLine (nameLine name) = false.
Proof. unfold isMarkerLine. rewrite nameLine_trim. reflexivity. Qed.

Lemma portLine_trim (key ds : gostring) (k : ascii) :
  isPlain k = true -> isPort ds ->
  TrimSpace (k :: key ++ ds) = k :: key ++ ds.
Proof.
  intros Hk [Hne Hds].
  destruct (exists_last Hne) as [ds' [d ->]].
  rewrite app_assoc. apply TrimSpace_plain; [assumption|].
  apply digit_plain. rewrite Forall_forall in Hds. apply Hds.
  apply in_or_app. right. now left.
Qed.

(** ** Blocks and [deleteFrpProxy] *)

Lemma blocksOf_nonempty (lines : list gostring) : blocksOf lines <> [].
Proof.
  destruct lines as [|l rest]; simpl; [discriminate|].
  destruct (blocksOf rest); [discriminate|].
  destruct (isHeaderLine l); discriminate.
Qed.

(** The blocks are the lines, cut in pieces. *)
Lemma concat_blocksOf (lines : list gostring) :
  concat (blocksOf lines) = lines.
Proof.
  induction lines as [|l rest IH]; [reflexivity|]. simpl.
  pose proof (blocksOf_nonempty rest) as Hne.
  destruct (blocksOf rest) as [|b bs]; [congruence|].
  destruct (isHeaderLine l); simpl in *; now rewrite IH.
Qed.

(** The first block starts like the lines do, with a line that is no
    section start, or is empty before a section start. *)
Lemma blocksOf_first (lines : list gostring) (b : list gostring)
      (bs : list (list gostring)) :
  blocksOf lines = b :: bs ->
  match b with
  | [] => match lines with [] => True | l :: _ => isHeaderLine l = true end
  | x :: _ => isHeaderLine x = false /\ hd_error lines = Some x
  end.
Proof.
  destruct lines as [|l rest]; simpl.
  - intros H. now inversion H.
  - pose proof (blocksOf_nonempty rest) as Hne.
    destruct (blocksOf rest) as [|b' bs']; [congruence|].
    destruct (isHeaderLine l) eqn:E; intros H; inversion H; subst; auto.
Qed.

Lemma nextLineNames_first (proxyName : gostring) (lines b : list gostring)
      (bs : list (list gostring)) :
  blocksOf lines = b :: bs ->
  nextLineNames proxyName b = nextLineNames proxyName lines.
Proof.
  intros H. apply blocksOf_first in H.
  destruct b as [|x b'].
  - destruct lines as [|l rest]; [reflexivity|]. simpl.
    destruct (reName l) as [v|] eqn:E; [|reflexivity].
    apply reName_not_header in E. congruence.
  - destruct H as [_ H]. destruct lines as [|l rest]; [discriminate|].
    simpl in H. now inversion H.
Qed.

Lemma isNamed_cons (proxyName line : gostring) (b : list gostring) :
  isNamed proxyName (line :: b) =
  isMarkerLine line && nextLineNames proxyName b.
Proof.
  unfold isNamed, blockName, nextLineNames.
  destruct b as [|n b']; [now rewrite andb_false_r|].
  destruct (isMarkerLine line); [|reflexivity]. reflexivity.
Qed.

Lemma isNamed_first (proxyName : gostring) (lines b : list gostring)
      (bs : list (list gostring)) :
  blocksOf lines = b :: bs -> isNamed proxyName b = false.
Proof.
  intros H. apply blocksOf_first in H.
  destruct b as [|x b']; [reflexivity|]. destruct H as [H _].
  rewrite isNamed_cons.
  destruct (isMarkerLine x) eqn:E; [|reflexivity].
  apply marker_is_header in E. congruence.
Qed.

Lemma keep_cons (proxyName line : gostring) (b : list gostring) :
  keep proxyName (line :: b) =
  negb (isMarkerLine line && nextLineNames proxyName b).
Proof. unfold keep. now rewrite isNamed_cons. Qed.

(** The loop, by blocks: outside a block under deletion it keeps the first
    block and then the blocks of another name; inside one it drops the
    first block, which is the rest of the block under deletion. *)
Lemma deleteLoop_blocks (proxyName : gostring) (lines : list gostring) :
  deleteLoop proxyName false lines =
    hd [] (blocksOf lines)
    ++ concat (filter (keep proxyName) (tl (blocksOf lines)))
  /\ deleteLoop proxyName true lines =
    concat (filter (keep proxyName) (tl (blocksOf lines))).
Proof.
  induction lines as [|l rest [IHf IHt]]; [now split|].
  pose proof (blocksOf_nonempty rest) as Hne.
  cbn [deleteLoop blocksOf].
  destruct (blocksOf rest) as [|b bs] eqn:Eb; [congruence|].
  pose proof (nextLineNames_first proxyName rest b bs Eb) as Hnext.
  cbn [hd tl] in IHf, IHt.
  fold (isMarkerLine l). fold (isHeaderLine l).
  destruct (isMarkerLine l) eqn:Em.
  - rewrite (marker_is_header l Em). cbn [hd tl filter app].
    rewrite keep_cons, Em, Hnext.
    destruct (nextLineNames proxyName rest); cbn [andb negb].
    + now rewrite IHt.
    + cbn [concat]. rewrite IHf. now split.
  - cbn [andb]. destruct (isHeaderLine l) eqn:Eh; cbn [hd tl filter app].
    + rewrite keep_cons, Em. cbn [andb negb concat].
      rewrite IHf. now split.
    + rewrite IHf, IHt. now split.
Qed.

Lemma deleteLoop_kept (proxyName : gostring) (lines : list gostring) :
  deleteLoop proxyName false lines = concat (keptBlocks proxyName lines).
Proof.
  destruct (deleteLoop_blocks proxyName lines) as [H _]. rewrite H.
  unfold keptBlocks. pose proof (blocksOf_nonempty lines) as Hne.
  destruct (blocksOf lines) as [|b bs] eqn:Eb; [congruence|].
  cbn [hd tl filter]. unfold keep at 2.
  rewrite (isNamed_first proxyName lines b bs Eb).
  reflexivity.
Qed.

Lemma blocksOf_shape (lines : list gostring) :
  exists pre secs,
    blocksOf lines = pre :: secs /\ plainLines pre /\ Forall isSection secs.
Proof.
  induction lines as [|l rest (pre & secs & E & Hp & Hs)].
  - exists [], []. repeat split; constructor.
  - cbn [blocksOf]. rewrite E. destruct (isHeaderLine l) eqn:Eh.
    + exists [], ((l :: pre) :: secs). repeat split; [constructor|].
      constructor; [now split|assumption].
    + exists (l :: pre), secs. repeat split; [|assumption].
      now constructor.
Qed.

Lemma blocksOf_concat (pre : list gostring) (secs : list (list gostring)) :
  plainLines pre -> Forall isSection secs ->
  blocksOf (pre ++ concat secs) = pre :: secs.
Proof.
  intros Hp Hs. revert pre Hp.
  induction Hs as [|s secs Hsec _ IH]; intros pre Hp.
  - cbn [concat]. rewrite app_nil_r.
    induction Hp as [|l pre Hl _ IHp]; [reflexivity|].
    cbn [blocksOf]. now rewrite IHp, Hl.
  - destruct s as [|h body]; [contradiction|]. destruct Hsec as [Hh Hb].
    induction Hp as [|l pre Hl _ IHp].
    + cbn [app concat blocksOf].
      rewrite (IH body Hb), Hh. reflexivity.
    + rewrite <- app_comm_cons. cbn [blocksOf]. now rewrite IHp, Hl.
Qed.

Lemma filter_sections (f : list gostring -> bool)
      (secs : list (list gostring)) :
  Forall isSection secs -> Forall isSection (filter f secs).
Proof.
  intros H. apply Forall_forall. intros s Hin.
  apply filter_In in Hin as [Hin _].
  rewrite Forall_forall in H. now apply H.
Qed.

(** The kept blocks are the blocks of the lines that are kept. *)
Lemma blocksOf_kept (proxyName : gostring) (lines : list gostring) :
  blocksOf (concat (keptBlocks proxyName lines)) = keptBlocks proxyName lines.
Proof.
  unfold keptBlocks.
  destruct (blocksOf_shape lines) as (pre & secs & E & Hp & Hs).
  rewrite E. cbn [filter].
  replace (keep proxyName pre) with true
    by (unfold keep; now rewrite (isNamed_first proxyName lines pre secs E)).
  cbn [concat].
  apply blocksOf_concat; [assumption|]. now apply filter_sections.
Qed.

Lemma filter_idem {A} (f : A -> bool) (l : list A) :
  filter f (filter f l) = filter f l.
Proof.
  induction l as [|x l IH]; [reflexivity|]. simpl.
  destruct (f x) eqn:E; simpl; [rewrite E|]; now rewrite IH.
Qed.

Lemma filter_all {A} (f : A -> bool) (l : list A) :
  forallb f l = true -> filter f l = l.
Proof.
  induction l as [|x l IH]; [reflexivity|]. simpl. intros H.
  apply andb_true_iff in H as [Hx Hl]. now rewrite Hx, IH.
Qed.

Lemma deleteLoop_idem (proxyName : gostring) (lines : list gostring) :
  deleteLoop proxyName false (deleteLoop proxyName false lines) =
  deleteLoop proxyName false lines.
Proof.
  rewrite !deleteLoop_kept.
  unfold keptBlocks at 1. rewrite blocksOf_kept.
  unfold keptBlocks. now rewrite filter_idem.
Qed.

Lemma deleteLoop_no_LF (proxyName : gostring) (skip : bool)
      (lines : list gostring) :
  Forall noLF lines -> Forall noLF (deleteLoop proxyName skip lines).
Proof.
  intros H. revert skip. induction H as [|l rest Hl _ IH]; intros skip.
  - constructor.
  - cbn [deleteLoop].
    destruct (eqs (TrimSpace l) proxiesMarker && nextLineNames proxyName rest);
      [apply IH|].
    destruct (if eqs (TrimSpace l) proxiesMarker then false else skip);
      [destruct (isSectionStart (TrimSpace l))|];
      try apply IH; constructor; auto.
Qed.

(** The lines of the file that [deleteFrpProxy] writes are the lines its
    loop has kept, but for the file of no line at all, which has one empty
    line. *)
Lemma Split_deleteLines (proxyName content : gostring) :
  let kept := deleteLoop proxyName false (Split content LF) in
  Split (deleteLines proxyName content) LF =
  match kept with [] => [[]] | _ => kept end.
Proof.
  cbn zeta. unfold deleteLines.
  destruct (deleteLoop proxyName false (Split content LF)) as [|l ls] eqn:E;
    [reflexivity|].
  apply Split_Join; [discriminate|].
  rewrite <- E. apply deleteLoop_no_LF. apply Split_no_sep.
Qed.

Lemma deleteLines_idem (proxyName content : gostring) :
  deleteLines proxyName (deleteLines proxyName content) =
  deleteLines proxyName content.
Proof.
  unfold deleteLines at 1. rewrite Split_deleteLines.
  destruct (deleteLoop proxyName false (Split content LF)) as [|l ls] eqn:E.
  - unfold deleteLines. now rewrite E.
  - rewrite <- E, deleteLoop_idem. reflexivity.
Qed.

Lemma deleteLines_absent (proxyName content : gostring) :
  forallb (keep proxyName) (blocksOf (Split content LF)) = true ->
  deleteLines proxyName content = content.
Proof.
  intros H. unfold deleteLines. rewrite deleteLoop_kept. unfold keptBlocks.
  rewrite filter_all by assumption.
  now rewrite concat_blocksOf, Join_Split.
Qed.

(** ** Running the registry functions *)

Lemma deleteFrpProxy_run {W} (proxyName content : gostring) (st : State W) :
  toml st = Ok content ->
  deleteFrpProxy proxyName st =
  (None, {| toml := Ok (deleteLines proxyName content);
            world := world st;
            trace := ((trace st ++ [EvEnter "deleteFrpProxy"]) ++ [EvReadFile])
                     ++ [EvWriteFile (deleteLines proxyName content)] |}).
Proof.
  intros H. unfold deleteFrpProxy, bind, emit, getToml, putToml, ret.
  cbn. rewrite H. reflexivity.
Qed.

Lemma appendString_run {W} (text content : gostring) (st : State W) :
  toml st = Ok content ->
  appendString text st =
  (None, {| toml := Ok (content ++ text);
            world := world st;
            trace := (trace st ++ [EvOpenAppend]) ++ [EvWriteString text] |}).
Proof.
  intros H. unfold appendString, bind, emit, getToml, putToml, ret.
  cbn. rewrite H. reflexivity.
Qed.

Lemma appendToFrpc_run {W} (req : AddRuleRequest.t) (content : gostring)
      (st : State W) :
  toml st = Ok content ->
  let text := proxyBlock (ruleProxyName req) (AddRuleRequest.ListenPort req)
                         (AddRuleRequest.RemotePort req) in
  appendToFrpc req st =
  (None, {| toml := Ok (content ++ text);
            world := world st;
            trace := ((trace st ++ [EvEnter "appendToFrpc"]) ++ [EvOpenAppend])
                     ++ [EvWriteString text] |}).
Proof.
  intros H text. unfold appendToFrpc, bind at 1, emit.
  now rewrite (appendString_run text content).
Qed.

(** Whatever [registerWebUIToFrpc] does, the file keeps what it had. *)
Lemma registerWebUIToFrpc_file {W} (config : Config.t) (content : gostring)
      (st : State W) :
  toml st = Ok content ->
  toml (snd (registerWebUIToFrpc config st)) = Ok content
  \/ toml (snd (registerWebUIToFrpc config st)) =
     Ok (content ++ proxyBlock (webUIProxyFullName config)
                               (fmtInt (Config.Port config))
                               (fmtInt (Config.WebUIRemotePort config))).
Proof.
  intros H.
  unfold registerWebUIToFrpc, getFrpProxies, appendString,
    bind, emit, getToml, putToml, ret.
  cbn. rewrite H.
  destruct (existsb _ (parseProxies content)); cbn; [now left|now right].
Qed.

Lemma In_concat_split {A} (b : list A) (bs : list (list A)) :
  In b bs -> exists before after, concat bs = before ++ b ++ after.
Proof.
  intros H. apply in_split in H as (l1 & l2 & ->).
  exists (concat l1), (concat l2). now rewrite concat_app.
Qed.

Lemma keep_blockName (proxyName : gostring) (b : list gostring) :
  keep proxyName b = true <-> blockName b <> Some proxyName.
Proof.
  unfold keep, isNamed. destruct (blockName b) as [v|]; cbn.
  - rewrite negb_true_iff, eqs_neq. split; congruence.
  - split; [discriminate|reflexivity].
Qed.

(** C1: a mutation of the registry leaves every block it does not add or
    remove as it was, byte for byte.  Appending (a rule by [appendToFrpc],
    the manager's own entry by [registerWebUIToFrpc]) puts text after the
    content of the file, which stays in front unchanged.  Deleting by name
    writes back the lines of the file without the blocks of that name:
    every other block (the lines before the first section start, the
    proxies of another name, the sections in brackets) keeps all its lines,
    in order, and the lines go back with the line feeds they were cut at. *)
Theorem registry_mutation_frame {W} (st : State W) (content : gostring) :
  toml st = Ok content ->
  (forall req,
      toml (snd (appendToFrpc req st)) =
      Ok (content ++ proxyBlock (ruleProxyName req)
                                (AddRuleRequest.ListenPort req)
                                (AddRuleRequest.RemotePort req)))
  /\ (forall config,
         exists text, toml (snd (registerWebUIToFrpc config st)) =
                      Ok (content ++ text))
  /\ (forall proxyName,
         toml (snd (deleteFrpProxy proxyName st)) =
         Ok (Join (concat (filter (keep proxyName)
                                  (blocksOf (Split content LF)))) LF))
  /\ concat (blocksOf (Split content LF)) = Split content LF
  /\ Join (Split content LF) LF = content.
Proof.
  intros H. split; [|split; [|split; [|split]]].
  - intros req. now rewrite (appendToFrpc_run req content).
  - intros config.
    destruct (registerWebUIToFrpc_file config content st H) as [E|E];
      rewrite E; [exists []|eexists]; [now rewrite app_nil_r|reflexivity].
  - intros proxyName. rewrite (deleteFrpProxy_run proxyName content) by exact H.
    cbn. unfold deleteLines. now rewrite deleteLoop_kept.
  - apply concat_blocksOf.
  - apply Join_Split.
Qed.

Lemma registry_mutation_frame_witness :
  toml (initial (Ok sampleRegistry) None) = Ok sampleRegistry
  /\ toml (snd (appendToFrpc bobRequest (initial (Ok sampleRegistry) None))) =
     Ok (sampleRegistry
         ++ proxyBlock (lit "bob-manager-10.0.0.9-443") (lit "9000")
                       (lit "19000"))
  /\ toml (snd (deleteFrpProxy (lit "web") (initial (Ok sampleRegistry) None))) =
     Ok (Join (concat (filter (keep (lit "web"))
                              (blocksOf (Split sampleRegistry LF)))) LF).
Proof.
  split; [reflexivity|]. split.
  - apply (proj1 (registry_mutation_frame (initial (Ok sampleRegistry) None)
                    sampleRegistry eq_refl) bobRequest).
  - apply (proj1 (proj2 (proj2 (registry_mutation_frame
                                  (initial (Ok sampleRegistry) None)
                                  sampleRegistry eq_refl))) (lit "web")).
Defined.

(** In the file that a deletion writes no block has the name, and when the
    file read has a block of the name the file written is another one. *)
Lemma deleteLines_none_named (proxyName content : gostring) :
  forall b, In b (blocksOf (Split (deleteLines proxyName content) LF)) ->
            blockName b <> Some proxyName.
Proof.
  intros b Hb.
  pose proof (Split_deleteLines proxyName content) as HS. cbn zeta in HS.
  rewrite HS in Hb.
  destruct (deleteLoop proxyName false (Split content LF)) as [|l ls] eqn:E.
  - cbn in Hb. destruct Hb as [<-|[]]. discriminate.
  - rewrite <- E, deleteLoop_kept, blocksOf_kept in Hb.
    apply filter_In in Hb as [_ Hb]. now apply keep_blockName.
Qed.

Lemma deleteLines_changes (proxyName content : gostring) :
  (exists b, In b (blocksOf (Split content LF))
             /\ blockName b = Some proxyName) ->
  deleteLines proxyName content <> content.
Proof.
  intros (b & Hb & Hname) E.
  apply (deleteLines_none_named proxyName content b); [|exact Hname].
  rewrite E. exact Hb.
Qed.

(** C2: deleting by name is idempotent and goes by the exact name.  When no
    block of the file has the name, the file written back is the file read,
    byte for byte; a second deletion of the same name right after the first
    changes nothing; and every block whose name is not exactly the one
    asked for (a proxy of another name, be it a longer or a shorter one, or
    a block that is no proxy) is in the file written back, line by line.
    The blocks of the name are removed, and nothing else: the file written
    back is the lines of the blocks of another name, in their order, joined
    by line feeds; no block of it has the name; and when the file read has
    a block of the name, the file written back is not the file read. *)
Theorem delete_idempotent_name_scoped {W} (st : State W)
        (proxyName content : gostring) :
  toml st = Ok content ->
  let st1 := snd (deleteFrpProxy proxyName st) in
  ((forall b, In b (blocksOf (Split content LF)) ->
              blockName b <> Some proxyName) ->
   toml st1 = Ok content)
  /\ toml (snd (deleteFrpProxy proxyName st1)) = toml st1
  /\ (forall b, In b (blocksOf (Split content LF)) ->
                blockName b <> Some proxyName ->
                exists written before after,
                  toml st1 = Ok written
                  /\ Split written LF = before ++ b ++ after)
  /\ (exists written,
         toml st1 = Ok written
         /\ written =
            Join (concat (filter (keep proxyName)
                                 (blocksOf (Split content LF)))) LF
         /\ (forall b, In b (blocksOf (Split written LF)) ->
                       blockName b <> Some proxyName)
         /\ ((exists b, In b (blocksOf (Split content LF))
                        /\ blockName b = Some proxyName) ->
             written <> content)).
Proof.
  intros H st1. subst st1.
  rewrite (deleteFrpProxy_run proxyName content st H). cbn [snd toml].
  split; [|split; [|split]].
  4:{ exists (deleteLines proxyName content). split; [reflexivity|].
      split; [|split].
      - unfold deleteLines. rewrite deleteLoop_kept. reflexivity.
      - apply deleteLines_none_named.
      - apply deleteLines_changes. }
  - intros Hno. f_equal. apply deleteLines_absent.
    apply forallb_forall. intros b Hb. apply keep_blockName. now apply Hno.
  - erewrite deleteFrpProxy_run by reflexivity. cbn [snd toml].
    now rewrite deleteLines_idem.
  - intros b Hb Hname. exists (deleteLines proxyName content).
    assert (Hin : In b (keptBlocks proxyName (Split content LF))).
    { apply filter_In. split; [assumption|]. now apply keep_blockName. }
    apply In_concat_split in Hin as (before & after & E).
    rewrite <- deleteLoop_kept in E.
    pose proof (Split_deleteLines proxyName content) as HS. cbn zeta in HS.
    rewrite E in HS.
    destruct (before ++ b ++ after) as [|l ls] eqn:Ebba.
    + apply app_eq_nil in Ebba as [-> Ebba].
      apply app_eq_nil in Ebba as [-> ->].
      exists [[]], []. now split.
    + exists before, after. rewrite Ebba. now split.
Qed.

Lemma delete_idempotent_name_scoped_witness :
  toml (initial (Ok sampleRegistry) None) = Ok sampleRegistry
  /\ toml (snd (deleteFrpProxy (lit "we") (initial (Ok sampleRegistry) None)))
     = Ok sampleRegistry
  /\ toml (snd (deleteFrpProxy (lit "web")
                  (snd (deleteFrpProxy (lit "web")
                          (initial (Ok sampleRegistry) None))))) =
     toml (snd (deleteFrpProxy (lit "web") (initial (Ok sampleRegistry) None)))
  /\ (exists written before after,
         toml (snd (deleteFrpProxy (lit "web")
                      (initial (Ok sampleRegistry) None))) = Ok written
         /\ Split written LF =
            before
            ++ [proxiesMarker; nameLine (lit "my-web-2"); typeLine;
                localIPLine; localPortLine (lit "81");
                remotePortLine (lit "8081")]
            ++ after)
  /\ toml (snd (deleteFrpProxy (lit "web")
                  (initial (Ok sampleRegistry) None))) = Ok sampleWithoutWeb
  /\ (exists written,
         toml (snd (deleteFrpProxy (lit "web")
                      (initial (Ok sampleRegistry) None))) = Ok written
         /\ (forall b, In b (blocksOf (Split written LF)) ->
                       blockName b <> Some (lit "web"))
         /\ written <> sampleRegistry).
Proof.
  split; [reflexivity|]. split; [|split; [|split; [|split]]].
  - apply (proj1 (delete_idempotent_name_scoped
                    (initial (Ok sampleRegistry) None)
                    (lit "we") sampleRegistry eq_refl)).
    intros b Hb. vm_compute in Hb.
    repeat (destruct Hb as [<-|Hb]; [vm_compute; discriminate|]).
    destruct Hb.
  - apply (proj1 (proj2 (delete_idempotent_name_scoped
                           (initial (Ok sampleRegistry) None)
                           (lit "web") sampleRegistry eq_refl))).
  - apply (proj1 (proj2 (proj2 (delete_idempotent_name_scoped
                                  (initial (Ok sampleRegistry) None)
                                  (lit "web") sampleRegistry eq_refl)))).
    + vm_compute. right. right. left. reflexivity.
    + vm_compute. discriminate.
  - vm_compute. reflexivity.
  - destruct (proj2 (proj2 (proj2 (delete_idempotent_name_scoped
                                     (initial (Ok sampleRegistry) None)
                                     (lit "web") sampleRegistry eq_refl))))
      as (written & E & _ & Hnone & Hchanged).
    exists written. split; [exact E|]. split; [exact Hnone|].
    apply Hchanged. eexists. split.
    + vm_compute. right. left. reflexivity.
    + vm_compute. reflexivity.
Defined.

(** C10: one deletion removes every block of the name, however many the
    file has: each marker is checked against the name by itself.  The blocks
    of the lines the loop keeps are the blocks of the file without all those
    of the name, and in the file written back no block has the name. *)
Theorem delete_removes_every_block_of_the_name {W} (st : State W)
        (proxyName content : gostring) :
  toml st = Ok content ->
  blocksOf (deleteLoop proxyName false (Split content LF)) =
  filter (keep proxyName) (blocksOf (Split content LF))
  /\ exists written,
      toml (snd (deleteFrpProxy proxyName st)) = Ok written
      /\ forall b, In b (blocksOf (Split written LF)) ->
                   blockName b <> Some proxyName.
Proof.
  intros H. split.
  - rewrite deleteLoop_kept. apply blocksOf_kept.
  - exists (deleteLines proxyName content).
    rewrite (deleteFrpProxy_run proxyName content st H). cbn [snd toml].
    split; [reflexivity|]. intros b Hb.
    pose proof (Split_deleteLines proxyName content) as HS. cbn zeta in HS.
    rewrite HS in Hb.
    destruct (deleteLoop proxyName false (Split content LF)) as [|l ls] eqn:E.
    + cbn in Hb. destruct Hb as [<-|[]]. discriminate.
    + rewrite <- E, deleteLoop_kept, blocksOf_kept in Hb.
      apply filter_In in Hb as [_ Hb]. now apply keep_blockName.
Qed.

Lemma delete_removes_every_block_of_the_name_witness :
  toml (initial (Ok sampleRegistry) None) = Ok sampleRegistry
  /\ length (filter (isNamed (lit "web")) (blocksOf (Split sampleRegistry LF)))
     = 2
  /\ blocksOf (deleteLoop (lit "web") false (Split sampleRegistry LF)) =
     filter (keep (lit "web")) (blocksOf (Split sampleRegistry LF)).
Proof.
  split; [reflexivity|]. split; [reflexivity|].
  apply (proj1 (delete_removes_every_block_of_the_name
                  (initial (Ok sampleRegistry) None) (lit "web")
                  sampleRegistry eq_refl)).
Defined.

(** ** The scanner and [getFrpProxies] *)

Lemma setField_empty (c : FrpProxy.t) : setField c [] = c.
Proof. now destruct c. Qed.

Lemma parseLine_empty (ps : ParseState) : parseLine ps [] = ps.
Proof.
  unfold parseLine. cbn. destruct ps as [p [c|]]; cbn; [|reflexivity].
  now rewrite setField_empty.
Qed.

Lemma parseLine_dropCR (ps : ParseState) (text : gostring) :
  parseLine ps (dropCR text) = parseLine ps text.
Proof. unfold parseLine. now rewrite TrimSpace_dropCR. Qed.

Lemma fold_parseLine_dropCR (lines : list gostring) (ps : ParseState) :
  fold_left parseLine (map dropCR lines) ps = fold_left parseLine lines ps.
Proof.
  revert ps. induction lines as [|l ls IH]; intros ps; [reflexivity|].
  cbn. now rewrite parseLine_dropCR, IH.
Qed.

(** The raw tokens are the pieces, but for an empty last one. *)
Lemma rawTokens_spec (pieces : list gostring) :
  rawTokens pieces = pieces \/ pieces = rawTokens pieces ++ [[]].
Proof.
  induction pieces as [|p ps IH]; [now left|].
  destruct ps as [|p' ps].
  - destruct p; [now right|now left].
  - change (rawTokens (p :: p' :: ps)) with (p :: rawTokens (p' :: ps)).
    destruct IH as [IH|IH]; [left; now rewrite IH|right].
    rewrite <- app_comm_cons. now rewrite <- IH.
Qed.

Lemma rawTokens_app (a b : list gostring) :
  b <> [] -> rawTokens (a ++ b) = a ++ rawTokens b.
Proof.
  intros Hb. induction a as [|x a IH]; [reflexivity|].
  cbn [app]. destruct (a ++ b) as [|y ab] eqn:E.
  - apply app_eq_nil in E as [_ E]. congruence.
  - change (rawTokens (x :: y :: ab)) with (x :: rawTokens (y :: ab)).
    now rewrite IH.
Qed.

Lemma fold_parseLine_rawTokens (pieces : list gostring) (ps : ParseState) :
  fold_left parseLine (rawTokens pieces) ps = fold_left parseLine pieces ps.
Proof.
  destruct (rawTokens_spec pieces) as [E|E]; [now rewrite E|].
  rewrite E at 2. rewrite fold_left_app. cbn [fold_left].
  now rewrite parseLine_empty.
Qed.

Lemma scanTokens_fit (raw : list gostring) :
  Forall (fun t => fits t = true) raw -> scanTokens raw = map dropCR raw.
Proof.
  induction 1 as [|t raw Ht _ IH]; [reflexivity|].
  cbn. unfold fits in Ht. now rewrite Ht, IH.
Qed.

Lemma scanTokens_app (a b : list gostring) :
  Forall (fun t => fits t = true) a ->
  scanTokens (a ++ b) = map dropCR a ++ scanTokens b.
Proof.
  induction 1 as [|t a Ht _ IH]; [reflexivity|].
  cbn. unfold fits in Ht. now rewrite Ht, IH.
Qed.

(** The scanner stops early or not: its tokens start the raw ones. *)
Lemma scanTokens_prefix (raw : list gostring) :
  exists n, scanTokens raw = map dropCR (firstn n raw).
Proof.
  induction raw as [|t raw [n IH]]; [now exists 0|].
  cbn. destruct (lenN t <? MaxScanTokenSize)%N.
  - exists (S n). cbn. now rewrite IH.
  - now exists 0.
Qed.

Lemma Forall_rawTokens (P : gostring -> Prop) (pieces : list gostring) :
  Forall P pieces -> Forall P (rawTokens pieces).
Proof.
  intros H. destruct (rawTokens_spec pieces) as [E|E]; [now rewrite E|].
  rewrite E in H. now apply Forall_app in H as [H _].
Qed.

(** On a file whose lines the scanner has room for, the loop sees the lines
    of the file. *)
Lemma parseProxies_lines (content : gostring) :
  linesFit content ->
  parseProxies content =
  flush (fold_left parseLine (Split content LF)
                   {| proxies := []; current := None |}).
Proof.
  intros H. unfold parseProxies, ScanLines.
  rewrite scanTokens_fit by now apply Forall_rawTokens.
  now rewrite fold_parseLine_dropCR, fold_parseLine_rawTokens.
Qed.

(** The loop, by records: the record that is open takes the fields of the
    lines up to the next marker, and each marker after it opens a record
    that takes the fields of the lines after it. *)
Lemma flush_fold_parseLine (lines : list gostring) (ps : ParseState) :
  flush (fold_left parseLine lines ps) =
  match current ps with
  | Some c =>
      proxies ps ++ fieldsOf (untilMarker lines) c
              :: map recordOf (markerBodies lines)
  | None => proxies ps ++ map recordOf (markerBodies lines)
  end.
Proof.
  revert ps. induction lines as [|l ls IH]; intros ps.
  - cbn. unfold flush. destruct (current ps); [reflexivity|].
    now rewrite app_nil_r.
  - cbn [fold_left]. rewrite IH. unfold parseLine.
    cbn [untilMarker markerBodies map]. fold (isMarkerLine l).
    destruct (isMarkerLine l); cbn [current proxies].
    + unfold flush, recordOf. destruct (current ps); cbn [fieldsOf fold_left];
        [now rewrite <- app_assoc|reflexivity].
    + destruct (current ps) eqn:E; cbn [current proxies]; [reflexivity|].
      now rewrite E.
Qed.

(** Whatever the file, one record for each marker among the lines the
    scanner delivers. *)
Lemma parseProxies_scanned (content : gostring) :
  parseProxies content = map recordOf (markerBodies (ScanLines content)).
Proof. unfold parseProxies. now rewrite flush_fold_parseLine. Qed.

Lemma length_markerBodies (lines : list gostring) :
  length (markerBodies lines) = length (filter isMarkerLine lines).
Proof.
  induction lines as [|l ls IH]; [reflexivity|].
  cbn. destruct (isMarkerLine l); cbn; now rewrite IH.
Qed.

Lemma getFrpProxies_run {W} (content : gostring) (st : State W) :
  toml st = Ok content ->
  getFrpProxies st =
  (Ok (parseProxies content),
   {| toml := toml st; world := world st;
      trace := (trace st ++ [EvEnter "getFrpProxies"]) ++ [EvOpen] |}).
Proof.
  intros H. unfold getFrpProxies, bind, emit, getToml, ret. cbn.
  now rewrite H.
Qed.

Lemma linesFit_check (content : gostring) :
  forallb fits (Split content LF) = true -> linesFit content.
Proof.
  intros H. apply Forall_forall. intros l Hl.
  rewrite forallb_forall in H. now apply H.
Qed.

(** C3, as the code has it: [getFrpProxies] fails only when the file cannot
    be opened, with the error of the opening.  On a file each of whose lines
    is shorter than the buffer of the scanner (65536 bytes), it returns one
    record for each marker line, in the order of the file, whatever stands
    between the markers; each record has the fields of all the lines from
    its marker to the next marker or the end of the file, a field that no
    line sets being empty. *)
Theorem getFrpProxies_one_record_per_marker {W} (st : State W) :
  (forall e, fst (getFrpProxies st) = Err e -> toml st = Err e)
  /\ (forall content,
         toml st = Ok content -> linesFit content ->
         fst (getFrpProxies st) =
         Ok (map recordOf (markerBodies (Split content LF)))
         /\ length (map recordOf (markerBodies (Split content LF))) =
            length (filter isMarkerLine (Split content LF))).
Proof.
  split.
  - intros e. unfold getFrpProxies, bind, emit, getToml, ret. cbn.
    destruct (toml st); cbn; congruence.
  - intros content H Hfit.
    rewrite (getFrpProxies_run content st H). cbn [fst].
    rewrite parseProxies_lines by assumption.
    rewrite flush_fold_parseLine. cbn [current proxies app].
    split; [reflexivity|].
    now rewrite length_map, length_markerBodies.
Qed.

Lemma getFrpProxies_one_record_per_marker_witness :
  toml (initial (Ok sampleRegistry) None) = Ok sampleRegistry
  /\ linesFit sampleRegistry
  /\ length (filter isMarkerLine (Split sampleRegistry LF)) = 3
  /\ fst (getFrpProxies (initial (Ok sampleRegistry) None)) =
     Ok (map recordOf (markerBodies (Split sampleRegistry LF))).
Proof.
  assert (Hfit : linesFit sampleRegistry)
    by (apply linesFit_check; vm_compute; reflexivity).
  split; [reflexivity|]. split; [exact Hfit|]. split; [reflexivity|].
  apply (proj1 (proj2 (getFrpProxies_one_record_per_marker
                         (initial (Ok sampleRegistry) None))
                      sampleRegistry eq_refl Hfit)).
Defined.

(** C3 as the claim states it fails on [longLineRegistry]: the file can be
    read and has one marker line, and [getFrpProxies] returns no record,
    and no error.  The scanner stops at the first line, which fills its
    buffer, and the loop ends as it does at the end of the file. *)
Lemma getFrpProxies_misses_marker_after_long_line :
  toml (initial (Ok longLineRegistry) None) = Ok longLineRegistry
  /\ length (filter isMarkerLine (Split longLineRegistry LF)) = 1
  /\ fst (getFrpProxies (initial (Ok longLineRegistry) None)) = Ok [].
Proof. repeat split; vm_compute; reflexivity. Qed.

(** ** Reading back what the writers print *)

Lemma proxyBlock_lines (name localPort remotePort : gostring) :
  proxyBlock name localPort remotePort =
  LF :: Join (proxiesMarker :: nameLine name
              :: fieldLines localPort remotePort ++ [[]]) LF.
Proof.
  unfold proxyBlock, fieldLines, nameLine, typeLine, localIPLine,
    localPortLine, remotePortLine.
  cbn [Join app]. repeat rewrite <- app_assoc. cbn [app].
  repeat (rewrite <- app_assoc; cbn [app]). reflexivity.
Qed.

Lemma noLF_check (s : gostring) :
  forallb (fun c => negb (Ascii.eqb c LF)) s = true -> noLF s.
Proof.
  intros H Hin. rewrite forallb_forall in H. apply H in Hin.
  now rewrite Ascii.eqb_refl in Hin.
Qed.

Lemma noLF_app (a b : gostring) : noLF a -> noLF b -> noLF (a ++ b).
Proof. intros Ha Hb H. apply in_app_or in H as [H|H]; auto. Qed.

Lemma noLF_digits (ds : gostring) :
  Forall (fun c => reDigit c = true) ds -> noLF ds.
Proof.
  intros H Hin. rewrite Forall_forall in H. apply H in Hin.
  discriminate Hin.
Qed.

Lemma noLF_nameLine (name : gostring) : noLF name -> noLF (nameLine name).
Proof.
  intros H. unfold nameLine. apply noLF_app; [now apply noLF_check|].
  change (QUOTE :: name ++ [QUOTE]) with ([QUOTE] ++ name ++ [QUOTE]).
  repeat apply noLF_app; try assumption; now apply noLF_check.
Qed.

Lemma noLF_fieldLines (localPort remotePort : gostring) :
  noLF localPort -> noLF remotePort ->
  Forall noLF (fieldLines localPort remotePort).
Proof.
  intros Hl Hr. unfold fieldLines.
  repeat constructor; try (now apply noLF_check);
    apply noLF_app; try assumption; now apply noLF_check.
Qed.

Lemma Split_proxyBlock (content name localPort remotePort : gostring) :
  noLF name -> noLF localPort -> noLF remotePort ->
  Split (content ++ proxyBlock name localPort remotePort) LF =
  Split content LF
  ++ proxiesMarker :: nameLine name
     :: fieldLines localPort remotePort ++ [[]].
Proof.
  intros Hn Hl Hr. rewrite proxyBlock_lines, Split_app.
  rewrite Split_Join; [reflexivity|discriminate|].
  constructor; [now apply noLF_check|].
  constructor; [now apply noLF_nameLine|].
  apply Forall_app. split; [now apply noLF_fieldLines|].
  constructor; [intros []|constructor].
Qed.

Lemma ScanLines_proxyBlock (content name localPort remotePort : gostring) :
  linesFit content ->
  noLF name -> noLF localPort -> noLF remotePort ->
  fits (nameLine name) = true ->
  exists n,
    ScanLines (content ++ proxyBlock name localPort remotePort) =
    map dropCR (Split content LF
                ++ proxiesMarker :: nameLine name
                   :: firstn n (fieldLines localPort remotePort))
    /\ (Forall (fun l => fits l = true) (fieldLines localPort remotePort) ->
        firstn n (fieldLines localPort remotePort) =
        fieldLines localPort remotePort).
Proof.
  intros Hc Hn Hl Hr Hfit. unfold ScanLines.
  rewrite Split_proxyBlock by assumption.
  rewrite rawTokens_app by discriminate.
  rewrite scanTokens_app by assumption.
  change (rawTokens (proxiesMarker :: nameLine name
                     :: fieldLines localPort remotePort ++ [[]]))
    with (proxiesMarker :: nameLine name :: fieldLines localPort remotePort).
  cbn [scanTokens]. unfold fits in Hfit. rewrite Hfit.
  replace (lenN proxiesMarker <? MaxScanTokenSize)%N with true
    by (vm_compute; reflexivity).
  destruct (scanTokens_prefix (fieldLines localPort remotePort)) as [n En].
  destruct (Forall_dec (fun l => fits l = true)
              (fun l => bool_dec (fits l) true)
              (fieldLines localPort remotePort)) as [Hall|Hnot].
  - exists 4. split; [|reflexivity].
    rewrite (scanTokens_fit _ Hall), map_app. reflexivity.
  - exists n. split; [|intros Hall; contradiction].
    rewrite En, map_app. reflexivity.
Qed.

Lemma setField_nameless (r : FrpProxy.t) (line : gostring) :
  reName line = None ->
  FrpProxy.Name (setField r line) = FrpProxy.Name r.
Proof.
  intros H. destruct r. unfold setField. rewrite H.
  destruct (reType line); [reflexivity|].
  destruct (reLocalIP line); [reflexivity|].
  destruct (reLocalPort line); [reflexivity|].
  destruct (reRemotePort line); reflexivity.
Qed.

Lemma fold_nameless (lines : list gostring) :
  Forall nameless lines ->
  forall (P : list FrpProxy.t) (r : FrpProxy.t),
  exists r',
    fold_left parseLine lines {| proxies := P; current := Some r |} =
    {| proxies := P; current := Some r' |}
    /\ FrpProxy.Name r' = FrpProxy.Name r.
Proof.
  induction 1 as [|l ls [Hm Hn] _ IH]; intros P r.
  - now exists r.
  - cbn [fold_left]. unfold parseLine at 2. unfold isMarkerLine in Hm.
    rewrite Hm. cbn [current proxies].
    destruct (IH P (setField r (TrimSpace l))) as (r' & E & En).
    exists r'. split; [exact E|].
    now rewrite En, setField_nameless.
Qed.

Lemma plain_not_reSpace (c : ascii) : isPlain c = true -> reSpace c = false.
Proof.
  intros H. destruct (reSpace c) eqn:E; [|reflexivity].
  apply reSpace_asciiSpace in E. apply plain_not_space in H. congruence.
Qed.

(** A line that starts with a plain character other than those of the
    marker and of the name key. *)
Lemma nameless_head (c : ascii) (s : gostring) :
  isPlain c = true -> Ascii.eqb c "[" = false -> Ascii.eqb c "n" = false ->
  nameless (c :: s).
Proof.
  intros Hp Hb Hn. unfold nameless, isMarkerLine.
  destruct (TrimSpace_head c s Hp) as [E|[s' E]]; rewrite E.
  - split; reflexivity.
  - split.
    + cbn. now rewrite Hb.
    + unfold reName, matchQuoted, matchKeyEq. cbn [skipSpaces].
      rewrite (plain_not_reSpace c Hp). cbn. now rewrite Hn.
Qed.

Lemma nameless_fieldLines (localPort remotePort : gostring) :
  Forall nameless (fieldLines localPort remotePort).
Proof.
  unfold fieldLines. repeat constructor; try reflexivity;
    now apply nameless_head.
Qed.

Lemma Forall_firstn' {A} (P : A -> Prop) (n : nat) (l : list A) :
  Forall P l -> Forall P (firstn n l).
Proof.
  intros H. rewrite <- (firstn_skipn n l) in H.
  now apply Forall_app in H as [H _].
Qed.

Lemma stateAfter_flush (content : gostring) :
  linesFit content ->
  flush (fold_left parseLine (Split content LF)
                   {| proxies := []; current := None |}) =
  parseProxies content.
Proof. intros H. now rewrite parseProxies_lines. Qed.

(** The block a writer appends reads back as one more record, of the name
    written. *)
Lemma parse_appended_name (content name localPort remotePort : gostring) :
  linesFit content ->
  noLF name -> noLF localPort -> noLF remotePort ->
  fits (nameLine name) = true ->
  exists r,
    parseProxies (content ++ proxyBlock name localPort remotePort) =
    parseProxies content ++ [r]
    /\ FrpProxy.Name r = name.
Proof.
  intros Hc Hn Hl Hr Hfit.
  destruct (ScanLines_proxyBlock content name localPort remotePort
              Hc Hn Hl Hr Hfit) as (n & E & _).
  unfold parseProxies at 1. rewrite E, fold_parseLine_dropCR.
  rewrite fold_left_app. cbn [fold_left].
  set (after := fold_left parseLine (Split content LF) _).
  unfold parseLine at 3. replace (eqs (TrimSpace proxiesMarker) proxiesMarker)
    with true by reflexivity.
  unfold parseLine at 2. cbn [current proxies].
  pose proof (nameLine_not_marker name) as Hm. unfold isMarkerLine in Hm.
  rewrite Hm. rewrite nameLine_trim.
  destruct (fold_nameless (firstn n (fieldLines localPort remotePort))
              (Forall_firstn' _ n _ (nameless_fieldLines localPort remotePort))
              (flush after) (setField FrpProxy.zero (nameLine name)))
    as (r & Er & En).
  rewrite Er. exists r. split.
  - unfold flush at 1. cbn [current proxies]. subst after.
    now rewrite stateAfter_flush.
  - rewrite En. unfold setField, FrpProxy.zero.
    now rewrite reName_nameLine.
Qed.

Lemma setField_typeLine (r : FrpProxy.t) :
  setField r (TrimSpace typeLine) =
  FrpProxy.Build_t (FrpProxy.Name r) (lit "tcp") (FrpProxy.LocalIP r)
                   (FrpProxy.LocalPort r) (FrpProxy.RemotePort r).
Proof. now destruct r. Qed.

Lemma setField_localIPLine (r : FrpProxy.t) :
  setField r (TrimSpace localIPLine) =
  FrpProxy.Build_t (FrpProxy.Name r) (FrpProxy.Type_ r) (lit "127.0.0.1")
                   (FrpProxy.LocalPort r) (FrpProxy.RemotePort r).
Proof. now destruct r. Qed.

Lemma skipSpaces_port (ds : gostring) : isPort ds -> skipSpaces ds = ds.
Proof.
  intros [Hne H]. destruct H as [|c ds Hc _]; [congruence|].
  cbn. now rewrite (plain_not_reSpace c (digit_plain c Hc)).
Qed.

Lemma matchDigits_port (key line ds : gostring) :
  isPort ds -> matchKeyEq key line = Some (skipSpaces ds) ->
  matchDigits key line = Some ds.
Proof.
  intros H E. unfold matchDigits. rewrite E, (skipSpaces_port ds H).
  destruct H as [Hne H]. rewrite (takeDigits_all ds H).
  destruct ds; [congruence|reflexivity].
Qed.

Lemma setField_localPortLine (r : FrpProxy.t) (ds : gostring) :
  isPort ds ->
  setField r (TrimSpace (localPortLine ds)) =
  FrpProxy.Build_t (FrpProxy.Name r) (FrpProxy.Type_ r) (FrpProxy.LocalIP r)
                   ds (FrpProxy.RemotePort r).
Proof.
  intros H. unfold localPortLine.
  change (lit "localPort = " ++ ds) with ("l"%char :: lit "ocalPort = " ++ ds).
  rewrite (portLine_trim (lit "ocalPort = ") ds "l" eq_refl H).
  destruct r. unfold setField.
  replace (reName _) with (@None gostring) by reflexivity.
  replace (reType _) with (@None gostring) by reflexivity.
  replace (reLocalIP _) with (@None gostring) by reflexivity.
  unfold reLocalPort.
  now rewrite (matchDigits_port (lit "localPort")
                 ("l"%char :: lit "ocalPort = " ++ ds) ds H eq_refl).
Qed.

Lemma setField_remotePortLine (r : FrpProxy.t) (ds : gostring) :
  isPort ds ->
  setField r (TrimSpace (remotePortLine ds)) =
  FrpProxy.Build_t (FrpProxy.Name r) (FrpProxy.Type_ r) (FrpProxy.LocalIP r)
                   (FrpProxy.LocalPort r) ds.
Proof.
  intros H. unfold remotePortLine.
  change (lit "remotePort = " ++ ds)
    with ("r"%char :: lit "emotePort = " ++ ds).
  rewrite (portLine_trim (lit "emotePort = ") ds "r" eq_refl H).
  destruct r. unfold setField.
  replace (reName _) with (@None gostring) by reflexivity.
  replace (reType _) with (@None gostring) by reflexivity.
  replace (reLocalIP _) with (@None gostring) by reflexivity.
  replace (reLocalPort _) with (@None gostring) by reflexivity.
  unfold reRemotePort.
  now rewrite (matchDigits_port (lit "remotePort")
                 ("r"%char :: lit "emotePort = " ++ ds) ds H eq_refl).
Qed.

Lemma parseLine_field (P : list FrpProxy.t) (r : FrpProxy.t)
      (line : gostring) :
  isMarkerLine line = false ->
  parseLine {| proxies := P; current := Some r |} line =
  {| proxies := P; current := Some (setField r (TrimSpace line)) |}.
Proof. intros H. unfold parseLine. unfold isMarkerLine in H. now rewrite H. Qed.

Lemma linesFit_block (name localPort remotePort : gostring) :
  noLF name -> noLF localPort -> noLF remotePort ->
  linesFit (proxyBlock name localPort remotePort) ->
  fits (nameLine name) = true
  /\ Forall (fun l => fits l = true) (fieldLines localPort remotePort).
Proof.
  intros Hn Hl Hr H. unfold linesFit in H.
  change (proxyBlock name localPort remotePort)
    with ([] ++ proxyBlock name localPort remotePort) in H.
  rewrite Split_proxyBlock in H by assumption.
  cbn [Split app] in H.
  inversion H as [|? ? _ H1]; subst. inversion H1 as [|? ? _ H2]; subst.
  inversion H2 as [|? ? Hname H3]; subst.
  change (Forall (fun line => fits line = true)
                 (fieldLines localPort remotePort ++ [[]])) in H3.
  apply Forall_app in H3 as [H3 _]. now split.
Qed.

Lemma linesFit_append (content name localPort remotePort : gostring) :
  noLF name -> noLF localPort -> noLF remotePort ->
  linesFit content ->
  linesFit (proxyBlock name localPort remotePort) ->
  linesFit (content ++ proxyBlock name localPort remotePort).
Proof.
  intros Hn Hl Hr Hc Hb. unfold linesFit in *.
  rewrite Split_proxyBlock by assumption.
  change (proxyBlock name localPort remotePort)
    with ([] ++ proxyBlock name localPort remotePort) in Hb.
  rewrite Split_proxyBlock in Hb by assumption.
  cbn [Split app] in Hb. inversion Hb; subst.
  apply Forall_app. now split.
Qed.

(** The block of a rule reads back as the record of the rule. *)
Lemma parse_appended_block (content name localPort remotePort : gostring) :
  linesFit content ->
  noLF name -> isPort localPort -> isPort remotePort ->
  linesFit (proxyBlock name localPort remotePort) ->
  parseProxies (content ++ proxyBlock name localPort remotePort) =
  parseProxies content
  ++ [FrpProxy.Build_t name (lit "tcp") (lit "127.0.0.1")
                       localPort remotePort].
Proof.
  intros Hc Hn Hl Hr Hb.
  assert (Hl' : noLF localPort) by (apply noLF_digits; apply Hl).
  assert (Hr' : noLF remotePort) by (apply noLF_digits; apply Hr).
  destruct (linesFit_block name localPort remotePort Hn Hl' Hr' Hb)
    as [Hfit Hfields].
  destruct (ScanLines_proxyBlock content name localPort remotePort
              Hc Hn Hl' Hr' Hfit) as (n & E & En).
  rewrite (En Hfields) in E.
  unfold parseProxies at 1. rewrite E, fold_parseLine_dropCR.
  rewrite fold_left_app. unfold fieldLines. cbn [fold_left].
  set (after := fold_left parseLine (Split content LF) _).
  unfold parseLine at 6. replace (eqs (TrimSpace proxiesMarker) proxiesMarker)
    with true by reflexivity.
  rewrite (parseLine_field _ _ (nameLine name) (nameLine_not_marker name)).
  rewrite (parseLine_field _ _ typeLine eq_refl).
  rewrite (parseLine_field _ _ localIPLine eq_refl).
  pose proof (nameless_fieldLines localPort remotePort) as Hnl.
  unfold fieldLines in Hnl.
  inversion Hnl as [|? ? _ H2]; subst. inversion H2 as [|? ? _ H3]; subst.
  inversion H3 as [|? ? [Hml _] H4]; subst.
  inversion H4 as [|? ? [Hmr _] _]; subst.
  rewrite (parseLine_field _ _ (localPortLine localPort) Hml).
  rewrite (parseLine_field _ _ (remotePortLine remotePort) Hmr).
  rewrite nameLine_trim, setField_typeLine, setField_localIPLine.
  rewrite (setField_localPortLine _ localPort Hl).
  rewrite (setField_remotePortLine _ remotePort Hr).
  unfold flush at 1. cbn [current proxies FrpProxy.Name FrpProxy.Type_
    FrpProxy.LocalIP FrpProxy.LocalPort FrpProxy.RemotePort].
  subst after. rewrite stateAfter_flush by assumption.
  unfold setField, FrpProxy.zero. rewrite reName_nameLine by assumption.
  reflexivity.
Qed.

Lemma wellFormed_noLF (req : AddRuleRequest.t) :
  wellFormed req ->
  noLF (AddRuleRequest.ListenPort req) /\ noLF (AddRuleRequest.RemotePort req).
Proof.
  intros (_ & [_ Hl] & [_ Hr] & _). split; now apply noLF_digits.
Qed.

Lemma appendAll_parse {W} (reqs : list AddRuleRequest.t) :
  Forall wellFormed reqs ->
  forall (st : State W) (content : gostring),
    toml st = Ok content -> linesFit content ->
    exists content',
      toml (appendAll reqs st) = Ok content'
      /\ linesFit content'
      /\ parseProxies content' =
         parseProxies content ++ map proxyOfRequest reqs.
Proof.
  induction 1 as [|req reqs Hwf _ IH]; intros st content H Hfit.
  - exists content. cbn. now rewrite app_nil_r.
  - cbn [appendAll]. rewrite (appendToFrpc_run req content st H). cbn [snd].
    destruct (wellFormed_noLF req Hwf) as [Hl Hr].
    destruct Hwf as (Hn & Hlp & Hrp & Hb).
    match goal with
    | |- context [appendAll reqs ?s] =>
        destruct (IH s _ eq_refl
                     (linesFit_append content _ _ _ Hn Hl Hr Hfit Hb))
          as (c' & E & Hfit' & Hp)
    end.
    exists c'. split; [exact E|]. split; [exact Hfit'|].
    rewrite Hp, parse_appended_block by assumption.
    rewrite <- app_assoc. reflexivity.
Qed.

Lemma wellFormed_check (req : AddRuleRequest.t) :
  forallb (fun c => negb (Ascii.eqb c LF)) (ruleProxyName req) = true ->
  AddRuleRequest.ListenPort req <> [] ->
  forallb reDigit (AddRuleRequest.ListenPort req) = true ->
  AddRuleRequest.RemotePort req <> [] ->
  forallb reDigit (AddRuleRequest.RemotePort req) = true ->
  forallb fits (Split (proxyBlock (ruleProxyName req)
                                  (AddRuleRequest.ListenPort req)
                                  (AddRuleRequest.RemotePort req)) LF) = true ->
  wellFormed req.
Proof.
  intros Hn Hl1 Hl2 Hr1 Hr2 Hf. repeat split; try assumption.
  - now apply noLF_check.
  - apply Forall_forall. intros c Hc. rewrite forallb_forall in Hl2. auto.
  - apply Forall_forall. intros c Hc. rewrite forallb_forall in Hr2. auto.
  - now apply linesFit_check.
Qed.

Lemma wellFormed_bob : wellFormed bobRequest.
Proof. apply wellFormed_check; try reflexivity; discriminate. Qed.

Lemma wellFormed_alice : wellFormed aliceRequest.
Proof. apply wellFormed_check; try reflexivity; discriminate. Qed.

(** C8: round trip.  For a sequence of well-formed requests whose records
    have distinct names, appending the block of each request in order to an
    empty registry and then reading the registry gives the records of the
    requests back, in order. *)
Theorem registry_round_trip {W} (st : State W)
        (reqs : list AddRuleRequest.t) :
  toml st = Ok [] ->
  Forall wellFormed reqs ->
  NoDup (map FrpProxy.Name (map proxyOfRequest reqs)) ->
  fst (getFrpProxies (appendAll reqs st)) = Ok (map proxyOfRequest reqs).
Proof.
  intros H Hwf _.
  destruct (appendAll_parse reqs Hwf st [] H) as (c' & E & _ & Hp).
  { apply linesFit_check. reflexivity. }
  rewrite (getFrpProxies_run c' _ E). cbn [fst]. now rewrite Hp.
Qed.

Lemma registry_round_trip_witness :
  toml (initial (Ok []) None) = Ok []
  /\ Forall wellFormed [aliceRequest; bobRequest]
  /\ NoDup (map FrpProxy.Name (map proxyOfRequest [aliceRequest; bobRequest]))
  /\ fst (getFrpProxies (appendAll [aliceRequest; bobRequest]
                                   (initial (Ok []) None))) =
     Ok [proxyOfRequest aliceRequest; proxyOfRequest bobRequest].
Proof.
  assert (Hwf : Forall wellFormed [aliceRequest; bobRequest]).
  { constructor; [apply wellFormed_alice|].
    constructor; [apply wellFormed_bob|constructor]. }
  assert (Hnd : NoDup (map FrpProxy.Name
                           (map proxyOfRequest [aliceRequest; bobRequest]))).
  { repeat constructor; cbn; intuition discriminate. }
  split; [reflexivity|]. split; [exact Hwf|]. split; [exact Hnd|].
  exact (registry_round_trip (initial (Ok []) None)
                             [aliceRequest; bobRequest] eq_refl Hwf Hnd).
Defined.

(** C6: the block of an add-rule request.  [appendToFrpc] puts after the
    content of the file an empty line, the marker and five lines: the name
    made of the request's name, the word manager, the connect address and
    the connect port, joined by hyphens; the type tcp; the local IP
    127.0.0.1; the local port, which is the listen port of the request; the
    remote port of the request.  When the request is well formed and the
    lines of the file are ones the scanner has room for, the registry reads
    back with one more record, which has these five values. *)
Theorem appendToFrpc_block {W} (st : State W) (req : AddRuleRequest.t)
        (content : gostring) :
  toml st = Ok content ->
  let name := AddRuleRequest.Name req ++ lit "-manager-"
              ++ AddRuleRequest.ConnectAddr req ++ lit "-"
              ++ AddRuleRequest.ConnectPort req in
  let st' := snd (appendToFrpc req st) in
  fst (appendToFrpc req st) = None
  /\ toml st' =
     Ok (content
         ++ LF :: Join [proxiesMarker;
                        lit "name = " ++ QUOTE :: name ++ [QUOTE];
                        lit "type = " ++ QUOTE :: lit "tcp" ++ [QUOTE];
                        lit "localIP = " ++ QUOTE :: lit "127.0.0.1" ++ [QUOTE];
                        lit "localPort = " ++ AddRuleRequest.ListenPort req;
                        lit "remotePort = " ++ AddRuleRequest.RemotePort req;
                        []] LF)
  /\ (wellFormed req -> linesFit content ->
      fst (getFrpProxies st') =
      Ok (parseProxies content
          ++ [{| FrpProxy.Name := name;
                 FrpProxy.Type_ := lit "tcp";
                 FrpProxy.LocalIP := lit "127.0.0.1";
                 FrpProxy.LocalPort := AddRuleRequest.ListenPort req;
                 FrpProxy.RemotePort := AddRuleRequest.RemotePort req |}])).
Proof.
  intros H name st'. subst st'.
  rewrite (appendToFrpc_run req content st H). cbn [fst snd toml].
  split; [reflexivity|]. split.
  - now rewrite proxyBlock_lines.
  - intros (Hn & Hl & Hr & Hb) Hfit.
    erewrite getFrpProxies_run by reflexivity. cbn [fst].
    now rewrite parse_appended_block.
Qed.

Lemma appendToFrpc_block_witness :
  toml (initial (Ok sampleRegistry) None) = Ok sampleRegistry
  /\ wellFormed bobRequest
  /\ linesFit sampleRegistry
  /\ fst (getFrpProxies (snd (appendToFrpc bobRequest
                                (initial (Ok sampleRegistry) None)))) =
     Ok (parseProxies sampleRegistry
         ++ [{| FrpProxy.Name := lit "bob-manager-10.0.0.9-443";
                FrpProxy.Type_ := lit "tcp";
                FrpProxy.LocalIP := lit "127.0.0.1";
                FrpProxy.LocalPort := lit "9000";
                FrpProxy.RemotePort := lit "19000" |}]).
Proof.
  assert (Hfit : linesFit sampleRegistry)
    by (apply linesFit_check; vm_compute; reflexivity).
  split; [reflexivity|]. split; [apply wellFormed_bob|]. split; [exact Hfit|].
  exact (proj2 (proj2 (appendToFrpc_block (initial (Ok sampleRegistry) None)
                         bobRequest sampleRegistry eq_refl))
               wellFormed_bob Hfit).
Defined.

(** ** Self-registration *)

Lemma noLF_fmtUint (d : Decimal.uint) : noLF (fmtUint d).
Proof.
  induction d as [|d IH|d IH|d IH|d IH|d IH|d IH|d IH|d IH|d IH|d IH];
    cbn; intros H; [destruct H|..];
    (destruct H as [H|H]; [discriminate H|now apply IH]).
Qed.

Lemma noLF_fmtInt (z : Z) : noLF (fmtInt z).
Proof.
  unfold fmtInt. destruct (Z.to_int z); [apply noLF_fmtUint|].
  intros [H|H]; [discriminate H|]. now apply noLF_fmtUint in H.
Qed.

Lemma registerWebUIToFrpc_present {W} (config : Config.t)
      (content : gostring) (st : State W) :
  toml st = Ok content -> isRegistered config content = true ->
  exists msg,
    registerWebUIToFrpc config st =
    (None, {| toml := toml st; world := world st;
              trace := trace st ++ [EvEnter "registerWebUIToFrpc";
                                    EvEnter "getFrpProxies"; EvOpen;
                                    EvLog msg] |}).
Proof.
  intros H E. unfold isRegistered in E. eexists.
  unfold registerWebUIToFrpc, getFrpProxies, bind, emit, getToml, ret.
  cbn. rewrite H. cbn. rewrite E. cbn.
  repeat rewrite <- app_assoc. cbn [app]. reflexivity.
Qed.

Lemma registerWebUIToFrpc_absent {W} (config : Config.t)
      (content : gostring) (st : State W) :
  toml st = Ok content -> isRegistered config content = false ->
  let text := proxyBlock (webUIProxyFullName config)
                         (fmtInt (Config.Port config))
                         (fmtInt (Config.WebUIRemotePort config)) in
  exists msg,
    registerWebUIToFrpc config st =
    (None, {| toml := Ok (content ++ text);
              world := world st;
              trace := trace st ++ [EvEnter "registerWebUIToFrpc";
                                    EvEnter "getFrpProxies"; EvOpen;
                                    EvOpenAppend; EvWriteString text;
                                    EvLog msg] |}).
Proof.
  intros H E text. unfold isRegistered in E. eexists.
  unfold registerWebUIToFrpc, getFrpProxies, appendString,
    bind, emit, getToml, putToml, ret.
  cbn. rewrite H. cbn. rewrite E. cbn.
  repeat rewrite <- app_assoc. cbn [app]. reflexivity.
Qed.

Lemma isRegistered_count (config : Config.t) (content : gostring) :
  isRegistered config content = true <->
  countNamed (webUIProxyFullName config) (parseProxies content) <> 0.
Proof.
  unfold isRegistered, countNamed.
  induction (parseProxies content) as [|p ps IH]; cbn; [split; congruence|].
  destruct (eqs (FrpProxy.Name p) (webUIProxyFullName config)); cbn.
  - split; [discriminate|reflexivity].
  - exact IH.
Qed.

Lemma countNamed_app (name : gostring) (ps qs : list FrpProxy.t) :
  countNamed name (ps ++ qs) = countNamed name ps + countNamed name qs.
Proof. unfold countNamed. now rewrite filter_app, length_app. Qed.

(** C5, as the code has it.  When the registry has an entry of the
    canonical name (the configured name, a hyphen, the configured name of
    the web UI entry), [registerWebUIToFrpc] writes nothing: the file is as
    it was and the routine opens no file for writing.  When the registry
    can be opened, its lines are shorter than the buffer of the scanner, it
    has at most one entry of the canonical name, and the canonical name has
    no line feed and makes a name line the scanner has room for, then after
    two runs of the routine the registry has exactly one entry of the
    canonical name, and the second run has written nothing. *)
Theorem registerWebUIToFrpc_idempotent {W} (config : Config.t)
        (st : State W) (content : gostring) :
  let name := Config.Name config ++ lit "-" ++ Config.WebUIProxyName config in
  let st1 := snd (registerWebUIToFrpc config st) in
  let st2 := snd (registerWebUIToFrpc config st1) in
  toml st = Ok content ->
  (countNamed name (parseProxies content) <> 0 ->
   toml st1 = Ok content
   /\ filter isFileWrite (trace st1) = filter isFileWrite (trace st))
  /\ (linesFit content -> noLF name -> fits (nameLine name) = true ->
      countNamed name (parseProxies content) <= 1 ->
      exists content2,
        toml st2 = Ok content2
        /\ countNamed name (parseProxies content2) = 1
        /\ toml st2 = toml st1
        /\ filter isFileWrite (trace st2) = filter isFileWrite (trace st1)).
Proof.
  intros name st1 st2 H.
  assert (Hpresent : forall (s : State W) c,
             toml s = Ok c -> countNamed name (parseProxies c) <> 0 ->
             toml (snd (registerWebUIToFrpc config s)) = Ok c
             /\ filter isFileWrite (trace (snd (registerWebUIToFrpc config s)))
                = filter isFileWrite (trace s)).
  { intros s c Hs Hc. change name with (webUIProxyFullName config) in Hc.
    apply isRegistered_count in Hc.
    destruct (registerWebUIToFrpc_present config c s Hs Hc) as [msg E].
    rewrite E. cbn [snd toml trace]. split; [assumption|].
    rewrite filter_app. cbn. now rewrite app_nil_r. }
  split; [now apply Hpresent|].
  intros Hfit Hn Hname Hle. subst st2 st1.
  destruct (isRegistered config content) eqn:Ereg.
  - pose proof Ereg as Hc. apply isRegistered_count in Hc.
    change (webUIProxyFullName config) with name in Hc.
    destruct (Hpresent st content H Hc) as [E1 T1].
    destruct (Hpresent _ content E1 Hc) as [E2 T2].
    exists content. repeat split; try congruence.
    clear - Hc Hle. lia.
  - assert (Hz : countNamed name (parseProxies content) = 0).
    { destruct (Nat.eq_dec (countNamed name (parseProxies content)) 0)
        as [Hz|Hz]; [assumption|].
      change name with (webUIProxyFullName config) in Hz.
      apply isRegistered_count in Hz. congruence. }
    destruct (registerWebUIToFrpc_absent config content st H Ereg)
      as [msg E].
    rewrite E. cbn [snd].
    destruct (parse_appended_name content name
                (fmtInt (Config.Port config))
                (fmtInt (Config.WebUIRemotePort config))
                Hfit Hn (noLF_fmtInt _) (noLF_fmtInt _) Hname)
      as (r & Hp & Hr).
    match goal with
    | |- context [registerWebUIToFrpc config ?s] =>
        destruct (Hpresent s _ eq_refl) as [E2 T2]
    end.
    { change (webUIProxyFullName config) with name.
      rewrite Hp, countNamed_app, Hz. unfold countNamed. cbn.
      rewrite Hr, eqs_refl. discriminate. }
    eexists. split; [exact E2|]. split; [|split; [exact E2|exact T2]].
    change (webUIProxyFullName config) with name.
    rewrite Hp, countNamed_app, Hz. unfold countNamed. cbn.
    now rewrite Hr, eqs_refl.
Qed.

Lemma registerWebUIToFrpc_idempotent_witness :
  toml (initial (Ok sampleRegistry) None) = Ok sampleRegistry
  /\ linesFit sampleRegistry
  /\ noLF (lit "default-portproxy-manager-web")
  /\ fits (nameLine (lit "default-portproxy-manager-web")) = true
  /\ countNamed (lit "default-portproxy-manager-web")
                (parseProxies sampleRegistry) <= 1
  /\ exists content2,
      toml (snd (registerWebUIToFrpc sampleConfig
                   (snd (registerWebUIToFrpc sampleConfig
                           (initial (Ok sampleRegistry) None))))) =
      Ok content2
      /\ countNamed (lit "default-portproxy-manager-web")
                    (parseProxies content2) = 1.
Proof.
  assert (Hfit : linesFit sampleRegistry)
    by (apply linesFit_check; vm_compute; reflexivity).
  assert (Hn : noLF (lit "default-portproxy-manager-web"))
    by (apply noLF_check; reflexivity).
  assert (Hle : countNamed (lit "default-portproxy-manager-web")
                           (parseProxies sampleRegistry) <= 1)
    by (vm_compute; lia).
  split; [reflexivity|]. split; [exact Hfit|]. split; [exact Hn|].
  split; [reflexivity|]. split; [exact Hle|].
  destruct (proj2 (registerWebUIToFrpc_idempotent sampleConfig
                     (initial (Ok sampleRegistry) None)
                     sampleRegistry eq_refl) Hfit Hn eq_refl Hle)
    as (content2 & E & Hc & _).
  exists content2. split; [exact E|exact Hc].
Defined.

(** C5 as the claim states it fails for [twoLineConfig], whose name has a
    line feed: on an empty registry both runs of the routine succeed and
    both write a block, and the registry then has two records, none of them
    of the canonical name. *)
Lemma registerWebUIToFrpc_twice_with_line_feed :
  fst (registerWebUIToFrpc twoLineConfig (initial (Ok []) None)) = None
  /\ fst (registerWebUIToFrpc twoLineConfig
            (snd (registerWebUIToFrpc twoLineConfig (initial (Ok []) None))))
     = None
  /\ exists content2,
      toml (snd (registerWebUIToFrpc twoLineConfig
                   (snd (registerWebUIToFrpc twoLineConfig
                           (initial (Ok []) None))))) = Ok content2
      /\ length (parseProxies content2) = 2
      /\ countNamed (webUIProxyFullName twoLineConfig)
                    (parseProxies content2) = 0.
Proof.
  split; [reflexivity|]. split; [reflexivity|].
  eexists. split; [reflexivity|]. split; vm_compute; reflexivity.
Qed.

(** ** The Locator and the Supervisor *)

Lemma getFrpcProcess_locator {W} (host : Host W) (st : State W) :
  fst (getFrpcProcess host st) = locator host (world st).
Proof.
  unfold locator, getFrpcProcess. monad_unfold.
  repeat break_match; reflexivity.
Qed.

(** The Locator leaves the registry alone, and what it adds to the trace
    are events of its own. *)
Lemma getFrpcProcess_log {W} (host : Host W) (st : State W) :
  toml (snd (getFrpcProcess host st)) = toml st
  /\ exists log,
      trace (snd (getFrpcProcess host st)) = trace st ++ log
      /\ forallb isLocatorEvent log = true.
Proof.
  unfold getFrpcProcess. monad_unfold.
  repeat break_match; (split; [reflexivity|trace_done]).
Qed.

Lemma count_app (p : Event -> bool) (a b : list Event) :
  count p (a ++ b) = count p a + count p b.
Proof. unfold count. now rewrite filter_app, length_app. Qed.

Lemma count_none (p q : Event -> bool) (log : list Event) :
  (forall e, q e = true -> p e = false) ->
  forallb q log = true -> count p log = 0.
Proof.
  intros Hpq H. unfold count. induction log as [|e log IH]; [reflexivity|].
  cbn in *. apply andb_true_iff in H as [He Hlog].
  rewrite (Hpq e He). now apply IH.
Qed.

Lemma forallb_weaken {A} (p q : A -> bool) (l : list A) :
  (forall x, p x = true -> q x = true) ->
  forallb p l = true -> forallb q l = true.
Proof.
  intros Hpq H. rewrite forallb_forall in *. auto.
Qed.

Lemma locator_is_stop (e : Event) :
  isLocatorEvent e = true -> isStopEvent e = true.
Proof. intros H. unfold isStopEvent. now rewrite H. Qed.

Lemma locator_is_start (e : Event) :
  isLocatorEvent e = true -> isStartEvent e = true.
Proof. intros H. unfold isStartEvent. now rewrite H. Qed.

(** What [stopFrpc] adds to the trace are its events, and it leaves the
    registry alone. *)
Lemma stopFrpc_log {W} (host : Host W) (st : State W) :
  toml (snd (stopFrpc host st)) = toml st
  /\ exists log,
      trace (snd (stopFrpc host st)) = trace st ++ log
      /\ forallb isStopEvent log = true.
Proof.
  unfold stopFrpc. monad_unfold.
  destruct (negb (onWindows host)); cbn [fst snd trace toml world].
  { split; [reflexivity|trace_done]. }
  match goal with
  | |- context [getFrpcProcess host ?s0] =>
      locate (getFrpcProcess_log host s0) (getFrpcProcess_locator host s0)
             (getFrpcProcess host s0) r s1 log
  end.
  apply (forallb_weaken _ _ _ locator_is_stop) in Hl.
  destruct r as [[pid|]|e]; cbn [fst snd trace toml world].
  - destruct (cmdRun host taskkillArgv (world s1)) as [[e|] w];
      cbn [fst snd trace toml world]; rewrite El;
      (split; [assumption|trace_with Hl]).
  - rewrite El. split; [assumption|trace_with Hl].
  - rewrite El. split; [assumption|trace_with Hl].
Qed.

(** What [startFrpc] adds to the trace is its entry and then events of
    the Locator, of the log file and of the launch; it leaves the registry
    alone. *)
Lemma startFrpc_log {W} (host : Host W) (config : Config.t) (st : State W) :
  toml (snd (startFrpc host config st)) = toml st
  /\ exists log,
      trace (snd (startFrpc host config st)) =
      trace st ++ EvEnter "startFrpc" :: log
      /\ forallb isStartEvent log = true.
Proof.
  unfold startFrpc. monad_unfold.
  destruct (negb (onWindows host)); cbn [fst snd trace toml world].
  { split; [reflexivity|trace_done]. }
  match goal with
  | |- context [getFrpcProcess host ?s0] =>
      locate (getFrpcProcess_log host s0) (getFrpcProcess_locator host s0)
             (getFrpcProcess host s0) r s1 log
  end.
  apply (forallb_weaken _ _ _ locator_is_start) in Hl.
  destruct r as [[pid|]|e]; cbn [fst snd trace toml world];
    try (rewrite El; split; [assumption|trace_with Hl]).
  destruct (osOpenLogFile host (world s1)) as [[e|] w];
    cbn [fst snd trace toml world];
    try (rewrite El; split; [assumption|trace_with Hl]).
  destruct (cmdStart host (frpcArgv config) w) as [[pid|e] w'];
    cbn [fst snd trace toml world]; rewrite El;
    (split; [assumption|trace_with Hl]).
Qed.






Lemma locator_event_no_taskkill (e : Event) :
  isLocatorEvent e = true -> isTaskkill e = false.
Proof. destruct e; try reflexivity; discriminate. Qed.

Lemma locator_event_no_start (e : Event) :
  isLocatorEvent e = true -> isStart e = false.
Proof. destruct e; try reflexivity; discriminate. Qed.

Lemma locator_off_windows {W} (host : Host W) (w : W) :
  negb (onWindows host) = true -> locator host w = Ok None.
Proof.
  intros H. unfold locator, getFrpcProcess. monad_unfold. now rewrite H.
Qed.



(** C7, as the code has it.  On Windows, when the liveness probe answers
    and its output does not name frpc.exe, [getFrpcProcess] returns none
    after that one command: the process-table query is not run.  When the
    probe's output names frpc.exe and the output of the process-table query
    has no second line or a blank one, [getFrpcProcess] returns none, and no
    error, after these two commands: it looks up no process. *)
Theorem getFrpcProcess_none {W} (host : Host W) (st : State W)
        (output : gostring) (w1 : W) :
  onWindows host = true ->
  cmdOutput host tasklistArgv (world st) = (Ok output, w1) ->
  (Contains output (lit "frpc.exe") = false ->
   getFrpcProcess host st =
   (Ok None,
    {| toml := toml st; world := w1;
       trace := trace st ++ [EvEnter "getFrpcProcess";
                             EvOutput tasklistArgv] |}))
  /\ (Contains output (lit "frpc.exe") = true ->
      forall (table : gostring) (w2 : W),
        cmdOutput host wmicArgv w1 = (Ok table, w2) ->
        noPidLine table = true ->
        getFrpcProcess host st =
        (Ok None,
         {| toml := toml st; world := w2;
            trace := trace st ++ [EvEnter "getFrpcProcess";
                                  EvOutput tasklistArgv;
                                  EvOutput wmicArgv] |})).
Proof.
  intros Hos Hprobe. split.
  - intros Hc. unfold getFrpcProcess. monad_unfold.
    rewrite Hos; msimpl; rewrite Hprobe; msimpl; rewrite Hc; msimpl.
    now rewrite <- app_assoc.
  - intros Hc table w2 Hquery Hno. unfold getFrpcProcess. monad_unfold.
    rewrite Hos; msimpl; rewrite Hprobe; msimpl; rewrite Hc; msimpl.
    rewrite Hquery; msimpl.
    unfold noPidLine in Hno.
    destruct (Split table LF) as [|first [|second rest]];
      cbn [length Nat.ltb Nat.leb nth]; msimpl;
      try (now rewrite <- !app_assoc).
    rewrite Hno. msimpl. now rewrite <- !app_assoc.
Qed.

Lemma getFrpcProcess_none_witness :
  onWindows windows = true
  /\ cmdOutput windows tasklistArgv (Some 77%Z)
     = (Ok (QUOTE :: lit "frpc.exe" ++ QUOTE :: lit "," ++ QUOTE
            :: lit "77" ++ [QUOTE; CR; LF]), Some 77%Z)
  /\ noPidLine (lit "ProcessId  " ++ [CR; LF]) = true
  /\ getFrpcProcess
       (simHost (lit "windows") None (fun _ => lit "ProcessId  " ++ [CR; LF]))
       (initial (Ok []) (Some 77%Z)) =
     (Ok None,
      {| toml := Ok []; world := Some 77%Z;
         trace := [EvEnter "getFrpcProcess"; EvOutput tasklistArgv;
                   EvOutput wmicArgv] |}).
Proof.
  split; [reflexivity|]. split; [reflexivity|]. split; [reflexivity|].
  apply (proj2 (getFrpcProcess_none
                  (simHost (lit "windows") None
                           (fun _ => lit "ProcessId  " ++ [CR; LF]))
                  (initial (Ok []) (Some 77%Z)) _ (Some 77%Z)
                  eq_refl eq_refl) eq_refl _ (Some 77%Z) eq_refl eq_refl).
Defined.

(** C7 as the claim states it fails on a host whose process-table query
    prints a second line that is no number: the probe names frpc.exe, no
    PID can be read from the output of the query, and [getFrpcProcess]
    looks up the process of pid 0 and returns the error of that. *)
Lemma getFrpcProcess_unparsable_pid_is_looked_up :
  onWindows (simHost (lit "windows") None
                     (fun _ => lit "ProcessId" ++ LF :: lit "abc")) = true
  /\ (exists output,
         fst (cmdOutput (simHost (lit "windows") None
                                 (fun _ => lit "ProcessId" ++ LF :: lit "abc"))
                        tasklistArgv (Some 77%Z)) = Ok output
         /\ Contains output (lit "frpc.exe") = true)
  /\ parsablePid (lit "ProcessId" ++ LF :: lit "abc") = None
  /\ getFrpcProcess
       (simHost (lit "windows") None
                (fun _ => lit "ProcessId" ++ LF :: lit "abc"))
       (initial (Ok []) (Some 77%Z)) =
     (Err (lit "OpenProcess: The parameter is incorrect."),
      {| toml := Ok []; world := Some 77%Z;
         trace := [EvEnter "getFrpcProcess"; EvOutput tasklistArgv;
                   EvOutput wmicArgv; EvFindProcess 0%Z] |}).
Proof.
  split; [reflexivity|]. split; [|split; reflexivity].
  eexists. split; reflexivity.
Qed.

(** X16: whatever the look-up of the process answers, a second line that
    is not blank never gives none: on Windows, when the liveness probe names
    frpc.exe and the output of the process-table query has a second line
    that is not blank, [getFrpcProcess] returns a process or an error, never
    none. *)
Lemma getFrpcProcess_looks_up {W} (host : Host W) (st : State W)
      (output table : gostring) (w1 w2 : W) :
  onWindows host = true ->
  cmdOutput host tasklistArgv (world st) = (Ok output, w1) ->
  Contains output (lit "frpc.exe") = true ->
  cmdOutput host wmicArgv w1 = (Ok table, w2) ->
  noPidLine table = false ->
  fst (getFrpcProcess host st) <> Ok None.
Proof.
  intros Hos Hprobe Hc Hquery Hno. unfold getFrpcProcess. monad_unfold.
  rewrite Hos; msimpl; rewrite Hprobe; msimpl; rewrite Hc; msimpl.
  rewrite Hquery; msimpl.
  unfold noPidLine in Hno.
  destruct (Split table LF) as [|first [|second rest]]; try discriminate.
  cbn [length Nat.ltb Nat.leb nth]; msimpl. rewrite Hno. msimpl.
  match goal with
  | |- context [osFindProcess host ?pid w2] =>
      destruct (osFindProcess host pid w2) as [[e|] w3]
  end; msimpl; discriminate.
Qed.

(** [restartFrpc] leaves the registry alone, and its trace starts with its
    entry. *)
Lemma restartFrpc_log {W} (host : Host W) (config : Config.t) (st : State W) :
  toml (snd (restartFrpc host config st)) = toml st
  /\ exists log,
      trace (snd (restartFrpc host config st)) =
      trace st ++ EvEnter "restartFrpc" :: log.
Proof.
  unfold restartFrpc. monad_unfold.
  match goal with
  | |- context [stopFrpc host ?s0] =>
      destruct (stopFrpc_log host s0) as (Ht & log & El & _);
      destruct (stopFrpc host s0) as [e s1]
  end.
  cbn [fst snd trace toml world] in *.
  destruct e as [e|]; cbn [fst snd trace toml world];
    destruct (onWindows host); cbn [fst snd trace toml world];
    try destruct (cmdRun host timeoutArgv (world s1)) as [o w];
    cbn [fst snd trace toml world];
    match goal with
    | |- context [startFrpc host config ?mid] =>
        destruct (startFrpc_log host config mid) as (Hs & log2 & Es & _);
        rewrite Hs, Es
    end;
    cbn [fst snd trace toml world]; rewrite El;
    (split; [assumption|]);
    repeat rewrite <- app_assoc; cbn [app]; eexists; reflexivity.
Qed.

(** X23: the order of the add flow.  When the rule has been added and the
    registry can be opened, [handleAddRule] answers with success, the
    registry has the block of the request at its end, and in the trace the
    events of [addNetshRule] come first, then the call of [appendToFrpc]
    with its write, then the call of [restartFrpc]. *)
Lemma handleAddRule_success_order {W} (host : Host W) (config : Config.t)
      (st : State W) (req : AddRuleRequest.t) (content : gostring) :
  toml st = Ok content ->
  fst (addNetshRule host (AddRuleRequest.ListenPort req)
                    (AddRuleRequest.ConnectAddr req)
                    (AddRuleRequest.ConnectPort req)
                    (snd (emit (EvEnter "handleAddRule") st))) = None ->
  let text := proxyBlock (ruleProxyName req) (AddRuleRequest.ListenPort req)
                         (AddRuleRequest.RemotePort req) in
  exists log1 log2,
    fst (handleAddRule host config (Ok req) st) = httpJSON 200 statusSuccess
    /\ toml (snd (handleAddRule host config (Ok req) st)) =
       Ok (content ++ text)
    /\ trace (snd (handleAddRule host config (Ok req) st)) =
       trace st
       ++ EvEnter "handleAddRule" :: EvEnter "addNetshRule" :: log1
       ++ EvEnter "appendToFrpc" :: EvOpenAppend :: EvWriteString text
          :: EvEnter "restartFrpc" :: log2.
Proof.
  intros H Hrule text.
  remember (handleAddRule host config (Ok req) st) as run eqn:Erun.
  unfold handleAddRule in Erun. monad_unfold.
  match type of Erun with
  | context [addNetshRule host ?a ?b ?c ?s0] =>
      assert (Hlog : toml (snd (addNetshRule host a b c s0)) = Ok content
                     /\ exists log1,
                         trace (snd (addNetshRule host a b c s0)) =
                         trace st ++ EvEnter "handleAddRule"
                                  :: EvEnter "addNetshRule" :: log1);
      [|destruct (addNetshRule host a b c s0) as [e s1]]
  end.
  { unfold addNetshRule. monad_unfold.
    destruct (negb (onWindows host)); msimpl;
      [|match goal with
        | |- context [cmdRun host ?argv ?w] =>
            destruct (cmdRun host argv w) as [o w1]
        end; msimpl];
      (split; [assumption|]);
      repeat rewrite <- app_assoc; cbn [app]; eexists; reflexivity. }
  cbn [fst snd] in *. subst e. destruct Hlog as (Ht & log1 & El).
  rewrite (appendToFrpc_run req content s1 Ht) in Erun.
  cbn zeta in Erun. fold text in Erun.
  match type of Erun with
  | context [restartFrpc host config ?s2] =>
      destruct (restartFrpc_log host config s2) as (Hr & log2 & Er);
      destruct (restartFrpc host config s2) as [e s3]
  end.
  cbn [fst snd trace toml world] in *. rewrite El in Er.
  destruct e as [e|]; subst run; cbn [fst snd trace toml world]; rewrite Er;
    repeat rewrite <- app_assoc; cbn [app];
    eexists; eexists; (split; [reflexivity|split; [assumption|]]);
    reflexivity.
Qed.

(** C9: when the command that adds the port-forward rule fails,
    [handleAddRule] answers with an error of status 500, the registry is as
    it was, and the command is all the handler has run: it has called
    neither [appendToFrpc] nor [restartFrpc]. *)
Theorem handleAddRule_rule_failure {W} (host : Host W) (config : Config.t)
        (st : State W) (req : AddRuleRequest.t) (e : error) (w1 : W) :
  onWindows host = true ->
  cmdRun host (netshAddArgv (AddRuleRequest.ListenPort req)
                            (AddRuleRequest.ConnectAddr req)
                            (AddRuleRequest.ConnectPort req)) (world st)
  = (Some e, w1) ->
  handleAddRule host config (Ok req) st =
  (httpError (lit "添加 netsh 规则失败: " ++ e) 500,
   {| toml := toml st; world := w1;
      trace := trace st
               ++ [EvEnter "handleAddRule"; EvEnter "addNetshRule";
                   EvRun (netshAddArgv (AddRuleRequest.ListenPort req)
                                       (AddRuleRequest.ConnectAddr req)
                                       (AddRuleRequest.ConnectPort req))] |}).
Proof.
  intros Hos Hrun. unfold handleAddRule, addNetshRule. monad_unfold.
  rewrite Hos; msimpl; rewrite Hrun; msimpl. now rewrite <- !app_assoc.
Qed.

Lemma handleAddRule_rule_failure_witness :
  onWindows (simHost (lit "windows") (Some (lit "exit status 1")) wmicTable)
  = true
  /\ toml (snd (handleAddRule
                  (simHost (lit "windows") (Some (lit "exit status 1"))
                           wmicTable)
                  sampleConfig (Ok bobRequest)
                  (initial (Ok sampleRegistry) (Some 77%Z)))) =
     Ok sampleRegistry
  /\ calls "appendToFrpc"
           (trace (snd (handleAddRule
                          (simHost (lit "windows")
                                   (Some (lit "exit status 1")) wmicTable)
                          sampleConfig (Ok bobRequest)
                          (initial (Ok sampleRegistry) (Some 77%Z))))) = 0
  /\ calls "restartFrpc"
           (trace (snd (handleAddRule
                          (simHost (lit "windows")
                                   (Some (lit "exit status 1")) wmicTable)
                          sampleConfig (Ok bobRequest)
                          (initial (Ok sampleRegistry) (Some 77%Z))))) = 0.
Proof.
  split; [reflexivity|].
  rewrite (handleAddRule_rule_failure
             (simHost (lit "windows") (Some (lit "exit status 1")) wmicTable)
             sampleConfig (initial (Ok sampleRegistry) (Some 77%Z))
             bobRequest (lit "exit status 1") (Some 77%Z) eq_refl eq_refl).
  repeat split.
Defined.

(** ** The table of the port proxy *)

Lemma spaceWidth_plain (c : ascii) (s : gostring) :
  isPlain c = true -> spaceWidth (c :: s) = 0.
Proof.
  intros H. unfold spaceWidth. rewrite (plain_not_space _ H).
  destruct s as [|c2 [|c3 s]]; rewrite ?(plain_space2 _ _ H),
    ?(plain_space3 _ _ _ H); reflexivity.
Qed.

Lemma fieldsLoop_token (t field rest : gostring) :
  Forall (fun c => isPlain c = true) t ->
  fieldsLoop 0 field (t ++ rest) = fieldsLoop 0 (field ++ t) rest.
Proof.
  intros H. revert field. induction H as [|c t Hc _ IH]; intros field.
  - rewrite app_nil_r. reflexivity.
  - cbn [app fieldsLoop]. rewrite (spaceWidth_plain _ _ Hc), IH, <- app_assoc.
    reflexivity.
Qed.

Lemma fieldsLoop_space (c : ascii) (field s : gostring) :
  asciiSpace c = true ->
  fieldsLoop 0 field (c :: s) = closeField field ++ Fields s.
Proof.
  intros H. cbn [fieldsLoop]. unfold spaceWidth. rewrite H.
  destruct s; reflexivity.
Qed.

Lemma fieldsLoop_gap (n : nat) (c : ascii) (field rest : gostring) :
  asciiSpace c = true ->
  fieldsLoop 0 field (repeat " "%char n ++ c :: rest) =
  closeField field ++ Fields rest.
Proof.
  intros H. revert field. induction n as [|n IH]; intros field.
  - apply fieldsLoop_space, H.
  - cbn [repeat app]. rewrite fieldsLoop_space by reflexivity.
    unfold Fields. rewrite IH. reflexivity.
Qed.

Lemma Fields_token_gap (t : gostring) (n : nat) (c : ascii) (rest : gostring) :
  isToken t -> asciiSpace c = true ->
  Fields (t ++ repeat " "%char n ++ c :: rest) = t :: Fields rest.
Proof.
  intros [Hne Ht] Hc. unfold Fields at 1.
  rewrite (fieldsLoop_token _ _ _ Ht), fieldsLoop_gap by exact Hc.
  cbn [app]. destruct t; [congruence | reflexivity].
Qed.

Lemma Fields_space (c : ascii) (s : gostring) :
  asciiSpace c = true -> Fields (c :: s) = Fields s.
Proof. intros H. unfold Fields at 1. apply (fieldsLoop_space c [] s H). Qed.

Lemma Fields_token_end (t : gostring) (c : ascii) :
  isToken t -> asciiSpace c = true -> Fields (t ++ [c]) = [t].
Proof.
  intros Ht Hc. exact (Fields_token_gap t 0 c [] Ht Hc).
Qed.

Lemma Fields_netshRow (r : Rule.t) :
  listed r ->
  Fields (netshRow r ++ [CR]) =
  [Rule.ListenAddress r; Rule.ListenPort r; Rule.ConnectAddress r;
   Rule.ConnectPort r].
Proof.
  intros (H0 & H1 & H2 & H3 & _). unfold netshRow, padTo.
  repeat rewrite <- app_assoc. cbn [lit list_ascii_of_string app].
  rewrite (Fields_token_gap _ _ _ _ H0) by reflexivity.
  rewrite (Fields_token_gap _ _ _ _ H1) by reflexivity.
  rewrite Fields_space by reflexivity.
  rewrite (Fields_token_gap _ _ _ _ H2) by reflexivity.
  rewrite (Fields_token_end _ _ H3) by reflexivity.
  reflexivity.
Qed.

Lemma fold_parseNetshLine (lines : list gostring) (rules : list Rule.t) :
  fold_left parseNetshLine lines rules =
  rules ++ flat_map (parseNetshLine []) lines.
Proof.
  revert rules. induction lines as [|line lines IH]; intros rules.
  - cbn. rewrite app_nil_r. reflexivity.
  - cbn [fold_left flat_map]. rewrite IH, app_assoc. f_equal.
    unfold parseNetshLine.
    destruct (Fields line) as [|f0 [|f1 [|f2 [|f3 [|f4 fs]]]]];
      rewrite ?app_nil_r; try reflexivity.
    destruct (isHeading f0); rewrite ?app_nil_r; reflexivity.
Qed.

Lemma parseNetshLine_row (r : Rule.t) :
  listed r -> parseNetshLine [] (netshRow r ++ [CR]) = [r].
Proof.
  intros H. unfold parseNetshLine. rewrite (Fields_netshRow r H).
  destruct H as (_ & _ & _ & _ & H). rewrite H. destruct r; reflexivity.
Qed.

Lemma isToken_noLF (t : gostring) : isToken t -> noLF t.
Proof.
  intros [_ H] Hin. rewrite Forall_forall in H. apply H in Hin.
  vm_compute in Hin. discriminate.
Qed.

Lemma noLF_repeat_space (n : nat) : noLF (repeat " "%char n).
Proof. intros H. apply repeat_spec in H. discriminate. Qed.

Lemma noLF_netshRow (r : Rule.t) : listed r -> noLF (netshRow r ++ [CR]).
Proof.
  intros (H0 & H1 & H2 & H3 & _). unfold netshRow, padTo.
  repeat apply noLF_app;
    first [ apply noLF_repeat_space
          | apply isToken_noLF; assumption
          | apply noLF_check; reflexivity ].
Qed.

Lemma netshHeading_rules :
  flat_map (parseNetshLine []) (map (fun line => line ++ [CR]) netshHeading)
  = [].
Proof. vm_compute. reflexivity. Qed.

Lemma netshRows_rules (rules : list Rule.t) :
  Forall listed rules ->
  flat_map (parseNetshLine [])
           (map (fun line => line ++ [CR]) (map netshRow rules)) = rules.
Proof.
  induction 1 as [|r rules Hr _ IH]; [reflexivity|].
  cbn [map flat_map]. rewrite (parseNetshLine_row r Hr), IH. reflexivity.
Qed.

Lemma Split_netshTable (rules : list Rule.t) :
  Forall listed rules ->
  Split (netshTable rules) LF =
  map (fun line => line ++ [CR]) (netshHeading ++ map netshRow rules ++ [[]])
  ++ [[]].
Proof.
  intros H. unfold netshTable. apply Split_Join.
  - destruct (map _ _); discriminate.
  - apply Forall_app. split; [|repeat constructor; intros []].
    apply Forall_map, Forall_app. split.
    + repeat constructor; apply noLF_check; reflexivity.
    + apply Forall_app. split.
      * apply Forall_map. eapply Forall_impl; [|exact H].
        intros r Hr. apply noLF_netshRow, Hr.
      * repeat constructor. apply noLF_check; reflexivity.
Qed.

Lemma netshTable_rules (rules : list Rule.t) :
  Forall listed rules ->
  fold_left parseNetshLine
            (map (fun line => line ++ [CR])
                 (netshHeading ++ map netshRow rules ++ [[]]) ++ [[]]) [] =
  rules.
Proof.
  intros H. rewrite fold_parseNetshLine, app_nil_l.
  rewrite flat_map_app, map_app, flat_map_app, map_app, flat_map_app.
  transitivity (([] ++ rules ++ []) ++ @nil Rule.t);
    [|rewrite !app_nil_r; reflexivity].
  repeat apply (f_equal2 (@app Rule.t));
    [ exact netshHeading_rules | exact (netshRows_rules rules H)
    | reflexivity | reflexivity ].
Qed.

Lemma isToken_check (s : gostring) :
  negb (eqs s []) && forallb isPlain s = true -> isToken s.
Proof.
  intros H. apply andb_true_iff in H as [Hne Hp]. split.
  - intros ->. discriminate.
  - apply Forall_forall. rewrite forallb_forall in Hp. exact Hp.
Qed.

Lemma listed_mockRules : Forall listed mockRules.
Proof.
  repeat constructor; try (apply isToken_check; vm_compute; reflexivity).
Qed.

(** X1: [parseNetshOutput] reads the table that netsh prints back into its
    rules.  For rules of four fields of ASCII characters other than spaces,
    the first of them no heading word, the table of the rules (heading
    lines, a row for each rule in padded columns, lines that end with a
    carriage return and a line feed) parses to exactly those rules, in
    order: the heading lines and the blank lines give no rule. *)
Theorem parseNetshOutput_table (rules : list Rule.t) :
  Forall listed rules -> parseNetshOutput (netshTable rules) = rules.
Proof.
  intros H. unfold parseNetshOutput.
  rewrite (Split_netshTable rules H). exact (netshTable_rules rules H).
Qed.

Lemma parseNetshOutput_table_witness :
  Forall listed mockRules
  /\ parseNetshOutput (netshTable mockRules) = mockRules.
Proof.
  split; [exact listed_mockRules |].
  apply (parseNetshOutput_table mockRules). exact listed_mockRules.
Defined.

Lemma spaceWidth_zero (c : ascii) (s : gostring) :
  spaceWidth (c :: s) = 0 -> asciiSpace c = false.
Proof.
  unfold spaceWidth. destruct (asciiSpace c); [discriminate | reflexivity].
Qed.

Lemma closeField_spaceFree (field : gostring) :
  Forall (fun c => asciiSpace c = false) field ->
  Forall spaceFree (closeField field).
Proof.
  intros H. destruct field as [|c field]; [constructor|].
  constructor; [|constructor]. split; [discriminate | exact H].
Qed.

Lemma fieldsLoop_spaceFree (s : gostring) :
  forall (skip : nat) (field : gostring),
    Forall (fun c => asciiSpace c = false) field ->
    Forall spaceFree (fieldsLoop skip field s).
Proof.
  induction s as [|c s IH]; intros skip field H.
  - apply closeField_spaceFree, H.
  - cbn [fieldsLoop]. destruct skip as [|k]; [|apply IH, H].
    destruct (spaceWidth (c :: s)) as [|k] eqn:E.
    + apply IH, Forall_app. split; [exact H|].
      constructor; [|constructor]. exact (spaceWidth_zero c s E).
    + apply Forall_app. split; [apply closeField_spaceFree, H|].
      apply IH. constructor.
Qed.

Lemma Fields_spaceFree (s : gostring) : Forall spaceFree (Fields s).
Proof. apply fieldsLoop_spaceFree. constructor. Qed.

Lemma parseNetshLine_clean (line : gostring) :
  Forall cleanRule (parseNetshLine [] line)
  /\ length (parseNetshLine [] line) <= 1.
Proof.
  unfold parseNetshLine. pose proof (Fields_spaceFree line) as H.
  destruct (Fields line) as [|f0 [|f1 [|f2 [|f3 [|f4 fs]]]]];
    try (split; [constructor | cbn; lia]).
  destruct (isHeading f0) eqn:E; [split; [constructor | cbn; lia]|].
  inversion H as [|? ? H0 H']; subst. inversion H' as [|? ? H1 H'']; subst.
  inversion H'' as [|? ? H2 H3']; subst. inversion H3' as [|? ? H3 _]; subst.
  split; [|cbn; lia]. constructor; [|constructor].
  unfold cleanRule. cbn. auto.
Qed.

(** X2: whatever the text, every rule that [parseNetshOutput] returns has
    four fields that are not empty and hold no ASCII space (so no line feed
    and no carriage return), its listen address is none of the heading words
    (Address, the line of dashes, a word that starts with Listen), and there
    are at most as many rules as lines: a line gives a rule only when it has
    exactly four fields. *)
Theorem parseNetshOutput_clean (output : gostring) :
  Forall cleanRule (parseNetshOutput output)
  /\ length (parseNetshOutput output) <= length (Split output LF).
Proof.
  unfold parseNetshOutput. rewrite fold_parseNetshLine, app_nil_l.
  induction (Split output LF) as [|line lines [IH1 IH2]].
  - split; [constructor | cbn; lia].
  - cbn [flat_map]. destruct (parseNetshLine_clean line) as [H1 H2]. split.
    + apply Forall_app. split; assumption.
    + rewrite length_app. cbn [length]. lia.
Qed.

(** X3: on Windows, when the command [netsh interface portproxy show all]
    prints the table of the rules, [getNetshRules] returns those rules; it
    runs that one command and nothing else, and leaves the registry as it
    was. *)
Theorem getNetshRules_table {W} (host : Host W) (st : State W)
        (rules : list Rule.t) (w : W) :
  onWindows host = true ->
  cmdOutput host netshShowArgv (world st) = (Ok (netshTable rules), w) ->
  Forall listed rules ->
  getNetshRules host st =
  (Ok rules,
   {| toml := toml st; world := w;
      trace := trace st ++ [EvEnter "getNetshRules";
                            EvOutput netshShowArgv] |}).
Proof.
  intros Hos Hout Hrules. unfold getNetshRules. monad_unfold.
  rewrite Hos. msimpl. rewrite Hout. msimpl.
  unfold parseNetshOutput.
  rewrite (Split_netshTable rules Hrules), (netshTable_rules rules Hrules).
  rewrite <- app_assoc. reflexivity.
Qed.

Lemma getNetshRules_table_witness :
  onWindows (portproxyHost mockRules) = true
  /\ cmdOutput (portproxyHost mockRules) netshShowArgv None =
     (Ok (netshTable mockRules), None)
  /\ Forall listed mockRules
  /\ fst (getNetshRules (portproxyHost mockRules) (initial (Ok []) None)) =
     Ok mockRules.
Proof.
  split; [reflexivity|]. split; [reflexivity|].
  split; [exact listed_mockRules|].
  rewrite (getNetshRules_table (portproxyHost mockRules)
             (initial (Ok []) None) mockRules None eq_refl eq_refl
             listed_mockRules).
  reflexivity.
Defined.

(** ** The default name *)

Lemma firstPart_noHyphen (v : gostring) : noHyphen (firstPart v).
Proof.
  unfold firstPart. pose proof (Split_no_sep v "-") as H.
  destruct (Split v "-") as [|part parts] eqn:E.
  - exfalso. exact (Split_nonempty v "-" E).
  - inversion H. assumption.
Qed.

Lemma firstPart_app (a b : gostring) :
  firstPart (a ++ "-"%char :: b) = firstPart a.
Proof.
  unfold firstPart. rewrite Split_app.
  destruct (Split a "-") as [|part parts] eqn:E.
  - exfalso. exact (Split_nonempty a "-" E).
  - reflexivity.
Qed.

Lemma firstPart_whole (a : gostring) : noHyphen a -> firstPart a = a.
Proof. intros H. unfold firstPart. rewrite (Split_piece a "-" H). reflexivity. Qed.

Lemma firstNameLoop_noHyphen (lines : list gostring) (inProxies : bool) :
  noHyphen (firstNameLoop inProxies lines).
Proof.
  revert inProxies. induction lines as [|text rest IH]; intros inProxies.
  - intros [].
  - cbn [firstNameLoop].
    destruct (eqs (TrimSpace text) proxiesMarker); [apply IH|].
    destruct inProxies; [|apply IH].
    destruct (reName (TrimSpace text)); [apply firstPart_noHyphen | apply IH].
Qed.

Lemma firstNameLoop_before_marker (pre rest : list gostring) :
  Forall (fun line => isMarkerLine line = false) pre ->
  firstNameLoop false (map dropCR pre ++ rest) = firstNameLoop false rest.
Proof.
  induction 1 as [|line pre Hl _ IH]; [reflexivity|].
  cbn [map app firstNameLoop]. rewrite TrimSpace_dropCR.
  unfold isMarkerLine in Hl. rewrite Hl. exact IH.
Qed.

Lemma firstProxyName_block (pre name localPort remotePort tail : gostring) :
  linesFit pre ->
  Forall (fun line => isMarkerLine line = false) (Split pre LF) ->
  noLF name -> fits (nameLine name) = true ->
  firstProxyName (pre ++ proxyBlock name localPort remotePort ++ tail) =
  firstPart name.
Proof.
  intros Hfit Hpre Hname Hnl. unfold firstProxyName, ScanLines.
  rewrite proxyBlock_lines.
  rewrite (Join_cons proxiesMarker), (Join_cons (nameLine name))
    by (try discriminate; destruct (fieldLines localPort remotePort);
        discriminate).
  rewrite <- app_comm_cons, <- app_assoc, <- app_comm_cons, <- app_assoc,
    <- app_comm_cons.
  set (R := Join (fieldLines localPort remotePort ++ [[]]) LF ++ tail).
  rewrite !Split_app.
  rewrite (Split_piece proxiesMarker LF)
    by (apply noLF_check; reflexivity).
  rewrite (Split_piece (nameLine name) LF) by (apply noLF_nameLine, Hname).
  rewrite rawTokens_app
    by (intros E; apply app_eq_nil in E as [_ E];
        apply app_eq_nil in E as [E _]; discriminate).
  rewrite scanTokens_app by exact Hfit.
  rewrite firstNameLoop_before_marker by exact Hpre.
  rewrite (rawTokens_app [proxiesMarker])
    by (intros E; apply app_eq_nil in E as [E _]; discriminate).
  rewrite (rawTokens_app [nameLine name]) by apply Split_nonempty.
  change ([proxiesMarker] ++ [nameLine name] ++ rawTokens (Split R LF))
    with ([proxiesMarker; nameLine name] ++ rawTokens (Split R LF)).
  rewrite scanTokens_app
    by (constructor; [reflexivity | constructor; [exact Hnl | constructor]]).
  cbn [map app firstNameLoop]. rewrite !TrimSpace_dropCR.
  replace (eqs (TrimSpace proxiesMarker) proxiesMarker) with true
    by (vm_compute; reflexivity).
  pose proof (nameLine_not_marker name) as Hm. unfold isMarkerLine in Hm.
  rewrite Hm, nameLine_trim, (reName_nameLine name Hname). reflexivity.
Qed.

(** X4: the name that [getFirstProxyName] returns never holds a hyphen: it
    is the part of a name before its first hyphen, or empty.  The function
    only reads: the registry and the operating system are as they were, and
    when the registry cannot be opened the name is empty, with no error. *)
Theorem getFirstProxyName_no_hyphen {W} (st : State W) :
  noHyphen (fst (getFirstProxyName st))
  /\ toml (snd (getFirstProxyName st)) = toml st
  /\ world (snd (getFirstProxyName st)) = world st
  /\ (forall e, toml st = Err e -> fst (getFirstProxyName st) = []).
Proof.
  unfold getFirstProxyName, getToml. monad_unfold.
  destruct (toml st) as [content|e] eqn:E; msimpl; repeat split.
  - apply firstNameLoop_noHyphen.
  - intros e H. discriminate.
  - intros [].
Qed.

(** X5: with no name in the configuration, the default name that
    [handleGetDefaultName] answers with is the identity of the first rule of
    the registry up to its first hyphen.  The registry here is lines without
    a marker (within the buffer of the scanner), then the block that
    [appendToFrpc] writes for a request whose name is on one line, then any
    text.  When the identity of the request holds no hyphen, the answer is
    the identity itself. *)
Theorem handleGetDefaultName_first_rule {W} (config : Config.t)
        (st : State W) (req : AddRuleRequest.t) (pre tail : gostring) :
  Config.Name config = [] ->
  linesFit pre ->
  Forall (fun line => isMarkerLine line = false) (Split pre LF) ->
  noLF (ruleProxyName req) ->
  fits (nameLine (ruleProxyName req)) = true ->
  toml st = Ok (pre ++ proxyBlock (ruleProxyName req)
                                  (AddRuleRequest.ListenPort req)
                                  (AddRuleRequest.RemotePort req) ++ tail) ->
  fst (handleGetDefaultName config st) = firstPart (AddRuleRequest.Name req)
  /\ (noHyphen (AddRuleRequest.Name req) ->
      fst (handleGetDefaultName config st) = AddRuleRequest.Name req).
Proof.
  intros Hc Hfit Hpre Hname Hnl Hst.
  assert (E : fst (handleGetDefaultName config st) =
              firstPart (AddRuleRequest.Name req)).
  { unfold handleGetDefaultName, getFirstProxyName, getToml. monad_unfold.
    rewrite Hc. cbn [eqs]. rewrite Hst. msimpl.
    rewrite (firstProxyName_block _ _ _ _ _ Hfit Hpre Hname Hnl).
    unfold ruleProxyName. cbn [lit list_ascii_of_string app].
    apply firstPart_app. }
  split; [exact E|]. intros H. rewrite E. apply firstPart_whole, H.
Qed.

Lemma handleGetDefaultName_first_rule_witness :
  Config.Name namelessConfig = []
  /\ linesFit relaySetting
  /\ Forall (fun line => isMarkerLine line = false) (Split relaySetting LF)
  /\ noLF (ruleProxyName aliceRequest)
  /\ fits (nameLine (ruleProxyName aliceRequest)) = true
  /\ fst (handleGetDefaultName namelessConfig
            (initial (Ok (relaySetting ++ blockOfRequest aliceRequest
                          ++ blockOfRequest bobRequest)) None)) =
     lit "alice".
Proof.
  assert (H1 : linesFit relaySetting)
    by (apply linesFit_check; vm_compute; reflexivity).
  assert (H2 : Forall (fun line => isMarkerLine line = false)
                      (Split relaySetting LF))
    by (repeat constructor).
  assert (H3 : noLF (ruleProxyName aliceRequest))
    by (apply noLF_check; vm_compute; reflexivity).
  assert (H4 : fits (nameLine (ruleProxyName aliceRequest)) = true)
    by (vm_compute; reflexivity).
  split; [reflexivity|]. split; [exact H1|]. split; [exact H2|].
  split; [exact H3|]. split; [exact H4|].
  apply (proj1 (handleGetDefaultName_first_rule namelessConfig
                  (initial (Ok (relaySetting ++ blockOfRequest aliceRequest
                                ++ blockOfRequest bobRequest)) None)
                  aliceRequest relaySetting (blockOfRequest bobRequest)
                  eq_refl H1 H2 H3 H4 eq_refl)).
Defined.

(** ** Adding and deleting *)

Lemma appendAll_toml {W} (reqs : list AddRuleRequest.t) :
  forall (st : State W) (content : gostring),
    toml st = Ok content ->
    toml (appendAll reqs st) =
    Ok (content ++ concat (map blockOfRequest reqs)).
Proof.
  induction reqs as [|req reqs IH]; intros st content H.
  - cbn. rewrite app_nil_r. exact H.
  - cbn [appendAll map concat]. rewrite (appendToFrpc_run req content st H).
    cbn [snd]. rewrite (IH _ (content ++ blockOfRequest req)) by reflexivity.
    rewrite <- app_assoc. reflexivity.
Qed.

Lemma Split_blocks (reqs : list AddRuleRequest.t) :
  Forall oneLine reqs ->
  forall content,
    Split (content ++ concat (map blockOfRequest reqs)) LF =
    Split content LF ++ concat (map linesOfRequest reqs).
Proof.
  induction 1 as [|req reqs (Hn & Hl & Hr) _ IH]; intros content.
  - cbn. rewrite !app_nil_r. reflexivity.
  - cbn [map concat]. rewrite app_assoc, IH.
    unfold blockOfRequest at 1. rewrite (Split_proxyBlock _ _ _ _ Hn Hl Hr).
    rewrite <- app_assoc. reflexivity.
Qed.

Lemma plain_head_not_header (c : ascii) (s : gostring) :
  isPlain c = true -> Ascii.eqb c "[" = false -> isHeaderLine (c :: s) = false.
Proof.
  intros Hc Hb. unfold isHeaderLine, isSectionStart.
  destruct (TrimSpace_head c s Hc) as [E | [s' E]]; rewrite E.
  - reflexivity.
  - cbn. rewrite Hb. reflexivity.
Qed.

Lemma isSection_linesOfRequest (req : AddRuleRequest.t) :
  isSection (linesOfRequest req).
Proof.
  unfold linesOfRequest, isSection. split; [reflexivity|].
  unfold plainLines, fieldLines. cbn [app].
  repeat constructor; try reflexivity;
    apply plain_head_not_header; reflexivity.
Qed.

Lemma isNamed_linesOfRequest (proxyName : gostring) (req : AddRuleRequest.t) :
  noLF (ruleProxyName req) ->
  keep proxyName (linesOfRequest req) = otherName proxyName req.
Proof.
  intros H. unfold linesOfRequest. rewrite keep_cons. unfold nextLineNames.
  rewrite (reName_nameLine _ H). reflexivity.
Qed.

Lemma filter_linesOfRequest (proxyName : gostring)
      (reqs : list AddRuleRequest.t) :
  Forall oneLine reqs ->
  filter (keep proxyName) (map linesOfRequest reqs) =
  map linesOfRequest (filter (otherName proxyName) reqs).
Proof.
  induction 1 as [|req reqs (Hn & _) _ IH]; [reflexivity|].
  cbn [map filter]. rewrite (isNamed_linesOfRequest proxyName req Hn), IH.
  destruct (otherName proxyName req); reflexivity.
Qed.

Lemma Forall_filter' {A} (P : A -> Prop) (f : A -> bool) (l : list A) :
  Forall P l -> Forall P (filter f l).
Proof.
  induction 1 as [|x l Hx _ IH]; [constructor|].
  cbn. destruct (f x); [constructor|]; assumption.
Qed.

Lemma deleteLines_blocks (proxyName content : gostring)
      (reqs : list AddRuleRequest.t) :
  Forall oneLine reqs ->
  forallb (keep proxyName) (blocksOf (Split content LF)) = true ->
  deleteLines proxyName (content ++ concat (map blockOfRequest reqs)) =
  content ++ concat (map blockOfRequest (filter (otherName proxyName) reqs)).
Proof.
  intros Hreqs Hkeep. unfold deleteLines.
  rewrite deleteLoop_kept. unfold keptBlocks.
  rewrite (Split_blocks reqs Hreqs).
  destruct (blocksOf_shape (Split content LF)) as (pre & secs & E & Hpre & Hsecs).
  assert (Elines : Split content LF = pre ++ concat secs).
  { rewrite <- (concat_blocksOf (Split content LF)), E. reflexivity. }
  rewrite Elines at 1. rewrite <- app_assoc, <- concat_app.
  rewrite blocksOf_concat.
  2: exact Hpre.
  2:{ apply Forall_app. split; [exact Hsecs|].
      apply Forall_map, Forall_forall. intros req _.
      apply isSection_linesOfRequest. }
  rewrite E in Hkeep. cbn [forallb] in Hkeep.
  apply andb_true_iff in Hkeep as [Hk1 Hk2].
  cbn [filter]. rewrite Hk1, filter_app, (filter_all _ _ Hk2).
  rewrite (filter_linesOfRequest proxyName reqs Hreqs).
  cbn [concat]. rewrite concat_app, app_assoc, <- Elines.
  rewrite <- (Split_blocks _ (Forall_filter' _ _ _ Hreqs)).
  apply Join_Split.
Qed.

Lemma keep_all (proxyName : gostring) (blocks : list (list gostring)) :
  forallb (keep proxyName) blocks = true <->
  (forall b, In b blocks -> blockName b <> Some proxyName).
Proof.
  rewrite forallb_forall. split; intros H b Hb; apply keep_blockName, H, Hb.
Qed.

Lemma wellFormed_oneLine (req : AddRuleRequest.t) :
  wellFormed req -> oneLine req.
Proof.
  intros H. destruct (wellFormed_noLF req H) as [Hl Hr].
  destruct H as (Hn & _). repeat split; assumption.
Qed.

(** X6: deleting a name undoes the additions of that name, and only those.
    On a registry without a block of the name, after the blocks of some
    requests have been appended (names and ports on one line),
    [deleteFrpProxy] leaves byte for byte the file that appending only the
    requests of another name would have left; and when the requests are
    well formed and the lines of the registry fit the scanner, the registry
    then reads back as its old records followed by the records of those
    other requests. *)
Theorem deleteFrpProxy_undoes_additions {W} (st : State W)
        (content proxyName : gostring) (reqs : list AddRuleRequest.t) :
  toml st = Ok content ->
  Forall oneLine reqs ->
  (forall b, In b (blocksOf (Split content LF)) ->
             blockName b <> Some proxyName) ->
  let st' := snd (deleteFrpProxy proxyName (appendAll reqs st)) in
  let others := filter (otherName proxyName) reqs in
  toml st' = toml (appendAll others st)
  /\ (Forall wellFormed reqs -> linesFit content ->
      fst (getFrpProxies st') =
      Ok (parseProxies content ++ map proxyOfRequest others)).
Proof.
  intros Hst Hreqs Hno st' others.
  assert (E : toml st' = toml (appendAll others st)).
  { unfold st'.
    rewrite (deleteFrpProxy_run proxyName _ _ (appendAll_toml reqs st _ Hst)).
    cbn [snd toml]. rewrite (appendAll_toml others st _ Hst). f_equal.
    apply deleteLines_blocks; [exact Hreqs | apply keep_all, Hno]. }
  split; [exact E|]. intros Hwf Hfit.
  destruct (appendAll_parse others (Forall_filter' _ _ _ Hwf) st content
                            Hst Hfit) as (content' & Ec & _ & Ep).
  rewrite Ec in E. rewrite (getFrpProxies_run content' st' E).
  cbn [fst]. rewrite Ep. reflexivity.
Qed.

Lemma deleteFrpProxy_undoes_additions_witness :
  toml (initial (Ok sampleRegistry) None) = Ok sampleRegistry
  /\ Forall oneLine [aliceRequest; bobRequest]
  /\ (forall b, In b (blocksOf (Split sampleRegistry LF)) ->
                blockName b <> Some (ruleProxyName bobRequest))
  /\ toml (snd (deleteFrpProxy (ruleProxyName bobRequest)
                  (appendAll [aliceRequest; bobRequest]
                             (initial (Ok sampleRegistry) None)))) =
     Ok (sampleRegistry ++ blockOfRequest aliceRequest).
Proof.
  assert (H1 : Forall oneLine [aliceRequest; bobRequest]).
  { constructor; [apply wellFormed_oneLine, wellFormed_alice|].
    constructor; [apply wellFormed_oneLine, wellFormed_bob|]. constructor. }
  assert (H2 : forall b, In b (blocksOf (Split sampleRegistry LF)) ->
                         blockName b <> Some (ruleProxyName bobRequest)).
  { apply keep_all. vm_compute. reflexivity. }
  split; [reflexivity|]. split; [exact H1|]. split; [exact H2|].
  rewrite (proj1 (deleteFrpProxy_undoes_additions
                    (initial (Ok sampleRegistry) None) sampleRegistry
                    (ruleProxyName bobRequest) [aliceRequest; bobRequest]
                    eq_refl H1 H2)).
  vm_compute. reflexivity.
Defined.

(** ** The ports of the records *)

Lemma takeDigits_digits (s : gostring) :
  Forall (fun c => reDigit c = true) (takeDigits s).
Proof.
  induction s as [|c s IH]; [constructor|]. cbn.
  destruct (reDigit c) eqn:E; constructor; assumption.
Qed.

Lemma matchDigits_digits (key line ds : gostring) :
  matchDigits key line = Some ds -> isPort ds.
Proof.
  unfold matchDigits. destruct (matchKeyEq key line) as [v|]; [|discriminate].
  pose proof (takeDigits_digits v) as H.
  destruct (takeDigits v) as [|c t]; [discriminate|].
  intros E. injection E as <-. split; [discriminate | exact H].
Qed.

Lemma setField_portsRead (r : FrpProxy.t) (line : gostring) :
  portsRead r -> portsRead (setField r line).
Proof.
  destruct r as [n t ip lp rp]. intros [Hl Hr]. unfold setField.
  destruct (reName line); [split; assumption|].
  destruct (reType line); [split; assumption|].
  destruct (reLocalIP line); [split; assumption|].
  destruct (reLocalPort line) eqn:El.
  { split; [right; exact (matchDigits_digits _ _ _ El) | exact Hr]. }
  destruct (reRemotePort line) eqn:Er.
  { split; [exact Hl | right; exact (matchDigits_digits _ _ _ Er)]. }
  split; assumption.
Qed.

Lemma fieldsOf_portsRead (body : list gostring) (r : FrpProxy.t) :
  portsRead r -> portsRead (fieldsOf body r).
Proof.
  revert r. unfold fieldsOf.
  induction body as [|line body IH]; intros r H; [exact H|].
  cbn [fold_left]. apply IH, setField_portsRead, H.
Qed.

(** X7: the ports of every record that [getFrpProxies] returns are one or
    more ASCII digits, or empty: a port line whose value does not start with
    a digit sets nothing, and of a value that starts with digits only these
    are kept. *)
Theorem getFrpProxies_ports_are_digits {W} (st : State W)
        (ps : list FrpProxy.t) :
  fst (getFrpProxies st) = Ok ps -> Forall portsRead ps.
Proof.
  unfold getFrpProxies, getToml. monad_unfold.
  destruct (toml st) as [content|e]; msimpl; [|discriminate].
  intros E. injection E as <-. rewrite parseProxies_scanned.
  apply Forall_map, Forall_forall. intros body _.
  apply fieldsOf_portsRead. split; left; reflexivity.
Qed.

Lemma getFrpProxies_ports_are_digits_witness :
  fst (getFrpProxies (initial (Ok sampleRegistry) None)) =
  Ok (parseProxies sampleRegistry)
  /\ Forall portsRead (parseProxies sampleRegistry).
Proof.
  split; [reflexivity|].
  apply (getFrpProxies_ports_are_digits (initial (Ok sampleRegistry) None)
           (parseProxies sampleRegistry) eq_refl).
Defined.

Lemma fmtUint_digits (d : Decimal.uint) :
  Forall (fun c => reDigit c = true) (fmtUint d).
Proof. induction d; cbn [fmtUint]; constructor; auto. Qed.

Lemma fmtUint_nonempty (d : Decimal.uint) : d <> Decimal.Nil -> fmtUint d <> [].
Proof. destruct d; [congruence | discriminate ..]. Qed.

Lemma isPort_fmtInt (z : Z) : (0 <= z)%Z -> isPort (fmtInt z).
Proof.
  intros H. unfold fmtInt. destruct z as [|p|p]; [| |lia].
  - split; [discriminate | repeat constructor].
  - cbn [Z.to_int]. split; [|apply fmtUint_digits].
    apply fmtUint_nonempty, DecimalPos.Unsigned.to_uint_nonnil.
Qed.

Lemma registerWebUIToFrpc_reads_back {W} (config : Config.t) (st : State W)
      (content : gostring) :
  toml st = Ok content ->
  linesFit content ->
  isRegistered config content = false ->
  noLF (webUIProxyFullName config) ->
  (0 <= Config.Port config)%Z ->
  (0 <= Config.WebUIRemotePort config)%Z ->
  linesFit (webUIBlock config) ->
  fst (registerWebUIToFrpc config st) = None
  /\ toml (snd (registerWebUIToFrpc config st)) =
     Ok (content ++ webUIBlock config)
  /\ parseProxies (content ++ webUIBlock config) =
     parseProxies content ++ [webUIProxy config].
Proof.
  intros Hst Hfit Hreg Hname Hp Hr Hblock.
  destruct (registerWebUIToFrpc_absent config content st Hst Hreg)
    as (msg & E).
  rewrite E. cbn [fst snd toml]. repeat split.
  apply parse_appended_block; try assumption; apply isPort_fmtInt; assumption.
Qed.

(** X8: the entry of the web UI reads back with the ports of the
    configuration.  On a registry that can be read (lines within the buffer
    of the scanner) and has no entry of the canonical name, with a name on
    one line and ports that are not negative, [registerWebUIToFrpc] returns
    no error and the registry then reads back as its old records followed
    by one record: the canonical name, type tcp, local address 127.0.0.1,
    the port of the manager in decimal as local port and the configured
    remote port in decimal as remote port. *)
Theorem registerWebUIToFrpc_entry {W} (config : Config.t) (st : State W)
        (content : gostring) :
  toml st = Ok content ->
  linesFit content ->
  isRegistered config content = false ->
  noLF (webUIProxyFullName config) ->
  (0 <= Config.Port config)%Z ->
  (0 <= Config.WebUIRemotePort config)%Z ->
  linesFit (webUIBlock config) ->
  fst (registerWebUIToFrpc config st) = None
  /\ fst (getFrpProxies (snd (registerWebUIToFrpc config st))) =
     Ok (parseProxies content
         ++ [{| FrpProxy.Name := Config.Name config ++ lit "-"
                                 ++ Config.WebUIProxyName config;
                FrpProxy.Type_ := lit "tcp";
                FrpProxy.LocalIP := lit "127.0.0.1";
                FrpProxy.LocalPort := fmtInt (Config.Port config);
                FrpProxy.RemotePort :=
                  fmtInt (Config.WebUIRemotePort config) |}]).
Proof.
  intros Hst Hfit Hreg Hname Hp Hr Hblock.
  destruct (registerWebUIToFrpc_reads_back config st content Hst Hfit Hreg
              Hname Hp Hr Hblock) as (E1 & E2 & E3).
  split; [exact E1|].
  rewrite (getFrpProxies_run _ _ E2). cbn [fst]. rewrite E3. reflexivity.
Qed.

Lemma registerWebUIToFrpc_entry_witness :
  toml (initial (Ok sampleRegistry) None) = Ok sampleRegistry
  /\ linesFit sampleRegistry
  /\ isRegistered sampleConfig sampleRegistry = false
  /\ noLF (webUIProxyFullName sampleConfig)
  /\ (0 <= Config.Port sampleConfig)%Z
  /\ (0 <= Config.WebUIRemotePort sampleConfig)%Z
  /\ linesFit (webUIBlock sampleConfig)
  /\ fst (getFrpProxies (snd (registerWebUIToFrpc sampleConfig
                                (initial (Ok sampleRegistry) None)))) =
     Ok (parseProxies sampleRegistry
         ++ [{| FrpProxy.Name := lit "default-portproxy-manager-web";
                FrpProxy.Type_ := lit "tcp";
                FrpProxy.LocalIP := lit "127.0.0.1";
                FrpProxy.LocalPort := lit "8080";
                FrpProxy.RemotePort := lit "18080" |}]).
Proof.
  assert (H1 : linesFit sampleRegistry)
    by (apply linesFit_check; vm_compute; reflexivity).
  assert (H0 : isRegistered sampleConfig sampleRegistry = false)
    by (vm_compute; reflexivity).
  assert (H2 : noLF (webUIProxyFullName sampleConfig))
    by (apply noLF_check; vm_compute; reflexivity).
  assert (H3 : (0 <= Config.Port sampleConfig)%Z) by (vm_compute; discriminate).
  assert (H4 : (0 <= Config.WebUIRemotePort sampleConfig)%Z)
    by (vm_compute; discriminate).
  assert (H5 : linesFit (webUIBlock sampleConfig))
    by (apply linesFit_check; vm_compute; reflexivity).
  split; [reflexivity|]. split; [exact H1|]. split; [exact H0|].
  split; [exact H2|]. split; [exact H3|]. split; [exact H4|].
  split; [exact H5|].
  apply (proj2 (registerWebUIToFrpc_entry sampleConfig
                  (initial (Ok sampleRegistry) None) sampleRegistry
                  eq_refl H1 H0 H2 H3 H4 H5)).
Defined.

(** X9: the start of the program.  When [config.json] cannot be loaded,
    [main] runs with the default configuration; when the configuration
    turns the registration off, [main] neither reads nor writes the registry
    and runs no command before it serves; and with the defaults, on a
    registry that can be read and has no entry of the name
    default-portproxy-manager-web, the registry reads back after the start
    with that entry added, from local port 8080 to remote port 18080. *)
Theorem main_starts {W} (st : State W) :
  (forall e, fst (main (Err e) st) = defaultConfig)
  /\ (forall config,
         Config.AutoRegisterToFrp config = false ->
         main (Ok config) st =
         (config,
          {| toml := toml st; world := world st;
             trace := trace st
                      ++ [EvEnter "main";
                          EvLog (lit "服务器启动在 http://localhost:"
                                 ++ fmtInt (Config.Port config))] |}))
  /\ (forall e content,
         toml st = Ok content -> linesFit content ->
         isRegistered defaultConfig content = false ->
         fst (getFrpProxies (snd (main (Err e) st))) =
         Ok (parseProxies content
             ++ [{| FrpProxy.Name := lit "default-portproxy-manager-web";
                    FrpProxy.Type_ := lit "tcp";
                    FrpProxy.LocalIP := lit "127.0.0.1";
                    FrpProxy.LocalPort := lit "8080";
                    FrpProxy.RemotePort := lit "18080" |}])).
Proof.
  split; [|split].
  - intros e. unfold main. monad_unfold.
    change (Config.AutoRegisterToFrp defaultConfig) with true. cbv beta iota.
    match goal with
    | |- context [registerWebUIToFrpc defaultConfig ?s] =>
        destruct (registerWebUIToFrpc defaultConfig s) as [[e'|] s1]
    end; reflexivity.
  - intros config H. unfold main. monad_unfold. rewrite H. msimpl.
    rewrite <- app_assoc. reflexivity.
  - intros e content Hst Hfit Hreg. unfold main. monad_unfold.
    change (Config.AutoRegisterToFrp defaultConfig) with true. cbv beta iota.
    match goal with
    | |- context [registerWebUIToFrpc defaultConfig ?s] =>
        destruct (registerWebUIToFrpc_reads_back defaultConfig s content)
          as (E1 & E2 & E3);
        [ exact Hst | exact Hfit | exact Hreg
        | apply noLF_check; reflexivity | vm_compute; discriminate
        | vm_compute; discriminate
        | apply linesFit_check; vm_compute; reflexivity |];
        destruct (registerWebUIToFrpc defaultConfig s) as [o s1]
    end.
    cbn [fst snd] in *. subst o. msimpl.
    unfold getFrpProxies, getToml. monad_unfold. rewrite E2. msimpl.
    rewrite E3. reflexivity.
Qed.

(** ** A registry that cannot be opened *)

(** X10: a registry that cannot be opened is never created.  Reading it
    fails with the error of the file, the default name is empty, and each of
    [appendToFrpc], [deleteFrpProxy] and [registerWebUIToFrpc] returns the
    error of the file and leaves the file as it was. *)
Theorem registry_missing {W} (config : Config.t) (st : State W) (e : error) :
  toml st = Err e ->
  fst (getFrpProxies st) = Err e
  /\ fst (getFirstProxyName st) = []
  /\ (forall req,
         fst (appendToFrpc req st) = Some e
         /\ toml (snd (appendToFrpc req st)) = Err e)
  /\ (forall proxyName,
         fst (deleteFrpProxy proxyName st) = Some e
         /\ toml (snd (deleteFrpProxy proxyName st)) = Err e)
  /\ fst (registerWebUIToFrpc config st) = Some e
  /\ toml (snd (registerWebUIToFrpc config st)) = Err e.
Proof.
  intros H.
  unfold getFrpProxies, getFirstProxyName, appendToFrpc, appendString,
    deleteFrpProxy, registerWebUIToFrpc, getFrpProxies, getToml, putToml.
  monad_unfold. rewrite H. msimpl. repeat split; assumption.
Qed.

Lemma registry_missing_witness :
  toml (initial (Err noSuchFile) None) = Err noSuchFile
  /\ fst (getFrpProxies (initial (Err noSuchFile) None)) = Err noSuchFile
  /\ fst (registerWebUIToFrpc sampleConfig (initial (Err noSuchFile) None)) =
     Some noSuchFile.
Proof.
  split; [reflexivity|].
  destruct (registry_missing sampleConfig (initial (Err noSuchFile) None)
              noSuchFile eq_refl) as (H1 & _ & _ & _ & H2 & _).
  split; assumption.
Defined.

(** ** The commands of the Supervisor *)

Lemma locator_log_counts (log : list Event) :
  forallb isLocatorEvent log = true ->
  count isStart log = 0 /\ count isTaskkill log = 0.
Proof.
  intros H. split.
  - exact (count_none _ _ _ locator_event_no_start H).
  - exact (count_none _ _ _ locator_event_no_taskkill H).
Qed.

Lemma locator_on_windows {W} (host : Host W) (w : W) (r : option Z) :
  locator host w = Ok r -> r <> None -> onWindows host = true.
Proof.
  intros H Hr. destruct (onWindows host) eqn:E; [reflexivity|].
  rewrite (locator_off_windows host w) in H by (rewrite E; reflexivity).
  congruence.
Qed.

(** X11: [startFrpc] tries to launch at most one process, and only on
    Windows when the Locator reports no process; when it returns no error
    on Windows it has launched exactly one; and it never runs the
    termination command. *)
Theorem startFrpc_launches_once {W} (host : Host W) (config : Config.t)
        (st : State W) :
  let before := count isStart (trace st) in
  let after := count isStart (trace (snd (startFrpc host config st))) in
  after <= S before
  /\ (after = S before ->
      onWindows host = true /\ locator host (world st) = Ok None)
  /\ (onWindows host = true -> fst (startFrpc host config st) = None ->
      after = S before)
  /\ count isTaskkill (trace (snd (startFrpc host config st))) =
     count isTaskkill (trace st).
Proof.
  unfold startFrpc. monad_unfold.
  destruct (onWindows host) eqn:Eos; cbn [negb fst snd trace toml world].
  2:{ rewrite !count_app. cbn. repeat split; try lia; try discriminate. }
  match goal with
  | |- context [getFrpcProcess host ?s0] =>
      locate (getFrpcProcess_log host s0) (getFrpcProcess_locator host s0)
             (getFrpcProcess host s0) r s1 log
  end.
  destruct (locator_log_counts log Hl) as [Hs Hk].
  destruct r as [[pid|]|e]; cbn [fst snd trace toml world].
  - rewrite El, !count_app, Hs, Hk. cbn.
    repeat split; try lia; try discriminate.
  - destruct (osOpenLogFile host (world s1)) as [[e|] w];
      cbn [fst snd trace toml world].
    + rewrite El, !count_app, Hs, Hk. cbn.
      repeat split; try lia; try discriminate.
    + destruct (cmdStart host (frpcArgv config) w) as [[pid|e] w'];
        cbn [fst snd trace toml world];
        rewrite El, !count_app, Hs, Hk; cbn;
        repeat split; try lia; try discriminate; symmetry; assumption.
  - rewrite El, !count_app, Hs, Hk. cbn.
    repeat split; try lia; try discriminate.
Qed.

(** X12: [stopFrpc] runs the termination command at most once, and it runs
    it exactly when the Locator reports a process; it never launches one. *)
Theorem stopFrpc_kills_once {W} (host : Host W) (st : State W) :
  let before := count isTaskkill (trace st) in
  let after := count isTaskkill (trace (snd (stopFrpc host st))) in
  after <= S before
  /\ (after = S before <->
      exists pid, locator host (world st) = Ok (Some pid))
  /\ count isStart (trace (snd (stopFrpc host st))) = count isStart (trace st).
Proof.
  unfold stopFrpc. monad_unfold.
  destruct (onWindows host) eqn:Eos; cbn [negb fst snd trace toml world].
  2:{ rewrite !count_app. cbn. repeat split; try lia.
      intros [pid H].
      rewrite (locator_off_windows host (world st)) in H
        by (rewrite Eos; reflexivity).
      discriminate. }
  match goal with
  | |- context [getFrpcProcess host ?s0] =>
      locate (getFrpcProcess_log host s0) (getFrpcProcess_locator host s0)
             (getFrpcProcess host s0) r s1 log
  end.
  destruct (locator_log_counts log Hl) as [Hs Hk].
  destruct r as [[pid|]|e]; cbn [fst snd trace toml world].
  - destruct (cmdRun host taskkillArgv (world s1)) as [[e|] w];
      cbn [fst snd trace toml world];
      rewrite El, !count_app, Hs, Hk; cbn;
      (repeat split; try lia; intros _; exists pid; symmetry; assumption).
  - rewrite El, !count_app, Hs, Hk. cbn. repeat split; try lia.
    intros [pid H]. congruence.
  - rewrite El, !count_app, Hs, Hk. cbn. repeat split; try lia.
    intros [pid H]. congruence.
Qed.

Lemma registerWebUIToFrpc_world {W} (config : Config.t) (st : State W) :
  world (snd (registerWebUIToFrpc config st)) = world st.
Proof.
  unfold registerWebUIToFrpc, getFrpProxies, appendString, getToml, putToml.
  monad_unfold. destruct (toml st) as [content|e]; msimpl; [|reflexivity].
  destruct (existsb _ _); reflexivity.
Qed.

Lemma addNetshRule_toml {W} (host : Host W) (lp ca cp : gostring)
      (st : State W) :
  toml (snd (addNetshRule host lp ca cp st)) = toml st.
Proof.
  unfold addNetshRule. monad_unfold.
  destruct (negb (onWindows host)); msimpl; [reflexivity|].
  match goal with
  | |- context [cmdRun host ?argv ?w] => destruct (cmdRun host argv w)
  end; reflexivity.
Qed.

Lemma getNetshRules_toml {W} (host : Host W) (st : State W) :
  toml (snd (getNetshRules host st)) = toml st.
Proof.
  unfold getNetshRules. monad_unfold.
  destruct (negb (onWindows host)); msimpl; [reflexivity|].
  destruct (cmdOutput host netshShowArgv (world st)) as [[out|e] w];
    reflexivity.
Qed.

Lemma getFrpcStatus_toml {W} (host : Host W) (st : State W) :
  toml (snd (getFrpcStatus host st)) = toml st.
Proof.
  unfold getFrpcStatus. monad_unfold.
  destruct (negb (onWindows host)); msimpl; [reflexivity|].
  match goal with
  | |- context [getFrpcProcess host ?s0] =>
      destruct (getFrpcProcess_log host s0) as (Ht & _);
      destruct (getFrpcProcess host s0) as [[[p|]|e] s1]
  end; exact Ht.
Qed.

(** X13: the registry and the Supervisor are apart.  The functions of the
    registry ([getFrpProxies], [getFirstProxyName], [registerWebUIToFrpc],
    [appendToFrpc], [deleteFrpProxy]) leave the state of the operating
    system as it was; the functions of the Supervisor and of the port proxy
    ([getFrpcProcess], [stopFrpc], [startFrpc], [restartFrpc],
    [getFrpcStatus], [getNetshRules], [addNetshRule]) leave the registry as
    it was. *)
Theorem registry_and_supervisor_apart {W} (host : Host W) (config : Config.t)
        (st : State W) :
  (world (snd (getFrpProxies st)) = world st
   /\ world (snd (getFirstProxyName st)) = world st
   /\ world (snd (registerWebUIToFrpc config st)) = world st
   /\ (forall req, world (snd (appendToFrpc req st)) = world st)
   /\ (forall proxyName, world (snd (deleteFrpProxy proxyName st)) = world st))
  /\ (toml (snd (getFrpcProcess host st)) = toml st
      /\ toml (snd (stopFrpc host st)) = toml st
      /\ toml (snd (startFrpc host config st)) = toml st
      /\ toml (snd (restartFrpc host config st)) = toml st
      /\ toml (snd (getFrpcStatus host st)) = toml st
      /\ toml (snd (getNetshRules host st)) = toml st
      /\ (forall listenPort connectAddr connectPort,
             toml (snd (addNetshRule host listenPort connectAddr connectPort
                                     st)) = toml st)).
Proof.
  split.
  - repeat split.
    + unfold getFrpProxies, getToml. monad_unfold.
      destruct (toml st); reflexivity.
    + unfold getFirstProxyName, getToml. monad_unfold.
      destruct (toml st); reflexivity.
    + apply registerWebUIToFrpc_world.
    + intros req. unfold appendToFrpc, appendString, getToml, putToml.
      monad_unfold. destruct (toml st); reflexivity.
    + intros proxyName. unfold deleteFrpProxy, getToml, putToml.
      monad_unfold. destruct (toml st); reflexivity.
  - repeat split.
    + apply getFrpcProcess_log.
    + apply stopFrpc_log.
    + apply startFrpc_log.
    + apply restartFrpc_log.
    + apply getFrpcStatus_toml.
    + apply getNetshRules_toml.
    + intros. apply addNetshRule_toml.
Qed.

Lemma trimLastSpace_spaces (sp r : gostring) :
  Forall (fun c => asciiSpace c = true) sp ->
  trimLastSpace (sp ++ r) = trimLastSpace r.
Proof.
  induction 1 as [|c sp Hc _ IH]; [reflexivity|].
  cbn [app trimLastSpace]. rewrite Hc. exact IH.
Qed.

Lemma TrimSpace_token (t sp : gostring) :
  Forall (fun c => isPlain c = true) t ->
  Forall (fun c => asciiSpace c = true) sp ->
  TrimSpace (t ++ sp) = t.
Proof.
  intros Ht Hsp. destruct t as [|c t].
  - cbn [app]. unfold TrimSpace.
    assert (E : trimLeftSpace sp = []).
    { induction Hsp as [|x sp Hx _ IH]; [reflexivity|].
      rewrite trimLeftSpace_space by exact Hx. exact IH. }
    rewrite E. reflexivity.
  - inversion Ht as [|? ? Hc Ht']; subst.
    unfold TrimSpace. cbn [app]. rewrite (trimLeftSpace_plain _ _ Hc).
    unfold trimRightSpace. rewrite !reverse_rev.
    change (c :: t ++ sp) with ((c :: t) ++ sp). rewrite rev_app_distr.
    rewrite trimLastSpace_spaces
      by (apply Forall_rev; exact Hsp).
    destruct (exists_last (l := c :: t)) as (t' & d & E); [discriminate|].
    rewrite E in *. rewrite rev_app_distr. cbn [rev app].
    rewrite trimLastSpace_plain.
    + change (d :: rev t') with (rev [d] ++ rev t').
      rewrite <- rev_app_distr, rev_involutive. reflexivity.
    + apply Forall_app in Ht as [_ Hd]. inversion Hd. assumption.
Qed.

Lemma parseDecimal_fmtUint (d : Decimal.uint) :
  forall acc : N,
    parseDecimal (Z.of_N acc) (fmtUint d) =
    Some (Z.of_N (DecimalPos.Unsigned.of_lu (Decimal.rev d)
                  + acc * 10 ^ DecimalPos.Unsigned.usize d)).
Proof.
  induction d; intros acc;
    [ cbn; f_equal; f_equal; lia | .. ];
    cbn [fmtUint parseDecimal];
    match goal with
    | |- context [reDigit ?c] =>
        replace (reDigit c) with true by reflexivity;
        match goal with
        | |- context [Z.of_nat (nat_of_ascii c - 48)] =>
            let k := eval vm_compute in (N.of_nat (nat_of_ascii c - 48)) in
            replace (10 * Z.of_N acc + Z.of_nat (nat_of_ascii c - 48))%Z
              with (Z.of_N (10 * acc + k))
              by (vm_compute (nat_of_ascii c - 48); lia)
        end
    end;
    rewrite IHd; f_equal; f_equal;
    unfold Decimal.rev at 2; cbn [Decimal.revapp];
    match goal with
    | |- context [Decimal.revapp d (?f Decimal.Nil)] =>
        rewrite (DecimalPos.Unsigned.of_lu_revapp d (f Decimal.Nil))
    end;
    cbn [DecimalPos.Unsigned.of_lu DecimalPos.Unsigned.usize];
    rewrite N.pow_succ_r';
    set (P := (10 ^ DecimalPos.Unsigned.usize d)%N);
    set (V := DecimalPos.Unsigned.of_lu (Decimal.rev d)); lia.
Qed.

Lemma takeNumber_digits (s : gostring) :
  Forall (fun c => reDigit c = true) s -> takeNumber s = s.
Proof.
  induction 1 as [|c s Hc _ IH]; [reflexivity|].
  cbn [takeNumber]. unfold scanDigit. rewrite Hc, IH. reflexivity.
Qed.

Lemma parseDecimal_to_uint (p : positive) :
  parseDecimal 0 (fmtUint (Pos.to_uint p)) = Some (Z.pos p).
Proof.
  change 0%Z with (Z.of_N 0).
  rewrite (parseDecimal_fmtUint (Pos.to_uint p) 0%N).
  rewrite N.mul_0_l, N.add_0_r, <- DecimalPos.Unsigned.of_uint_alt.
  rewrite DecimalPos.Unsigned.of_to. reflexivity.
Qed.

Lemma digit_no_sign (c : ascii) :
  reDigit c = true -> Ascii.eqb c "-" = false /\ Ascii.eqb c "+" = false.
Proof.
  intros H. split; destruct (Ascii.eqb_spec c "-"), (Ascii.eqb_spec c "+");
    subst; try reflexivity; discriminate.
Qed.

Lemma Sscanf_d_digits (s : gostring) (v : Z) :
  s <> [] -> Forall (fun c => reDigit c = true) s ->
  parseDecimal 0 s = Some v ->
  Sscanf_d s = (if inInt64 v then Some v else None)
  /\ Sscanf_d ("-"%char :: s) = (if inInt64 (- v) then Some (- v)%Z else None).
Proof.
  intros Hne Hd Hv. unfold Sscanf_d. destruct s as [|c t]; [congruence|].
  inversion Hd as [|? ? Hc _]; subst.
  destruct (digit_no_sign c Hc) as [-> ->].
  change (Ascii.eqb "-" "-") with true. cbv iota.
  rewrite (takeNumber_digits _ Hd), Hv. split; reflexivity.
Qed.

Lemma Sscanf_d_fmtInt (z : Z) : inInt64 z = true -> Sscanf_d (fmtInt z) = Some z.
Proof.
  intros H. unfold fmtInt. destruct z as [|p|p]; [reflexivity | |];
    cbn [Z.to_int];
    destruct (Sscanf_d_digits (fmtUint (Pos.to_uint p)) (Z.pos p)
                (fmtUint_nonempty _ (DecimalPos.Unsigned.to_uint_nonnil p))
                (fmtUint_digits _) (parseDecimal_to_uint p)) as [E1 E2].
  - rewrite E1, H. reflexivity.
  - rewrite E2. change (- Z.pos p)%Z with (Z.neg p). rewrite H. reflexivity.
Qed.

Lemma fmtInt_plain (z : Z) : Forall (fun c => isPlain c = true) (fmtInt z).
Proof.
  assert (H : forall d, Forall (fun c => isPlain c = true) (fmtUint d)).
  { intros d. eapply Forall_impl; [|apply fmtUint_digits].
    intros c. apply digit_plain. }
  unfold fmtInt. destruct (Z.to_int z); [apply H|].
  constructor; [reflexivity | apply H].
Qed.

Lemma Split_wmicTable (pid : Z) :
  Split (wmicTable pid) LF =
  [lit "ProcessId  " ++ [CR]; fmtInt pid ++ lit "  " ++ [CR]; [CR]; []].
Proof.
  unfold wmicTable.
  change (lit "ProcessId  " ++ [CR; LF] ++ fmtInt pid ++ lit "  "
          ++ [CR; LF; CR; LF])
    with ((lit "ProcessId  " ++ [CR]) ++ LF :: fmtInt pid
          ++ (lit "  " ++ [CR]) ++ LF :: [CR] ++ LF :: []).
  rewrite Split_app.
  rewrite (app_assoc (fmtInt pid)), Split_app, Split_app.
  rewrite !Split_piece; [reflexivity | intros [] | | |].
  - apply noLF_check. reflexivity.
  - apply noLF_app; [apply noLF_fmtInt | apply noLF_check; reflexivity].
  - apply noLF_check. reflexivity.
Qed.

Lemma parsablePid_wmicTable (pid : Z) :
  inInt64 pid = true ->
  parsablePid (wmicTable pid) = Some pid /\ noPidLine (wmicTable pid) = false.
Proof.
  intros H. unfold parsablePid, noPidLine. rewrite Split_wmicTable.
  rewrite TrimSpace_token;
    [| apply fmtInt_plain | repeat constructor].
  split; [apply Sscanf_d_fmtInt, H|].
  pose proof (Sscanf_d_fmtInt pid H) as E.
  destruct (fmtInt pid); [discriminate E | reflexivity].
Qed.

(** X14: the Locator finds the process.  On Windows, when the liveness
    probe names frpc.exe, the second line of the output of the process-table
    query reads as the number pid and the process of that pid can be
    opened, [getFrpcProcess] returns the process of that pid after exactly
    these three calls, in this order. *)
Theorem getFrpcProcess_finds {W} (host : Host W) (st : State W)
        (output table : gostring) (pid : Z) (w1 w2 w3 : W) :
  onWindows host = true ->
  cmdOutput host tasklistArgv (world st) = (Ok output, w1) ->
  Contains output (lit "frpc.exe") = true ->
  cmdOutput host wmicArgv w1 = (Ok table, w2) ->
  parsablePid table = Some pid ->
  osFindProcess host pid w2 = (None, w3) ->
  getFrpcProcess host st =
  (Ok (Some pid),
   {| toml := toml st; world := w3;
      trace := trace st ++ [EvEnter "getFrpcProcess"; EvOutput tasklistArgv;
                            EvOutput wmicArgv; EvFindProcess pid] |}).
Proof.
  intros Hos Hlist Hin Hwmic Hpid Hfind.
  unfold getFrpcProcess. monad_unfold.
  rewrite Hos. msimpl. rewrite Hlist. msimpl. rewrite Hin. msimpl.
  rewrite Hwmic. msimpl. unfold parsablePid in Hpid.
  destruct (Split table LF) as [|first [|second rest]]; try discriminate.
  cbn [length Nat.ltb Nat.leb nth].
  destruct (eqs (TrimSpace second) []) eqn:E.
  { apply eqs_eq in E. rewrite E in Hpid. discriminate. }
  rewrite Hpid. msimpl. rewrite Hfind. msimpl.
  rewrite <- !app_assoc. reflexivity.
Qed.

Lemma getFrpcProcess_finds_witness :
  onWindows windows = true
  /\ Contains (QUOTE :: lit "frpc.exe" ++ QUOTE :: lit "," ++ QUOTE
               :: lit "77" ++ [QUOTE; CR; LF]) (lit "frpc.exe") = true
  /\ parsablePid (wmicTable 77) = Some 77%Z
  /\ getFrpcProcess windows (initial (Ok []) (Some 77%Z)) =
     (Ok (Some 77%Z),
      {| toml := Ok []; world := Some 77%Z;
         trace := [EvEnter "getFrpcProcess"; EvOutput tasklistArgv;
                   EvOutput wmicArgv; EvFindProcess 77%Z] |}).
Proof.
  split; [reflexivity|]. split; [reflexivity|]. split; [reflexivity|].
  apply (getFrpcProcess_finds windows (initial (Ok []) (Some 77%Z))
           (QUOTE :: lit "frpc.exe" ++ QUOTE :: lit "," ++ QUOTE
            :: lit "77" ++ [QUOTE; CR; LF])
           (wmicTable 77) 77%Z (Some 77%Z) (Some 77%Z) (Some 77%Z)
           eq_refl eq_refl eq_refl eq_refl eq_refl eq_refl).
Defined.

(** X15: a pid in decimal reads back.  For every number of 64 bits, the
    verb %d of [fmt.Sscanf] reads from the text that the verb %d of
    [fmt.Sprintf] prints the number itself; and the table of the
    process-table query with that number on its second line, between a
    heading and blank lines, shows that number to the Locator. *)
Theorem pid_round_trip (pid : Z) :
  inInt64 pid = true ->
  Sscanf_d (fmtInt pid) = Some pid
  /\ parsablePid (wmicTable pid) = Some pid
  /\ noPidLine (wmicTable pid) = false.
Proof.
  intros H. split; [apply Sscanf_d_fmtInt, H|].
  apply parsablePid_wmicTable, H.
Qed.

Lemma pid_round_trip_witness :
  inInt64 4321 = true
  /\ Sscanf_d (fmtInt 4321) = Some 4321%Z
  /\ parsablePid (wmicTable 4321) = Some 4321%Z.
Proof.
  split; [reflexivity|].
  destruct (pid_round_trip 4321%Z eq_refl) as (H1 & H2 & _).
  split; assumption.
Defined.

(** ** The status and the control of frpc *)

(** X17: the status is what the Locator reports.  On Windows,
    [getFrpcStatus] says running with a pid exactly when the Locator
    reports the process of that pid, it carries an error exactly when the
    Locator fails with it, and the pid is 0 whenever it does not say
    running; off Windows it says not running, in simulation mode, and makes
    no call.  In every case the registry is as it was and neither the
    termination command nor a launch is added to the trace. *)
Theorem getFrpcStatus_reports_locator {W} (host : Host W) (st : State W) :
  let status := fst (getFrpcStatus host st) in
  let st' := snd (getFrpcStatus host st) in
  (onWindows host = true ->
   (forall pid, locator host (world st) = Ok (Some pid) <->
                (FrpcStatus.running status = true
                 /\ FrpcStatus.pid status = pid))
   /\ (forall e, locator host (world st) = Err e <->
                 FrpcStatus.error status = Some e)
   /\ (FrpcStatus.running status = false -> FrpcStatus.pid status = 0%Z))
  /\ (onWindows host = false ->
      getFrpcStatus host st =
      ({| FrpcStatus.running := false; FrpcStatus.pid := 0;
          FrpcStatus.error := None;
          FrpcStatus.message := Some (lit "模拟模式") |},
       {| toml := toml st; world := world st;
          trace := trace st ++ [EvEnter "getFrpcStatus"] |}))
  /\ toml st' = toml st
  /\ count isTaskkill (trace st') = count isTaskkill (trace st)
  /\ count isStart (trace st') = count isStart (trace st).
Proof.
  cbv zeta. split; [|split; [|split; [apply getFrpcStatus_toml|]]].
  - intros Hos. unfold getFrpcStatus. monad_unfold. rewrite Hos. msimpl.
    match goal with
    | |- context [getFrpcProcess host ?s0] =>
        pose proof (getFrpcProcess_locator host s0) as Er;
        destruct (getFrpcProcess host s0) as [r s1]
    end.
    cbn [fst snd trace toml world] in Er. rewrite <- Er.
    destruct r as [[p|]|e]; cbn [fst FrpcStatus.running FrpcStatus.pid
                                   FrpcStatus.error];
      repeat split; intros; try congruence; try discriminate;
      try (destruct H; congruence).
  - intros Hos. unfold getFrpcStatus. monad_unfold. rewrite Hos. reflexivity.
  - unfold getFrpcStatus. monad_unfold.
    destruct (negb (onWindows host)); msimpl.
    { rewrite !count_app. cbn. lia. }
    match goal with
    | |- context [getFrpcProcess host ?s0] =>
        destruct (getFrpcProcess_log host s0) as (_ & log & El & Hl);
        destruct (getFrpcProcess host s0) as [[[p|]|e] s1]
    end; cbn [fst snd trace toml world] in *; rewrite El, !count_app;
      destruct (locator_log_counts log Hl) as [-> ->]; cbn; lia.
Qed.

Lemma startFrpc_result {W} (host : Host W) (config : Config.t) (st : State W) :
  match locator host (world st) with
  | Ok (Some _) => fst (startFrpc host config st) = Some errAlreadyRunning
  | Err e =>
      fst (startFrpc host config st) = Some (lit "检查进程状态失败: " ++ e)
  | Ok None => True
  end.
Proof.
  destruct (onWindows host) eqn:Eos.
  2:{ rewrite (locator_off_windows host (world st))
        by (rewrite Eos; reflexivity). exact I. }
  unfold startFrpc. monad_unfold. rewrite Eos. msimpl.
  match goal with
  | |- context [getFrpcProcess host ?s0] =>
      pose proof (getFrpcProcess_locator host s0) as Er;
      destruct (getFrpcProcess host s0) as [r s1]
  end.
  cbn [fst snd trace toml world] in Er. rewrite <- Er.
  destruct r as [[pid|]|e]; first [reflexivity | exact I].
Qed.

Lemma stopFrpc_result {W} (host : Host W) (st : State W) :
  match locator host (world st) with
  | Ok None => fst (stopFrpc host st) = None
  | Err e => fst (stopFrpc host st) = Some (lit "查找进程失败: " ++ e)
  | Ok (Some _) => True
  end.
Proof.
  destruct (onWindows host) eqn:Eos.
  2:{ rewrite (locator_off_windows host (world st))
        by (rewrite Eos; reflexivity).
      unfold stopFrpc. monad_unfold. rewrite Eos. reflexivity. }
  unfold stopFrpc. monad_unfold. rewrite Eos. msimpl.
  match goal with
  | |- context [getFrpcProcess host ?s0] =>
      pose proof (getFrpcProcess_locator host s0) as Er;
      destruct (getFrpcProcess host s0) as [r s1]
  end.
  cbn [fst snd trace toml world] in Er. rewrite <- Er.
  destruct r as [[pid|]|e]; first [reflexivity | exact I].
Qed.

Lemma control_run {W} (action : M W (option error)) (message : gostring)
      (st : State W) :
  control (lit "POST") action message st =
  (match fst (action st) with
   | Some e => httpError e 500
   | None => httpJSON 200 (statusMessage message)
   end, snd (action st)).
Proof.
  unfold control. monad_unfold.
  cbn [eqs lit list_ascii_of_string Ascii.eqb Bool.eqb andb negb].
  destruct (action st) as [[e|] s1]; reflexivity.
Qed.

(** X18: the control handlers act on POST only.  For any other method
    each of [handleStartFrpc], [handleStopFrpc] and [handleRestartFrpc]
    answers 405 and calls nothing: the state gains the entry of the handler
    and no more. *)
Theorem control_needs_post {W} (host : Host W) (config : Config.t)
        (st : State W) (method : gostring) :
  method <> lit "POST" ->
  let entered fn := {| toml := toml st; world := world st;
                       trace := trace st ++ [EvEnter fn] |} in
  handleStartFrpc host config method st =
  (httpError (lit "Method not allowed") 405, entered "handleStartFrpc"%string)
  /\ handleStopFrpc host method st =
     (httpError (lit "Method not allowed") 405, entered "handleStopFrpc"%string)
  /\ handleRestartFrpc host config method st =
     (httpError (lit "Method not allowed") 405,
      entered "handleRestartFrpc"%string).
Proof.
  intros H entered. apply eqs_neq in H.
  unfold handleStartFrpc, handleStopFrpc, handleRestartFrpc, control.
  monad_unfold. rewrite H. repeat split.
Qed.

Lemma control_needs_post_witness :
  lit "GET" <> lit "POST"
  /\ fst (handleStopFrpc windows (lit "GET") (initial (Ok []) (Some 77%Z))) =
     httpError (lit "Method not allowed") 405
  /\ world (snd (handleStopFrpc windows (lit "GET")
                   (initial (Ok []) (Some 77%Z)))) = Some 77%Z.
Proof.
  assert (H : lit "GET" <> lit "POST") by discriminate.
  split; [exact H|].
  destruct (control_needs_post windows sampleConfig
              (initial (Ok []) (Some 77%Z)) (lit "GET") H) as (_ & E & _).
  rewrite E. split; reflexivity.
Defined.

(** X19: what the control handlers answer to a POST.  Start while the
    Locator reports a process: 500 with the message that frpc already runs.
    Stop while the Locator reports none: 200 with the message that frpc is
    stopped.  When the Locator fails, start and stop answer 500 with the
    error of the Locator after their own prefix.  Restart answers 200 with
    its message exactly when [restartFrpc] returns no error. *)
Theorem control_answers {W} (host : Host W) (config : Config.t)
        (st : State W) :
  (forall pid,
      locator host (world st) = Ok (Some pid) ->
      fst (handleStartFrpc host config (lit "POST") st) =
      httpError (lit "frpc 已经在运行") 500)
  /\ (locator host (world st) = Ok None ->
      fst (handleStopFrpc host (lit "POST") st) =
      httpJSON 200 (statusMessage (lit "frpc 已停止")))
  /\ (forall e,
         locator host (world st) = Err e ->
         fst (handleStartFrpc host config (lit "POST") st) =
         httpError (lit "检查进程状态失败: " ++ e) 500
         /\ fst (handleStopFrpc host (lit "POST") st) =
            httpError (lit "查找进程失败: " ++ e) 500)
  /\ (fst (handleRestartFrpc host config (lit "POST") st) =
      httpJSON 200 (statusMessage (lit "frpc 已重启"))
      <-> fst (restartFrpc host config
                 {| toml := toml st; world := world st;
                    trace := trace st ++ [EvEnter "handleRestartFrpc"] |})
          = None).
Proof.
  unfold handleStartFrpc, handleStopFrpc, handleRestartFrpc.
  unfold bind at 1 2 3 4 5. unfold emit. cbv beta iota.
  rewrite !control_run. cbn [fst].
  set (s1 := {| toml := toml st; world := world st;
                trace := trace st ++ [EvEnter "handleStartFrpc"] |}).
  set (s2 := {| toml := toml st; world := world st;
                trace := trace st ++ [EvEnter "handleStopFrpc"] |}).
  pose proof (startFrpc_result host config s1) as Hstart.
  pose proof (stopFrpc_result host s2) as Hstop.
  cbn [world s1 s2] in Hstart, Hstop.
  repeat split.
  - intros pid H. rewrite H in Hstart. rewrite Hstart. reflexivity.
  - intros H. rewrite H in Hstop. rewrite Hstop. reflexivity.
  - rewrite H in Hstart. rewrite Hstart. reflexivity.
  - rewrite H in Hstop. rewrite Hstop. reflexivity.
  - destruct (fst (restartFrpc host config _)); [discriminate | reflexivity].
  - intros ->. reflexivity.
Qed.

(** ** Restarting a running frpc *)

Lemma getFrpcProcess_world {W} (host : Host W) (st : State W) :
  world (snd (getFrpcProcess host st)) = worldAfterLocator host (world st).
Proof.
  unfold worldAfterLocator, getFrpcProcess. monad_unfold.
  repeat break_match; reflexivity.
Qed.

Lemma stopFrpc_kills {W} (host : Host W) (st : State W) (pid : Z) (w2 : W) :
  onWindows host = true ->
  locator host (world st) = Ok (Some pid) ->
  cmdRun host taskkillArgv (worldAfterLocator host (world st)) = (None, w2) ->
  exists log,
    stopFrpc host st =
    (None,
     {| toml := toml st; world := w2;
        trace := trace st ++ EvEnter "stopFrpc"
                 :: log ++ [EvRun taskkillArgv;
                            EvLog (lit "frpc 进程已停止")] |})
    /\ forallb isLocatorEvent log = true.
Proof.
  intros Hos Hloc Hkill. unfold stopFrpc. monad_unfold. rewrite Hos. msimpl.
  match goal with
  | |- context [getFrpcProcess host ?s0] =>
      pose proof (getFrpcProcess_world host s0) as Ew;
      locate (getFrpcProcess_log host s0) (getFrpcProcess_locator host s0)
             (getFrpcProcess host s0) r s1 log
  end.
  rewrite Hloc in Er. subst r. rewrite Ew, Hkill. msimpl.
  rewrite El, Ht. exists log. repeat rewrite <- app_assoc.
  split; [reflexivity | exact Hl].
Qed.

Lemma startFrpc_running {W} (host : Host W) (config : Config.t)
      (st : State W) (pid : Z) :
  locator host (world st) = Ok (Some pid) ->
  fst (startFrpc host config st) = Some errAlreadyRunning
  /\ count isStart (trace (snd (startFrpc host config st))) =
     count isStart (trace st).
Proof.
  intros Hloc. pose proof (startFrpc_result host config st) as Hr.
  rewrite Hloc in Hr. split; [exact Hr|].
  assert (Hos : onWindows host = true)
    by (apply (locator_on_windows host (world st) (Some pid) Hloc);
        discriminate).
  unfold startFrpc. monad_unfold. rewrite Hos. msimpl.
  match goal with
  | |- context [getFrpcProcess host ?s0] =>
      locate (getFrpcProcess_log host s0) (getFrpcProcess_locator host s0)
             (getFrpcProcess host s0) r s1 log
  end.
  rewrite Hloc in Er. subst r. msimpl. rewrite El, !count_app.
  destruct (locator_log_counts log Hl) as [-> _]. cbn. lia.
Qed.

Lemma startFrpc_launches {W} (host : Host W) (config : Config.t)
      (st : State W) (newPid : Z) (w5 w6 : W) :
  onWindows host = true ->
  locator host (world st) = Ok None ->
  osOpenLogFile host (worldAfterLocator host (world st)) = (None, w5) ->
  cmdStart host (frpcArgv config) w5 = (Ok newPid, w6) ->
  exists log msg,
    startFrpc host config st =
    (None,
     {| toml := toml st; world := w6;
        trace := trace st ++ EvEnter "startFrpc"
                 :: log ++ [EvOpenLogFile; EvStart (frpcArgv config);
                            EvLog msg] |}).
Proof.
  intros Hos Hloc Hopen Hstart. unfold startFrpc. monad_unfold.
  rewrite Hos. msimpl.
  match goal with
  | |- context [getFrpcProcess host ?s0] =>
      pose proof (getFrpcProcess_world host s0) as Ew;
      locate (getFrpcProcess_log host s0) (getFrpcProcess_locator host s0)
             (getFrpcProcess host s0) r s1 log
  end.
  rewrite Hloc in Er. subst r. msimpl. rewrite Ew, Hopen. msimpl.
  rewrite Hstart. msimpl.
  rewrite El, Ht. exists log. eexists. repeat rewrite <- app_assoc.
  reflexivity.
Qed.

(** X24: restarting a running frpc.  On Windows, when the Locator reports
    a process and the termination command succeeds, then, after the settle
    delay: if the Locator reports no process any more, the log file opens
    and the launch succeeds, [restartFrpc] returns no error, the state of
    the operating system is the one the launch leaves, and in the trace the
    termination command comes before the launch; but if the Locator still
    reports a process, [restartFrpc] fails with the message that frpc
    already runs and launches nothing. *)
Theorem restartFrpc_replaces_process {W} (host : Host W) (config : Config.t)
        (st : State W) (pid : Z) (o : option error) (w2 w3 : W) :
  onWindows host = true ->
  locator host (world st) = Ok (Some pid) ->
  cmdRun host taskkillArgv (worldAfterLocator host (world st)) = (None, w2) ->
  cmdRun host timeoutArgv w2 = (o, w3) ->
  let run := restartFrpc host config st in
  (forall newPid w5 w6,
      locator host w3 = Ok None ->
      osOpenLogFile host (worldAfterLocator host w3) = (None, w5) ->
      cmdStart host (frpcArgv config) w5 = (Ok newPid, w6) ->
      fst run = None
      /\ world (snd run) = w6
      /\ exists a b c,
          trace (snd run) =
          trace st ++ a ++ EvRun taskkillArgv
                   :: b ++ EvStart (frpcArgv config) :: c)
  /\ (forall pid',
         locator host w3 = Ok (Some pid') ->
         fst run = Some errAlreadyRunning
         /\ count isStart (trace (snd run)) = count isStart (trace st)).
Proof.
  intros Hos Hloc Hkill Hwait run. subst run.
  unfold restartFrpc. monad_unfold.
  match goal with
  | |- context [stopFrpc host ?s0] =>
      destruct (stopFrpc_kills host s0 pid w2 Hos Hloc Hkill)
        as (log1 & E1 & Hl1);
      rewrite E1
  end.
  msimpl. rewrite Hos. msimpl. rewrite Hwait. msimpl. split.
  - intros newPid w5 w6 Hnone Hopen Hstart.
    match goal with
    | |- context [startFrpc host config ?s0] =>
        destruct (startFrpc_launches host config s0 newPid w5 w6 Hos Hnone
                    Hopen Hstart) as (log2 & msg & E2);
        rewrite E2
    end.
    msimpl. split; [reflexivity|]. split; [reflexivity|].
    exists ([EvEnter "restartFrpc"; EvLog (lit "正在重启 frpc...");
             EvEnter "stopFrpc"] ++ log1),
      ([EvLog (lit "frpc 进程已停止"); EvRun timeoutArgv;
        EvEnter "startFrpc"] ++ log2 ++ [EvOpenLogFile]),
      [EvLog msg].
    repeat (rewrite <- ?app_assoc; cbn [app]). reflexivity.
  - intros pid' Hsome.
    match goal with
    | |- context [startFrpc host config ?s0] =>
        destruct (startFrpc_running host config s0 pid' Hsome) as [Hr Hc];
        destruct (startFrpc host config s0) as [e s5]
    end.
    cbn [fst snd trace toml world] in *. split; [exact Hr|].
    rewrite Hc, !count_app.
    destruct (locator_log_counts log1 Hl1) as [E _].
    change (EvEnter "stopFrpc" :: log1 ++ [EvRun taskkillArgv;
                                           EvLog (lit "frpc 进程已停止")])
      with ([EvEnter "stopFrpc"] ++ log1
            ++ [EvRun taskkillArgv; EvLog (lit "frpc 进程已停止")]).
    rewrite !count_app, E. cbn. lia.
Qed.

Lemma restartFrpc_replaces_process_witness :
  onWindows windows = true
  /\ locator windows (Some 77%Z) = Ok (Some 77%Z)
  /\ cmdRun windows taskkillArgv (worldAfterLocator windows (Some 77%Z)) =
     (None, None)
  /\ locator windows None = Ok None
  /\ fst (restartFrpc windows sampleConfig (initial (Ok []) (Some 77%Z))) =
     None
  /\ world (snd (restartFrpc windows sampleConfig
                   (initial (Ok []) (Some 77%Z)))) = Some 4321%Z.
Proof.
  split; [reflexivity|]. split; [reflexivity|]. split; [reflexivity|].
  split; [reflexivity|].
  destruct (proj1 (restartFrpc_replaces_process windows sampleConfig
                     (initial (Ok []) (Some 77%Z)) 77%Z None None None
                     eq_refl eq_refl eq_refl eq_refl)
                  4321%Z None (Some 4321%Z) eq_refl eq_refl eq_refl)
    as (H1 & H2 & _).
  split; assumption.
Defined.

(** ** The delete flow and the add flow *)

(** X20: what [handleDeleteFrpProxy] refuses.  A request whose method is
    not POST is answered 405, a POST whose body cannot be decoded 400, and
    a POST on a registry that cannot be read 500 with the error of the
    file; in the three cases nothing is written, no command is run and
    [restartFrpc] is not called: the trace holds the entry of the handler
    and, in the third case, the entry of [deleteFrpProxy] and its read. *)
Theorem handleDeleteFrpProxy_refusals {W} (host : Host W) (config : Config.t)
        (st : State W) (method : gostring) (decoded : result gostring) :
  let entered := {| toml := toml st; world := world st;
                    trace := trace st ++ [EvEnter "handleDeleteFrpProxy"] |} in
  (method <> lit "POST" ->
   handleDeleteFrpProxy host config method decoded st =
   (httpError (lit "Method not allowed") 405, entered))
  /\ (forall e,
         decoded = Err e ->
         handleDeleteFrpProxy host config (lit "POST") decoded st =
         (httpError e 400, entered))
  /\ (forall proxyName e,
         decoded = Ok proxyName -> toml st = Err e ->
         handleDeleteFrpProxy host config (lit "POST") decoded st =
         (httpError (lit "删除 FRP 代理失败: " ++ e) 500,
          {| toml := toml st; world := world st;
             trace := trace st ++ [EvEnter "handleDeleteFrpProxy";
                                   EvEnter "deleteFrpProxy";
                                   EvReadFile] |})).
Proof.
  cbv zeta. split; [|split].
  - intros H. apply eqs_neq in H.
    unfold handleDeleteFrpProxy. monad_unfold. rewrite H. reflexivity.
  - intros e ->. reflexivity.
  - intros proxyName e -> Hst.
    unfold handleDeleteFrpProxy, deleteFrpProxy, getToml. monad_unfold.
    cbn [eqs lit list_ascii_of_string Ascii.eqb Bool.eqb andb negb].
    rewrite Hst. msimpl. rewrite <- !app_assoc. reflexivity.
Qed.

(** X21: the delete flow.  For a POST with a name on a registry that can
    be read, [handleDeleteFrpProxy] answers 200 with the status success
    whatever [restartFrpc] returns; the registry is the old one without the
    blocks of the name; and in the trace the write of the registry comes
    before the call of [restartFrpc], which is made once the file is
    written. *)
Theorem handleDeleteFrpProxy_success {W} (host : Host W) (config : Config.t)
        (st : State W) (proxyName content : gostring) :
  toml st = Ok content ->
  let run := handleDeleteFrpProxy host config (lit "POST") (Ok proxyName) st in
  fst run = httpJSON 200 statusSuccess
  /\ toml (snd run) = Ok (deleteLines proxyName content)
  /\ exists log,
      trace (snd run) =
      trace st
      ++ EvEnter "handleDeleteFrpProxy" :: EvEnter "deleteFrpProxy"
         :: EvReadFile :: EvWriteFile (deleteLines proxyName content)
         :: EvEnter "restartFrpc" :: log.
Proof.
  intros Hst run.
  remember (handleDeleteFrpProxy host config (lit "POST") (Ok proxyName) st)
    as r eqn:Erun.
  unfold handleDeleteFrpProxy in Erun. monad_unfold.
  cbn [eqs lit list_ascii_of_string Ascii.eqb Bool.eqb andb negb] in Erun.
  match type of Erun with
  | context [deleteFrpProxy proxyName ?s0] =>
      rewrite (deleteFrpProxy_run proxyName content s0 Hst) in Erun
  end.
  cbn [fst snd trace toml world] in Erun.
  match type of Erun with
  | context [restartFrpc host config ?s2] =>
      destruct (restartFrpc_log host config s2) as (Hr & log & Er);
      destruct (restartFrpc host config s2) as [e s3]
  end.
  cbn [fst snd trace toml world] in *.
  destruct e as [e|]; subst r run; cbn [fst snd trace toml world];
    rewrite Er; repeat rewrite <- app_assoc; cbn [app];
    (split; [reflexivity | split; [assumption|]]);
    eexists; reflexivity.
Qed.

Lemma handleDeleteFrpProxy_success_witness :
  toml (initial (Ok sampleRegistry) (Some 77%Z)) = Ok sampleRegistry
  /\ fst (handleDeleteFrpProxy windows sampleConfig (lit "POST")
            (Ok (lit "web")) (initial (Ok sampleRegistry) (Some 77%Z))) =
     httpJSON 200 statusSuccess
  /\ toml (snd (handleDeleteFrpProxy windows sampleConfig (lit "POST")
                  (Ok (lit "web"))
                  (initial (Ok sampleRegistry) (Some 77%Z)))) =
     Ok (deleteLines (lit "web") sampleRegistry).
Proof.
  split; [reflexivity|].
  destruct (handleDeleteFrpProxy_success windows sampleConfig
              (initial (Ok sampleRegistry) (Some 77%Z)) (lit "web")
              sampleRegistry eq_refl) as (H1 & H2 & _).
  split; assumption.
Defined.

(** X22: the add flow when the registry cannot be opened.  On Windows,
    when the netsh command has added the rule and the registry cannot be
    opened for appending, [handleAddRule] answers 500 with the error of the
    file; the rule stays added (the command has run and nothing undoes it),
    the registry is as it was and [restartFrpc] is not called. *)
Theorem handleAddRule_registry_failure {W} (host : Host W) (config : Config.t)
        (st : State W) (req : AddRuleRequest.t) (e : error) (w1 : W) :
  onWindows host = true ->
  cmdRun host (netshAddArgv (AddRuleRequest.ListenPort req)
                            (AddRuleRequest.ConnectAddr req)
                            (AddRuleRequest.ConnectPort req)) (world st)
  = (None, w1) ->
  toml st = Err e ->
  handleAddRule host config (Ok req) st =
  (httpError (lit "更新 frpc.toml 失败: " ++ e) 500,
   {| toml := Err e; world := w1;
      trace := trace st
               ++ [EvEnter "handleAddRule"; EvEnter "addNetshRule";
                   EvRun (netshAddArgv (AddRuleRequest.ListenPort req)
                                       (AddRuleRequest.ConnectAddr req)
                                       (AddRuleRequest.ConnectPort req));
                   EvEnter "appendToFrpc"; EvOpenAppend] |}).
Proof.
  intros Hos Hrun Hst.
  unfold handleAddRule, addNetshRule, appendToFrpc, appendString, getToml.
  monad_unfold. rewrite Hos; msimpl; rewrite Hrun; msimpl.
  rewrite Hst. msimpl. now rewrite <- !app_assoc.
Qed.

Lemma handleAddRule_registry_failure_witness :
  onWindows windows = true
  /\ toml (initial (Err noSuchFile) (Some 77%Z)) = Err noSuchFile
  /\ fst (handleAddRule windows sampleConfig (Ok bobRequest)
            (initial (Err noSuchFile) (Some 77%Z))) =
     httpError (lit "更新 frpc.toml 失败: " ++ noSuchFile) 500
  /\ calls "restartFrpc"
           (trace (snd (handleAddRule windows sampleConfig (Ok bobRequest)
                          (initial (Err noSuchFile) (Some 77%Z))))) = 0.
Proof.
  split; [reflexivity|]. split; [reflexivity|].
  rewrite (handleAddRule_registry_failure windows sampleConfig
             (initial (Err noSuchFile) (Some 77%Z)) bobRequest noSuchFile
             (Some 77%Z) eq_refl eq_refl eq_refl).
  split; reflexivity.
Defined.

(** ** The Locator and the add flow on the sample host *)

Lemma getFrpcProcess_looks_up_witness :
  onWindows (simHost (lit "windows") None wmicNoNumber) = true
  /\ Contains (QUOTE :: lit "frpc.exe" ++ QUOTE :: lit "," ++ QUOTE
               :: lit "77" ++ [QUOTE; CR; LF]) (lit "frpc.exe") = true
  /\ noPidLine (wmicNoNumber 77) = false
  /\ fst (getFrpcProcess (simHost (lit "windows") None wmicNoNumber)
            (initial (Ok []) (Some 77%Z))) <> Ok None.
Proof.
  split; [reflexivity|]. split; [reflexivity|]. split; [reflexivity|].
  apply (getFrpcProcess_looks_up
           (simHost (lit "windows") None wmicNoNumber)
           (initial (Ok []) (Some 77%Z))
           (QUOTE :: lit "frpc.exe" ++ QUOTE :: lit "," ++ QUOTE
            :: lit "77" ++ [QUOTE; CR; LF])
           (wmicNoNumber 77) (Some 77%Z) (Some 77%Z)
           eq_refl eq_refl eq_refl eq_refl eq_refl).
Defined.

Lemma handleAddRule_success_order_witness :
  toml (initial (Ok sampleRegistry) (Some 77%Z)) = Ok sampleRegistry
  /\ fst (handleAddRule windows sampleConfig (Ok bobRequest)
            (initial (Ok sampleRegistry) (Some 77%Z))) =
     httpJSON 200 statusSuccess
  /\ toml (snd (handleAddRule windows sampleConfig (Ok bobRequest)
                  (initial (Ok sampleRegistry) (Some 77%Z)))) =
     Ok (sampleRegistry ++ blockOfRequest bobRequest).
Proof.
  split; [reflexivity|].
  destruct (handleAddRule_success_order windows sampleConfig
              (initial (Ok sampleRegistry) (Some 77%Z)) bobRequest
              sampleRegistry eq_refl eq_refl) as (log1 & log2 & H1 & H2 & _).
  split; assumption.
Defined.

(** ** Scenarios *)

(** A registry with the one block of the rule of alice: deleting the block
    by its name leaves a file with no marker and no record. *)
Example delete_the_only_block :
  deleteLines (ruleProxyName aliceRequest)
              (proxyBlock (ruleProxyName aliceRequest) (lit "8000")
                          (lit "18000")) = []
  /\ parseProxies [] = []
  /\ filter isMarkerLine (Split [] LF) = [].
Proof. repeat split. Qed.

(** A block with a field that no pattern matches and without a name: the
    record is returned with these fields empty. *)
Example malformed_block_is_a_record :
  parseProxies (proxiesMarker ++ LF :: lit "localPort = eighty" ++ LF
                :: lit "remotePort = 8080")
  = [FrpProxy.Build_t [] [] [] [] (lit "8080")].
Proof. reflexivity. Qed.

(** Off Windows the supervisor only logs. *)
Example restart_off_windows :
  restartFrpc (simHost (lit "linux") None wmicTable) sampleConfig
              (initial (Ok []) None) =
  (None,
   {| toml := Ok []; world := None;
      trace := [EvEnter "restartFrpc"; EvLog (lit "正在重启 frpc...");
                EvEnter "stopFrpc"; EvLog (lit "[模拟] 停止 frpc 进程");
                EvEnter "startFrpc"; EvLog (lit "[模拟] 启动 frpc 进程")] |}).
Proof. reflexivity. Qed.

(** [Fields] cuts at a no-break space (the bytes C2 A0) as at a tab, and a
    row of the table ends with a carriage return that is no part of its
    last field. *)
Example fields_of_a_row :
  Fields (lit "0.0.0.0" ++ ["194"; "160"; "009"]%char ++ lit "8080  10.0.0.5 80"
          ++ [CR])
  = [lit "0.0.0.0"; lit "8080"; lit "10.0.0.5"; lit "80"].
Proof. vm_compute. reflexivity. Qed.

(** The verb [%d] reads the digits at the front and leaves the rest: an
    underscore ends the number, and a text without a digit at its front is a
    scan error. *)
Example sscanf_stops_at_the_first_non_digit :
  Sscanf_d (lit "1_000") = Some 1%Z
  /\ Sscanf_d (lit "-12x") = Some (-12)%Z
  /\ Sscanf_d (lit "abc") = None.
Proof. repeat split. Qed.
